(** * invest_master: valuation and aggregation engine

    A shallow embedding of the portfolio engine of the repository:

    - [PortfolioRepository] (src/repositories/portfolio_repo.py): the four
      SQL queries, read as list programs over the tables;
    - [FxService] (src/services/fx_service.py): rate resolution;
    - [PortfolioService] (src/services/portfolio_service.py): the snapshot;
    - [AnalysisService] (src/services/analysis_service.py): distributions
      and summary;
    - [TransactionRepository] (src/repositories/trans_repo.py): the query
      of the recent transactions;
    - [IbkrToTransactions] (scripts/ibkr_to_transactions.py): the reading
      of the rows of a statement and of the ticker of a description.

    Numbers.  The columns [qty], [price], [cash_flow], [close_price] and
    [rate] reach Python through [float(...)], the sums and the quotient of
    the queries are computed by the database, and the services compute on
    Python floats.  Both kinds of number are modelled by the rationals [Q]:
    sums, products and quotients are exact, [float] is the identity, and
    rounding to two decimals is round-half-to-even.  Results are therefore
    stated up to binary rounding of the floating-point operations. *)

From Stdlib Require Import Ascii String OrdersEx QArith Qround Qabs Lia Lqa.
From stdpp Require Import base option list gmap strings sorting.

Local Open Scope Q_scope.

(** ** Numbers *)

Module Num.

Definition Qltb (x y : Q) : bool := negb (Qle_bool y x).

(** [Series.sum()], [sum(...)]: the sum of a column. *)
Definition Qsum (l : list Q) : Q := foldr Qplus 0 l.

(** Nearest integer, ties to the even one. *)
Definition round_half_even (x : Q) : Z :=
  let n := Qfloor x in
  match Qcompare (x - inject_Z n) (1 # 2) with
  | Lt => n
  | Gt => (n + 1)%Z
  | Eq => if Z.even n then n else (n + 1)%Z
  end.

(** [round(x, 2)] and [Series.round(2)]. *)
Definition round2 (x : Q) : Q := inject_Z (round_half_even (x * 100)) / 100.

End Num.

#[export] Instance Qlt_decision (x y : Q) : Decision (x < y) :=
  match Qlt_le_dec x y with
  | left H => left H
  | right H => right (Qle_not_lt _ _ H)
  end.

(** ** Python values *)

Module Py.

Definition lower_ascii (c : ascii) : ascii :=
  let n := N_of_ascii c in
  if ((65 <=? n) && (n <=? 90))%N then ascii_of_N (n + 32) else c.

(** [str.lower()] on the ASCII letters; other bytes are kept. *)
Fixpoint lower (s : string) : string :=
  match s with
  | EmptyString => EmptyString
  | String c s' => String (lower_ascii c) (lower s')
  end.

(** [x or y] for an optional string [x]: [None] and [''] are falsy. *)
Definition or_ (x : option string) (y : string) : string :=
  match x with
  | Some s => if String.eqb s "" then y else s
  | None => y
  end.

(** Lexicographic comparison of two sort keys. *)
Definition lex (c : comparison) (rest : bool) : bool :=
  match c with
  | Lt => true
  | Eq => rest
  | Gt => false
  end.

(** [sorted(s)]: the elements of a set of strings, ascending. *)
Definition sorted (s : gset string) : list string :=
  @merge_sort string (fun a b => lex (String_as_OT.compare a b) true = true)
    (fun a b => decide (lex (String_as_OT.compare a b) true = true))
    (elements s).

End Py.

(** ** Failures and printed lines *)

Inductive exn :=
  | DivisionByZero
  | ValueError (msg : string).

Inductive result (A : Type) :=
  | Ok (a : A)
  | Raise (e : exn).
Arguments Ok {A} a.
Arguments Raise {A} e.

#[export] Instance result_ret : MRet result := fun A a => Ok a.
#[export] Instance result_bind : MBind result := fun A B f m =>
  match m with
  | Ok a => f a
  | Raise e => Raise e
  end.

Fixpoint traverse {A B} (f : A -> result B) (l : list A) : result (list B) :=
  match l with
  | [] => Ok []
  | x :: l' =>
      match f x with
      | Ok y =>
          match traverse f l' with
          | Ok ys => Ok (y :: ys)
          | Raise e => Raise e
          end
      | Raise e => Raise e
      end
  end.

(** What [print] wrote. *)
Inductive line :=
  | MissingRate (from_currency to_currency : string).

(** ** The tables *)

Definition date := Z.

Record Transaction := {
  t_date : date;
  t_type : string;
  t_account_id : Z;
  t_asset_id : option Z;
  t_qty : option Q;
  t_price : option Q;
  t_fee : Q;
  t_tax : Q;
  t_cash_flow : Q;
  t_currency : string;
  t_fx_rate_to_base : option Q;
  t_note : option string
}.

Record Account := {
  acc_id : Z;
  acc_name : string;
  acc_broker : string;
  acc_base_currency : string
}.

Record Asset := {
  a_id : Z;
  a_ticker : string;
  a_name : string;
  a_asset_class : string;
  a_sub_class : option string;
  a_currency : string;
  a_exchange : option string;
  a_isin : option string
}.

Record MarketData := {
  md_asset_id : Z;
  md_date : date;
  md_close_price : Q
}.

Record ExchangeRate := {
  er_from_currency : string;
  er_to_currency : string;
  er_date : date;
  er_rate : Q
}.

(** The connection: the state of the store a query runs on. *)
Record Database := {
  tb_transactions : list Transaction;
  tb_assets : list Asset;
  tb_accounts : list Account;
  tb_market_data : list MarketData;
  tb_exchange_rates : list ExchangeRate
}.

(** ** SQL expressions: [NULL] is [None] *)

Module Sql.

(** [SUM]: skips [NULL]; [NULL] when no input is non-[NULL]. *)
Definition SUM (l : list (option Q)) : option Q :=
  foldr (fun v acc =>
           match v, acc with
           | Some x, Some s => Some (x + s)
           | Some x, None => Some x
           | None, _ => acc
           end) None l.

Definition mul (a b : option Q) : option Q :=
  match a, b with
  | Some x, Some y => Some (x * y)
  | _, _ => None
  end.

(** [a / b]: a zero divisor is an error of the query. *)
Definition div (a b : option Q) : result (option Q) :=
  match a, b with
  | Some x, Some y => if Qeq_bool y 0 then Raise DivisionByZero else Ok (Some (x / y))
  | _, _ => Ok None
  end.

Definition NULLIF (a : option Q) (b : Q) : option Q :=
  match a with
  | Some x => if Qeq_bool x b then None else Some x
  | None => None
  end.

(** [a > b] is true; [NULL > b] is not. *)
Definition gt (a : option Q) (b : Q) : bool :=
  match a with
  | Some x => Num.Qltb b x
  | None => false
  end.

Definition ABS (a : option Q) : option Q := Qabs <$> a.

(** [txs JOIN table ON on]: the pairs that match, in the order of [txs]. *)
Definition join {T B} (on : T -> B -> bool) (txs : list T) (table : list B)
  : list (T * B) :=
  flat_map (fun t => (fun b => (t, b)) <$> filter (fun b => on t b = true) table) txs.

(** Keys of a list in the order of their first occurrence. *)
Fixpoint distinct `{EqDecision K} (l : list K) : list K :=
  match l with
  | [] => []
  | k :: l' => k :: filter (fun k' => k' <> k) (distinct l')
  end.

(** [ORDER BY]: sorts by a total order given as a boolean test. *)
Definition order_by {A} (leb : A -> A -> bool) (l : list A) : list A :=
  @merge_sort A (fun x y => leb x y = true)
    (fun x y => decide (leb x y = true)) l.

(** [GROUP BY key]: the groups, each with its rows in table order. *)
Definition group_by `{EqDecision K} {A} (key : A -> K) (l : list A)
  : list (K * list A) :=
  (fun k => (k, filter (fun x => key x = k) l)) <$> distinct (key <$> l).

End Sql.

(** ** PortfolioRepository: src/repositories/portfolio_repo.py *)

Module PortfolioRepository.
Import Num Sql.

(** A row of [get_positions]. *)
Record Position := {
  pos_asset_id : Z;
  pos_ticker : string;
  pos_name : string;
  pos_asset_class : string;
  pos_sub_class : option string;
  pos_currency : string;
  pos_total_qty : Q;
  pos_avg_cost : option Q
}.

(** A row of [get_cash_balances]. *)
Record CashBalance := {
  cb_account_id : Z;
  cb_account_name : string;
  cb_currency : string;
  cb_balance : Q
}.

(** ["AND t.date <= %(as_of_date)s" if as_of_date else ""] *)
Definition date_filter (as_of_date : option date) (t : Transaction) : bool :=
  match as_of_date with
  | Some d => (t_date t <=? d)%Z
  | None => true
  end.

(** [tb_transactions t JOIN tb_assets a ON t.asset_id = a.id] *)
Definition join_assets (ts : list Transaction) (assets : list Asset)
  : list (Transaction * Asset) :=
  join (fun t a => bool_decide (t_asset_id t = Some (a_id a))) ts assets.

(** [WHERE t.type IN ('BUY', 'SELL') AND t.qty IS NOT NULL {date_filter}] *)
Definition positions_where (as_of_date : option date) (t : Transaction) : bool :=
  (String.eqb (t_type t) "BUY" || String.eqb (t_type t) "SELL")
  && match t_qty t with Some _ => true | None => false end
  && date_filter as_of_date t.

(** [GROUP BY a.id, a.ticker, a.name, a.asset_class, a.sub_class, a.currency] *)
Definition asset_key (a : Asset)
  : Z * string * string * string * option string * string :=
  (a_id a, a_ticker a, a_name a, a_asset_class a, a_sub_class a, a_currency a).

(** [SUM(CASE WHEN t.qty > 0 THEN t.qty * t.price ELSE 0 END)
      / NULLIF(SUM(CASE WHEN t.qty > 0 THEN t.qty ELSE 0 END), 0)] *)
Definition avg_cost_expr (g : list Transaction) : result (option Q) :=
  div
    (SUM ((fun t => if gt (t_qty t) 0 then mul (t_qty t) (t_price t) else Some 0) <$> g))
    (NULLIF (SUM ((fun t => if gt (t_qty t) 0 then t_qty t else Some 0) <$> g)) 0).

(** Modelled from the spec: the declaration of the enum type of
    [tb_assets.asset_class] is not in the repository; [ORDER BY
    a.asset_class] follows the order of its labels, taken here in the
    order the data model lists them. *)
Definition asset_class_enum : list string :=
  ["EQUITY"; "BOND"; "COMMODITY"; "REITS"; "CASH"; "ALTERNATIVE"; "MULTI";
   "BENCHMARK"].

Fixpoint enum_rank (labels : list string) (s : string) : nat :=
  match labels with
  | [] => O
  | l :: labels' => if String.eqb l s then O else S (enum_rank labels' s)
  end.

(** [ORDER BY a.asset_class, a.currency, a.ticker] *)
Definition positions_order (p1 p2 : Position) : bool :=
  Py.lex (Nat.compare (enum_rank asset_class_enum (pos_asset_class p1))
                      (enum_rank asset_class_enum (pos_asset_class p2)))
    (Py.lex (String_as_OT.compare (pos_currency p1) (pos_currency p2))
       (Py.lex (String_as_OT.compare (pos_ticker p1) (pos_ticker p2)) true)).

(** One group of [get_positions]: [HAVING SUM(t.qty) > 0.0001], then the
    select list. *)
Definition position_of_group
    (g : (Z * string * string * string * option string * string)
         * list (Transaction * Asset))
  : result (option Position) :=
  let '((id, ticker, name, asset_class, sub_class, currency), rows) := g in
  let ts := fst <$> rows in
  match SUM (t_qty <$> ts) with
  | Some total_qty =>
      if Qltb 0.0001 total_qty then
        match avg_cost_expr ts with
        | Ok avg_cost =>
            Ok (Some {| pos_asset_id := id; pos_ticker := ticker;
                        pos_name := name; pos_asset_class := asset_class;
                        pos_sub_class := sub_class; pos_currency := currency;
                        pos_total_qty := total_qty; pos_avg_cost := avg_cost |})
        | Raise e => Raise e
        end
      else Ok None
  | None => Ok None
  end.

Definition get_positions (conn : Database) (as_of_date : option date)
  : result (list Position) :=
  let rows := filter (fun r => positions_where as_of_date (fst r) = true)
                (join_assets (tb_transactions conn) (tb_assets conn)) in
  let groups := group_by (fun r => asset_key (snd r)) rows in
  match traverse position_of_group groups with
  | Ok selected =>
      Ok (order_by positions_order (omap id selected))
  | Raise e => Raise e
  end.

(** [tb_transactions t JOIN tb_accounts acc ON t.account_id = acc.id] *)
Definition join_accounts (ts : list Transaction) (accounts : list Account)
  : list (Transaction * Account) :=
  join (fun t acc => bool_decide (t_account_id t = acc_id acc)) ts accounts.

(** [GROUP BY acc.id, acc.name, t.currency] *)
Definition cash_key (r : Transaction * Account) : Z * string * string :=
  (acc_id (snd r), acc_name (snd r), t_currency (fst r)).

(** [ORDER BY acc.name, t.currency] *)
Definition cash_order (c1 c2 : CashBalance) : bool :=
  Py.lex (String_as_OT.compare (cb_account_name c1) (cb_account_name c2))
    (Py.lex (String_as_OT.compare (cb_currency c1) (cb_currency c2)) true).

(** One group of [get_cash_balances]: [HAVING ABS(SUM(t.cash_flow)) > 0.01],
    then the select list. *)
Definition cash_of_group (g : (Z * string * string) * list (Transaction * Account))
  : option CashBalance :=
  let '((id, name, currency), rows) := g in
  let balance := SUM ((fun r => Some (t_cash_flow (fst r))) <$> rows) in
  if gt (ABS balance) 0.01 then
    (fun b => {| cb_account_id := id; cb_account_name := name;
                 cb_currency := currency; cb_balance := b |}) <$> balance
  else None.

Definition get_cash_balances (conn : Database) (as_of_date : option date)
  : list CashBalance :=
  let rows := filter (fun r => date_filter as_of_date (fst r) = true)
                (join_accounts (tb_transactions conn) (tb_accounts conn)) in
  let groups := group_by cash_key rows in
  order_by cash_order (omap cash_of_group groups).

(** [SELECT DISTINCT ON (key)] over rows already ordered: the first row of
    each key. *)
Fixpoint distinct_on `{EqDecision K} {A} (key : A -> K) (l : list A) : list A :=
  match l with
  | [] => []
  | x :: l' => x :: filter (fun y => key y <> key x) (distinct_on key l')
  end.

(** [ORDER BY md.asset_id, md.date DESC] *)
Definition market_order (r1 r2 : MarketData * Asset) : bool :=
  Py.lex (Z.compare (md_asset_id (fst r1)) (md_asset_id (fst r2)))
    (Py.lex (Z.compare (md_date (fst r2)) (md_date (fst r1))) true).

(** [{ticker: {'price': ..., 'date': ...}}] *)
Definition get_latest_market_prices (conn : Database) : gmap string (Q * date) :=
  let joined :=
    join (fun md a => bool_decide (md_asset_id md = a_id a))
      (tb_market_data conn) (tb_assets conn) in
  let rows :=
    distinct_on (fun r => md_asset_id (fst r))
      (order_by market_order joined) in
  foldl (fun m r => <[a_ticker (snd r) := (md_close_price (fst r), md_date (fst r))]> m)
    ∅ rows.

(** [ORDER BY from_currency, date DESC] *)
Definition rates_order (r1 r2 : ExchangeRate) : bool :=
  Py.lex (String_as_OT.compare (er_from_currency r1) (er_from_currency r2))
    (Py.lex (Z.compare (er_date r2) (er_date r1)) true).

(** [{from_currency: rate}] *)
Definition get_latest_exchange_rates (conn : Database) (to_currency : string)
  : gmap string Q :=
  let rows :=
    distinct_on er_from_currency
      (order_by rates_order
         (filter (fun r => er_to_currency r = to_currency) (tb_exchange_rates conn))) in
  foldl (fun m r => <[er_from_currency r := er_rate r]> m) ∅ rows.

End PortfolioRepository.

(** ** FxService: src/services/fx_service.py *)

Module FxService.

Definition FALLBACK_RATES : gmap (string * string) Q :=
  list_to_map
    [ (("USD", "CNY"), 7.25);
      (("HKD", "CNY"), 0.93);
      (("CNY", "CNY"), 1.0);
      (("EUR", "CNY"), 7.85);
      (("GBP", "CNY"), 9.10);
      (("JPY", "CNY"), 0.048) ].

Record t := {
  _target : string;
  _db_rates : gmap string Q
}.

(** [FxService(conn, target_currency)]: [_load_from_db] fills [_db_rates]
    from the store. *)
Definition __init__ (conn : Database) (target_currency : string) : t :=
  {| _target := target_currency;
     _db_rates := PortfolioRepository.get_latest_exchange_rates conn target_currency |}.

(** Returns the rate and what was printed. *)
Definition get_rate (self : t) (from_currency : string) (to_currency : option string)
  : Q * list line :=
  let to_currency := Py.or_ to_currency (_target self) in
  if String.eqb from_currency to_currency then (1, [])
  else
    match (if String.eqb to_currency (_target self)
           then _db_rates self !! from_currency else None) with
    | Some rate => (rate, [])
    | None =>
        let key := (from_currency, to_currency) in
        match FALLBACK_RATES !! key with
        | Some rate => (rate, [])
        | None => (1, [MissingRate from_currency to_currency])
        end
    end.

Definition convert (self : t) (amount : option Q) (from_currency : string)
    (to_currency : option string) : Q * list line :=
  match amount with
  | None => (0, [])
  | Some amount =>
      let '(rate, out) := get_rate self from_currency to_currency in
      (amount * rate, out)
  end.

Definition get_supported_currencies (self : t) : list string :=
  let currencies : gset string := dom (_db_rates self) in
  let currencies :=
    foldl (fun s (k : string * string) => s ∪ {[ fst k ]}) currencies
      (fst <$> map_to_list FALLBACK_RATES) in
  Py.sorted currencies.

End FxService.

(** ** The snapshot frame *)

(** A row of the frame of [get_full_portfolio].  [value_base] is the column
    [value_{base_currency.lower()}]; the frame records its name in
    [columns]. *)
Record LineItem := {
  type : string;
  ticker : string;
  name : string;
  asset_class : string;
  sub_class : string;
  currency : string;
  qty : Q;
  avg_cost : Q;
  latest_price : Q;
  price_source : string;
  value_local : Q;
  value_base : Q
}.

Record DataFrame := {
  columns : list string;
  rows : list LineItem
}.

(** ** PortfolioService: src/services/portfolio_service.py *)

Module PortfolioService.
Import PortfolioRepository.

Record t := {
  _repo : Database;
  _fx : FxService.t;
  _base : string
}.

Definition __init__ (conn : Database) (base_currency : string) : t :=
  {| _repo := conn;
     _fx := FxService.__init__ conn base_currency;
     _base := base_currency |}.

Definition _schema_columns (self : t) : list string :=
  ["type"; "ticker"; "name"; "asset_class"; "sub_class";
   "currency"; "qty"; "avg_cost"; "latest_price"; "price_source";
   "value_local"; "value_" +:+ Py.lower (_base self)].

(** Body of the loop of [_build_security_df]. *)
Definition security_row (self : t) (market_prices : gmap string (Q * date))
    (pos : Position) : LineItem * list line :=
  let ticker := pos_ticker pos in
  let qty := pos_total_qty pos in
  let avg_cost :=
    match pos_avg_cost pos with
    | Some c => if Qeq_bool c 0 then 0 else c
    | None => 0
    end in
  let currency := pos_currency pos in
  let '(latest_price, price_source) :=
    match market_prices !! ticker with
    | Some mp => (fst mp, "market"%string)
    | None => (avg_cost, "cost"%string)
    end in
  let value_local := qty * latest_price in
  let '(value_base, out) := FxService.convert (_fx self) (Some value_local) currency None in
  ({| type := "SECURITY";
      ticker := ticker;
      name := pos_name pos;
      asset_class := pos_asset_class pos;
      sub_class := Py.or_ (pos_sub_class pos) "";
      currency := currency;
      qty := qty;
      avg_cost := avg_cost;
      latest_price := latest_price;
      price_source := price_source;
      value_local := value_local;
      value_base := value_base |}, out).

(** Body of the loop of [_build_cash_df]: no row for [balance <= 0]. *)
Definition cash_row (self : t) (cb : CashBalance) : option LineItem * list line :=
  let balance := cb_balance cb in
  let currency := cb_currency cb in
  if Qle_bool balance 0 then (None, [])
  else
    let '(value_base, out) := FxService.convert (_fx self) (Some balance) currency None in
    let label := cb_account_name cb +:+ "_" +:+ currency in
    (Some {| type := "CASH";
             ticker := label;
             name := cb_account_name cb +:+ " 现金";
             asset_class := "CASH";
             sub_class := currency;
             currency := currency;
             qty := balance;
             avg_cost := 1;
             latest_price := 1;
             price_source := "N/A";
             value_local := balance;
             value_base := value_base |}, out).

(** [pd.DataFrame(rows) if rows else pd.DataFrame(columns=...)]: the keys
    of the rows are the schema columns, in the same order. *)
Definition frame_of_rows (self : t) (rows : list LineItem) : DataFrame :=
  {| columns := _schema_columns self; rows := rows |}.

Definition _build_security_df (self : t) (as_of_date : option date)
  : result (DataFrame * list line) :=
  match get_positions (_repo self) as_of_date with
  | Ok positions =>
      let market_prices := get_latest_market_prices (_repo self) in
      let rs := security_row self market_prices <$> positions in
      Ok (frame_of_rows self (fst <$> rs), concat (snd <$> rs))
  | Raise e => Raise e
  end.

Definition _build_cash_df (self : t) (as_of_date : option date)
  : DataFrame * list line :=
  let cash_balances := get_cash_balances (_repo self) as_of_date in
  let rs := cash_row self <$> cash_balances in
  (frame_of_rows self (omap fst rs), concat (snd <$> rs)).

(** [pd.concat([a, b], ignore_index=True)] *)
Definition concat_frames (a b : DataFrame) : DataFrame :=
  {| columns := columns a ++ filter (fun c => c ∉ columns a) (columns b);
     rows := rows a ++ rows b |}.

(** [sort_values(['asset_class', 'currency', 'ticker'])] *)
Definition snapshot_order (r1 r2 : LineItem) : bool :=
  Py.lex (String_as_OT.compare (asset_class r1) (asset_class r2))
    (Py.lex (String_as_OT.compare (currency r1) (currency r2))
       (Py.lex (String_as_OT.compare (ticker r1) (ticker r2)) true)).

Definition get_full_portfolio (self : t) (as_of_date : option date)
  : result (DataFrame * list line) :=
  match _build_security_df self as_of_date with
  | Ok (security_df, out1) =>
      let '(cash_df, out2) := _build_cash_df self as_of_date in
      let df := concat_frames security_df cash_df in
      let df := {| columns := columns df;
                   rows := Sql.order_by snapshot_order (rows df) |} in
      Ok (df, out1 ++ out2)
  | Raise e => Raise e
  end.

End PortfolioService.

(** ** AnalysisService: src/services/analysis_service.py *)

(** Frames are objects: a name holds a reference, [copy()] makes a new
    object, and a method runs on the store of the frames. *)
Definition loc := positive.
Abbreviation heap := (gmap loc DataFrame).

(** A computation on the store; [None] only for a reference to no object. *)
Definition M (A : Type) : Type := heap -> option (result A * heap).

#[export] Instance M_ret : MRet M := fun A a h => Some (Ok a, h).
#[export] Instance M_bind : MBind M := fun A B f m h =>
  match m h with
  | Some (Ok a, h') => f a h'
  | Some (Raise e, h') => Some (Raise e, h')
  | None => None
  end.

Definition raise {A} (e : exn) : M A := fun h => Some (Raise e, h).

(** Reads the frame a reference holds. *)
Definition load (l : loc) : M DataFrame := fun h =>
  match h !! l with
  | Some df => Some (Ok df, h)
  | None => None
  end.

(** [df.copy()]: a new object with the same content. *)
Definition copy (l : loc) : M loc := fun h =>
  match h !! l with
  | Some df => let l' := fresh (dom h) in Some (Ok l', <[l' := df]> h)
  | None => None
  end.

Module ClassRow.
Record t := {
  asset_class : string;
  value : Q;
  count : nat;
  has_cost_only : bool;
  label : string;
  weight_pct : Q
}.
End ClassRow.

Module CurrencyRow.
Record t := {
  currency : string;
  value : Q;
  count : nat;
  label : string;
  weight_pct : Q
}.
End CurrencyRow.

Module AccountRow.
Record t := {
  name : string;
  currency : string;
  qty : Q;
  value : Q;
  weight_pct : Q
}.
End AccountRow.

Module Summary.
Record t := {
  total_value : Q;
  security_value : Q;
  cash_value : Q;
  base_currency : string;
  position_count : nat;
  price_warn_count : nat
}.
End Summary.

Module AnalysisService.
Import Num.

Definition ASSET_CLASS_LABELS : gmap string string :=
  list_to_map
    [ ("EQUITY", "股票"); ("BOND", "债券"); ("COMMODITY", "商品");
      ("REITS", "REITs"); ("CASH", "现金"); ("ALTERNATIVE", "另类");
      ("MULTI", "混合"); ("BENCHMARK", "基准指数") ]%string.

Definition CURRENCY_LABELS : gmap string string :=
  list_to_map
    [ ("CNY", "人民币 (CNY)"); ("USD", "美元 (USD)"); ("HKD", "港币 (HKD)");
      ("EUR", "欧元 (EUR)"); ("GBP", "英镑 (GBP)"); ("JPY", "日元 (JPY)") ]%string.

Record t := {
  _df : loc;
  _base : string;
  _val_col : string
}.

Definition __init__ (portfolio_df : loc) (base_currency : string) : M t :=
  df ← copy portfolio_df;
  let self := {| _df := df; _base := base_currency;
                 _val_col := "value_" +:+ Py.lower base_currency |} in
  frame ← load df;
  if bool_decide (_val_col self ∈ columns frame) then mret self
  else raise (ValueError ("portfolio_df 中缺少列 '" +:+ _val_col self
                          +:+ "'，请检查 PortfolioService 配置")).

(** [groupby(key, sort=False)]: the groups in the order of first
    occurrence of their key. *)
Definition groupby (key : LineItem -> string) (rows : list LineItem)
  : list (string * list LineItem) :=
  Sql.group_by key rows.

(** [.map(labels).fillna(key)] *)
Definition label_of (labels : gmap string string) (key : string) : string :=
  default key (labels !! key).

Definition get_asset_class_distribution (self : t) : M (list ClassRow.t) :=
  df ← load (_df self);
  let total := Qsum (value_base <$> rows df) in
  if Qeq_bool total 0 then mret []
  else
    let grp :=
      (fun g : string * list LineItem =>
         (fst g,
          Qsum (value_base <$> snd g),
          length (snd g),
          existsb (fun r => String.eqb (price_source r) "cost") (snd g)))
      <$> groupby asset_class (rows df) in
    let grp :=
      (fun '(asset_class, value, count, has_cost_only) =>
         {| ClassRow.asset_class := asset_class;
            ClassRow.label := label_of ASSET_CLASS_LABELS asset_class;
            ClassRow.weight_pct := round2 (value / total * 100);
            ClassRow.value := round2 value;
            ClassRow.count := count;
            ClassRow.has_cost_only := has_cost_only |})
      <$> grp in
    mret (Sql.order_by
            (fun r1 r2 => Qle_bool (ClassRow.value r2) (ClassRow.value r1)) grp).

Definition get_currency_distribution (self : t) : M (list CurrencyRow.t) :=
  df ← load (_df self);
  let total := Qsum (value_base <$> rows df) in
  if Qeq_bool total 0 then mret []
  else
    let grp :=
      (fun g : string * list LineItem =>
         (fst g, Qsum (value_base <$> snd g), length (snd g)))
      <$> groupby currency (rows df) in
    let grp :=
      (fun '(currency, value, count) =>
         {| CurrencyRow.currency := currency;
            CurrencyRow.label := label_of CURRENCY_LABELS currency;
            CurrencyRow.weight_pct := round2 (value / total * 100);
            CurrencyRow.value := round2 value;
            CurrencyRow.count := count |})
      <$> grp in
    mret (Sql.order_by
            (fun r1 r2 => Qle_bool (CurrencyRow.value r2) (CurrencyRow.value r1)) grp).

Definition get_account_distribution (self : t) : M (list AccountRow.t) :=
  df ← load (_df self);
  let total := Qsum (value_base <$> rows df) in
  if Qeq_bool total 0 then mret []
  else
    let cash_df := filter (fun r => type r = "CASH"%string) (rows df) in
    mret ((fun r =>
             {| AccountRow.name := name r;
                AccountRow.currency := currency r;
                AccountRow.qty := qty r;
                AccountRow.weight_pct := round2 (value_base r / total * 100);
                AccountRow.value := round2 (value_base r) |})
          <$> cash_df).

Definition get_summary (self : t) : M Summary.t :=
  df ← load (_df self);
  let total := Qsum (value_base <$> rows df) in
  let security_val :=
    Qsum (value_base <$> filter (fun r => type r = "SECURITY"%string) (rows df)) in
  let cash_val :=
    Qsum (value_base <$> filter (fun r => type r = "CASH"%string) (rows df)) in
  let price_warn_count :=
    length (filter (fun r => price_source r = "cost"%string) (rows df)) in
  mret {| Summary.total_value := round2 total;
          Summary.security_value := round2 security_val;
          Summary.cash_value := round2 cash_val;
          Summary.base_currency := _base self;
          Summary.position_count :=
            length (filter (fun r => type r = "SECURITY"%string) (rows df));
          Summary.price_warn_count := price_warn_count |}.

(** The public methods, and what a call returns. *)
Inductive method :=
  | AssetClassDistribution
  | CurrencyDistribution
  | AccountDistribution
  | GetSummary.

Inductive answer :=
  | ClassRows (l : list ClassRow.t)
  | CurrencyRows (l : list CurrencyRow.t)
  | AccountRows (l : list AccountRow.t)
  | SummaryOf (s : Summary.t).

Definition call (self : t) (m : method) : M answer :=
  match m with
  | AssetClassDistribution => r ← get_asset_class_distribution self; mret (ClassRows r)
  | CurrencyDistribution => r ← get_currency_distribution self; mret (CurrencyRows r)
  | AccountDistribution => r ← get_account_distribution self; mret (AccountRows r)
  | GetSummary => r ← get_summary self; mret (SummaryOf r)
  end.

(** A sequence of calls on one service. *)
Fixpoint calls (self : t) (ms : list method) : M (list answer) :=
  match ms with
  | [] => mret []
  | m :: ms' =>
      a ← call self m;
      l ← calls self ms';
      mret (a :: l)
  end.

End AnalysisService.

(** ** TransactionRepository: src/repositories/trans_repo.py *)

Module TransactionRepository.

(** [rows LEFT JOIN table ON on]: a row without a match is kept once, with
    [NULL] for the columns of the table. *)
Definition left_join {T B} (on : T -> B -> bool) (rows : list T) (table : list B)
  : list (T * option B) :=
  flat_map (fun t =>
              match filter (fun b => on t b = true) table with
              | [] => [(t, None)]
              | bs => (fun b => (t, Some b)) <$> bs
              end) rows.

(** A row of [get_recent_transactions]. *)
Record RecentRow := {
  rr_date : date;
  rr_type : string;
  rr_ticker : option string;
  rr_account : option string;
  rr_qty : option Q;
  rr_price : option Q;
  rr_cash_flow : Q
}.

Definition recent_row (r : Transaction * option Asset * option Account) : RecentRow :=
  let '(t, a, ac) := r in
  {| rr_date := t_date t; rr_type := t_type t;
     rr_ticker := a_ticker <$> a; rr_account := acc_name <$> ac;
     rr_qty := t_qty t; rr_price := t_price t; rr_cash_flow := t_cash_flow t |}.

(** [ORDER BY t.date DESC] *)
Definition recent_order (r1 r2 : Transaction * option Asset * option Account) : bool :=
  (t_date (fst (fst r2)) <=? t_date (fst (fst r1)))%Z.

(** [LIMIT limit], for a limit that is not negative. *)
Definition get_recent_transactions (conn : Database) (limit : nat)
  : list RecentRow :=
  let joined :=
    left_join (fun r ac => bool_decide (t_account_id (fst r) = acc_id ac))
      (left_join (fun t a => bool_decide (t_asset_id t = Some (a_id a)))
         (tb_transactions conn) (tb_assets conn))
      (tb_accounts conn) in
  recent_row <$> take limit (Sql.order_by recent_order joined).

End TransactionRepository.

(** ** The import script: scripts/ibkr_to_transactions.py *)

Module IbkrToTransactions.

(** The character class [[A-Z0-9.]]. *)
Definition ticker_char (c : ascii) : bool :=
  let n := N_of_ascii c in
  (((65 <=? n) && (n <=? 90)) || ((48 <=? n) && (n <=? 57)) || (n =? 46))%N.

(** [re.match(r"^([A-Z0-9.]+)\(", s)], the group being [acc] so far: the
    repetition takes a character of the class while the rest still
    matches, and gives it back otherwise. *)
Fixpoint match_ticker (acc s : string) : option string :=
  match s with
  | EmptyString => None
  | String c s' =>
      match (if ticker_char c then match_ticker (acc +:+ String c EmptyString) s'
             else None) with
      | Some m => Some m
      | None =>
          if negb (String.eqb acc "") && Ascii.eqb c "("%char then Some acc
          else None
      end
  end.

Definition extract_ticker_from_desc (description : string) : string :=
  match match_ticker "" description with
  | Some m => m
  | None => ""
  end.

(** [dict(zip(headers, cells))]: [zip] stops at the shorter list, and a
    later field of the same name replaces an earlier one. *)
Definition dict_zip (headers cells : list string) : gmap string string :=
  foldl (fun m kv => <[fst kv := snd kv]> m) ∅ (zip headers cells).

(** The loop of [parse_ibkr_csv] over the rows the reader gives. *)
Fixpoint parse_rows (reader : list (list string)) (headers : option (list string))
    (rows : list (gmap string string)) : result (list (gmap string string)) :=
  match reader with
  | [] => Ok rows
  | row :: reader' =>
      match row with
      | c0 :: c1 :: cells =>
          if String.eqb c0 "Transaction History" && String.eqb c1 "Header"
          then parse_rows reader' (Some cells) rows
          else if String.eqb c0 "Transaction History" && String.eqb c1 "Data"
          then
            match headers with
            | None => Raise (ValueError "未找到 Transaction History Header 行")
            | Some hs => parse_rows reader' headers (rows ++ [dict_zip hs cells])
            end
          else parse_rows reader' headers rows
      | _ => parse_rows reader' headers rows
      end
  end.

(** [parse_ibkr_csv], on the rows of the file. *)
Definition parse_ibkr_csv (reader : list (list string))
  : result (list (gmap string string)) :=
  parse_rows reader None [].

End IbkrToTransactions.

(** ** The vocabulary of the claims *)

(** The transactions the positions computation considers: of type BUY or
    SELL, with a quantity, and dated on or before [as_of_date] when one is
    given. *)
Definition on_or_before (as_of_date : option date) (t : Transaction) : Prop :=
  match as_of_date with
  | Some d => (t_date t <= d)%Z
  | None => True
  end.

Definition considered (as_of_date : option date) (t : Transaction) : Prop :=
  (t_type t = "BUY"%string \/ t_type t = "SELL"%string)
  /\ is_Some (t_qty t)
  /\ on_or_before as_of_date t.

#[export] Instance on_or_before_dec d t : Decision (on_or_before d t).
Proof. destruct d; simpl; apply _. Defined.

#[export] Instance considered_dec d t : Decision (considered d t).
Proof. unfold considered. apply _. Defined.

(** The considered transactions of one asset, in ledger order. *)
Definition trades_of (conn : Database) (as_of_date : option date) (asset : Z)
  : list Transaction :=
  filter (fun t => t_asset_id t = Some asset /\ considered as_of_date t)
    (tb_transactions conn).

(** The transactions of one account in one currency, of every type. *)
Definition flows_of (conn : Database) (as_of_date : option date)
    (account : Z) (currency : string) : list Transaction :=
  filter (fun t => t_account_id t = account /\ t_currency t = currency
                   /\ on_or_before as_of_date t)
    (tb_transactions conn).

Definition qty_of (t : Transaction) : Q := default 0 (t_qty t).
Definition price_of (t : Transaction) : Q := default 0 (t_price t).

(** The rows with a positive quantity. *)
Definition buys (g : list Transaction) : list Transaction :=
  filter (fun t => 0 < qty_of t) g.

(** The position row of an asset. *)
Definition position_row (a : Asset) (total_qty : Q) (avg_cost : option Q)
  : PortfolioRepository.Position :=
  {| PortfolioRepository.pos_asset_id := a_id a;
     PortfolioRepository.pos_ticker := a_ticker a;
     PortfolioRepository.pos_name := a_name a;
     PortfolioRepository.pos_asset_class := a_asset_class a;
     PortfolioRepository.pos_sub_class := a_sub_class a;
     PortfolioRepository.pos_currency := a_currency a;
     PortfolioRepository.pos_total_qty := total_qty;
     PortfolioRepository.pos_avg_cost := avg_cost |}.

(** The order of the cash balances: by account name, then by currency
    (strings compared byte by byte). *)
Definition by_name_then_currency (c1 c2 : PortfolioRepository.CashBalance) : Prop :=
  String_as_OT.lt (PortfolioRepository.cb_account_name c1)
                  (PortfolioRepository.cb_account_name c2)
  \/ (PortfolioRepository.cb_account_name c1 = PortfolioRepository.cb_account_name c2
      /\ (String_as_OT.lt (PortfolioRepository.cb_currency c1)
                          (PortfolioRepository.cb_currency c2)
          \/ PortfolioRepository.cb_currency c1 = PortfolioRepository.cb_currency c2)).

(** The total reporting value of a frame, and that of its CASH rows. *)
Definition total_of (df : DataFrame) : Q := Num.Qsum (value_base <$> rows df).

Definition cash_of (df : DataFrame) : Q :=
  Num.Qsum (value_base <$> filter (fun r => type r = "CASH"%string) (rows df)).

(** "The weights sum to 100.0 within a tolerance of 0.05". *)
Definition within_tolerance (weights : list Q) : Prop :=
  Qabs (Num.Qsum weights - 100) <= 0.05.

(** The rounding allowance of [n] weights: 0.005 each. *)
Definition allowance (n : nat) : Q := (1 # 200) * inject_Z (Z.of_nat n).

(** ** Scenarios *)

Definition tx (d : date) (type : string) (account : Z) (asset : option Z)
    (qty price : option Q) (cash_flow : Q) (currency : string) : Transaction :=
  {| t_date := d; t_type := type; t_account_id := account; t_asset_id := asset;
     t_qty := qty; t_price := price; t_fee := 0; t_tax := 0;
     t_cash_flow := cash_flow; t_currency := currency;
     t_fx_rate_to_base := None; t_note := None |}.

Definition asset_abc : Asset :=
  {| a_id := 1%Z; a_ticker := "ABC"; a_name := "ABC Corp"; a_asset_class := "EQUITY";
     a_sub_class := None; a_currency := "USD"; a_exchange := None; a_isin := None |}.

Definition account_main : Account :=
  {| acc_id := 1%Z; acc_name := "Main"; acc_broker := "Broker";
     acc_base_currency := "CNY" |}.

(** Two BUYs of one asset: 10 at 100, then 10 at 200. *)
Definition ledger_two_buys : Database :=
  {| tb_transactions :=
       [ tx 1%Z "BUY" 1%Z (Some 1%Z) (Some 10) (Some 100) (-1000) "USD";
         tx 2%Z "BUY" 1%Z (Some 1%Z) (Some 10) (Some 200) (-2000) "USD" ];
     tb_assets := [asset_abc];
     tb_accounts := [account_main];
     tb_market_data := [];
     tb_exchange_rates := [] |}.

(** One DEPOSIT of +5000 CNY and one FEE of -50 CNY in one account. *)
Definition ledger_deposit_fee : Database :=
  {| tb_transactions :=
       [ tx 1%Z "DEPOSIT" 1%Z None None None 5000 "CNY";
         tx 2%Z "FEE" 1%Z None None None (-50) "CNY" ];
     tb_assets := [];
     tb_accounts := [account_main];
     tb_market_data := [];
     tb_exchange_rates := [] |}.

(** A service with the target CNY and no loaded rate. *)
Definition fx_cny : FxService.t :=
  {| FxService._target := "CNY"; FxService._db_rates := ∅ |}.

(** One BUY of 100 ABC at 10 USD, with the given market prices. *)
Definition ledger_abc (prices : list MarketData) : Database :=
  {| tb_transactions :=
       [ tx 1%Z "BUY" 1%Z (Some 1%Z) (Some 100) (Some 10) (-1000) "USD" ];
     tb_assets := [asset_abc];
     tb_accounts := [account_main];
     tb_market_data := prices;
     tb_exchange_rates := [] |}.

Definition abc_at_12 : MarketData :=
  {| md_asset_id := 1%Z; md_date := 1%Z; md_close_price := 12 |}.

(** The line item of 100 ABC valued at [price] from [source]. *)
Definition abc_item (cost price : Q) (source : string) (value value_cny : Q)
  : LineItem :=
  {| type := "SECURITY"; ticker := "ABC"; name := "ABC Corp";
     asset_class := "EQUITY"; sub_class := ""; currency := "USD";
     qty := 100; avg_cost := cost; latest_price := price; price_source := source;
     value_local := value; value_base := value_cny |}.

(** The store holding the snapshot of a ledger at the reference [1]. *)
Definition snapshot_store (conn : Database) : heap :=
  match PortfolioService.get_full_portfolio (PortfolioService.__init__ conn "CNY") None with
  | Ok (df, _) => {[ 1%positive := df ]}
  | Raise _ => ∅
  end.

(** A frame of the reporting currency CNY. *)
Definition frame_cny (rows : list LineItem) : DataFrame :=
  {| columns := ["type"; "ticker"; "name"; "asset_class"; "sub_class";
                 "currency"; "qty"; "avg_cost"; "latest_price"; "price_source";
                 "value_local"; "value_cny"]%string;
     rows := rows |}.

(** The analysis of the frame at the reference [1], in CNY. *)
Definition analysis_cny : AnalysisService.t :=
  {| AnalysisService._df := 1%positive;
     AnalysisService._base := "CNY";
     AnalysisService._val_col := "value_cny" |}.

(** The empty ledger. *)
Definition ledger_empty : Database :=
  {| tb_transactions := []; tb_assets := []; tb_accounts := [];
     tb_market_data := []; tb_exchange_rates := [] |}.

(** A DEPOSIT of 100 CNY and a BUY of one share at 50 CNY: half of the
    snapshot is cash. *)
Definition asset_cna : Asset :=
  {| a_id := 2%Z; a_ticker := "CNA"; a_name := "CN A"; a_asset_class := "EQUITY";
     a_sub_class := None; a_currency := "CNY"; a_exchange := None; a_isin := None |}.

Definition ledger_half_cash : Database :=
  {| tb_transactions :=
       [ tx 1%Z "DEPOSIT" 1%Z None None None 100 "CNY";
         tx 2%Z "BUY" 1%Z (Some 2%Z) (Some 1) (Some 50) (-50) "CNY" ];
     tb_assets := [asset_cna];
     tb_accounts := [account_main];
     tb_market_data := [];
     tb_exchange_rates := [] |}.

(** Nineteen deposits of 1, each in a currency of its own (none has a
    rate: each is converted at 1). *)
Definition nineteen_codes : list string :=
  ["C01"; "C02"; "C03"; "C04"; "C05"; "C06"; "C07"; "C08"; "C09"; "C10";
   "C11"; "C12"; "C13"; "C14"; "C15"; "C16"; "C17"; "C18"; "C19"]%string.

Definition ledger_nineteen : Database :=
  {| tb_transactions :=
       (fun c => tx 1%Z "DEPOSIT" 1%Z None None None 1 c) <$> nineteen_codes;
     tb_assets := [];
     tb_accounts := [account_main];
     tb_market_data := [];
     tb_exchange_rates := [] |}.

(** The snapshot of [ledger_half_cash]. *)
Definition frame_half_cash : DataFrame :=
  frame_cny
    [ {| type := "CASH"; ticker := "Main_CNY"; name := "Main 现金";
         asset_class := "CASH"; sub_class := "CNY"; currency := "CNY";
         qty := 50; avg_cost := 1; latest_price := 1;
         price_source := "N/A"; value_local := 50; value_base := 50 |};
      {| type := "SECURITY"; ticker := "CNA"; name := "CN A";
         asset_class := "EQUITY"; sub_class := ""; currency := "CNY";
         qty := 1; avg_cost := 50; latest_price := 50;
         price_source := "cost"; value_local := 50; value_base := 50 |} ].

(** A ledger with two assets, two prices of ABC and two persisted rates
    from USD to CNY. *)
Definition abc_at_15 : MarketData :=
  {| md_asset_id := 1%Z; md_date := 3%Z; md_close_price := 15 |}.

Definition usd_cny (d : date) (rate : Q) : ExchangeRate :=
  {| er_from_currency := "USD"; er_to_currency := "CNY";
     er_date := d; er_rate := rate |}.

Definition ledger_mixed : Database :=
  {| tb_transactions :=
       [ tx 1%Z "DEPOSIT" 1%Z None None None 2000 "USD";
         tx 2%Z "BUY" 1%Z (Some 1%Z) (Some 100) (Some 10) (-1000) "USD";
         tx 3%Z "DEPOSIT" 1%Z None None None 500 "CNY";
         tx 4%Z "BUY" 1%Z (Some 2%Z) (Some 1) (Some 50) (-50) "CNY" ];
     tb_assets := [asset_abc; asset_cna];
     tb_accounts := [account_main];
     tb_market_data := [abc_at_12; abc_at_15];
     tb_exchange_rates := [usd_cny 1%Z 7.10; usd_cny 2%Z 7.20] |}.

(** One BUY recorded without a price: the position has no average cost
    and no market price. *)
Definition ledger_unpriced : Database :=
  {| tb_transactions :=
       [ tx 1%Z "BUY" 1%Z (Some 1%Z) (Some 10) None 0 "USD" ];
     tb_assets := [asset_abc];
     tb_accounts := [account_main];
     tb_market_data := [];
     tb_exchange_rates := [] |}.

(** The snapshot of a ledger in CNY, and what its valuation prints. *)
Definition snapshot_of (conn : Database) : DataFrame :=
  match PortfolioService.get_full_portfolio (PortfolioService.__init__ conn "CNY") None with
  | Ok (df, _) => df
  | Raise _ => {| columns := []; rows := [] |}
  end.

Definition warnings_of (conn : Database) : list line :=
  match PortfolioService.get_full_portfolio (PortfolioService.__init__ conn "CNY") None with
  | Ok (_, out) => out
  | Raise _ => []
  end.

(** ** The vocabulary of the further properties *)

(** The order of the snapshot: by asset class, then by currency, then by
    ticker (strings compared byte by byte). *)
Definition by_class_currency_ticker (r1 r2 : LineItem) : Prop :=
  String_as_OT.lt (asset_class r1) (asset_class r2)
  \/ (asset_class r1 = asset_class r2
      /\ (String_as_OT.lt (currency r1) (currency r2)
          \/ (currency r1 = currency r2
              /\ (String_as_OT.lt (ticker r1) (ticker r2)
                  \/ ticker r1 = ticker r2)))).

(** The service reads the value column of the frame: [_val_col] names
    the last column, the one the rows hold as [value_base]. *)
Definition reads_value_column (svc : AnalysisService.t) (df : DataFrame) : Prop :=
  last (columns df) = Some (AnalysisService._val_col svc).

(** The ledger cut at a date: the transactions dated on or before it, the
    other tables as they are. *)
Definition ledger_until (conn : Database) (d : date) : Database :=
  {| tb_transactions := filter (fun t => (t_date t <= d)%Z) (tb_transactions conn);
     tb_assets := tb_assets conn;
     tb_accounts := tb_accounts conn;
     tb_market_data := tb_market_data conn;
     tb_exchange_rates := tb_exchange_rates conn |}.

(** The asset and the account a transaction refers to, and its row in the
    list of the recent transactions. *)
Definition asset_of (conn : Database) (t : Transaction) : option Asset :=
  head (filter (fun a => t_asset_id t = Some (a_id a)) (tb_assets conn)).

Definition account_of (conn : Database) (t : Transaction) : option Account :=
  head (filter (fun ac => t_account_id t = acc_id ac) (tb_accounts conn)).

Definition recent_of (conn : Database) (t : Transaction)
  : TransactionRepository.RecentRow :=
  TransactionRepository.recent_row (t, asset_of conn t, account_of conn t).

(** The rows of the section Transaction History. *)
Definition is_header (row : list string) : bool :=
  match row with
  | c0 :: c1 :: _ => String.eqb c0 "Transaction History" && String.eqb c1 "Header"
  | _ => false
  end.

Definition is_data (row : list string) : bool :=
  match row with
  | c0 :: c1 :: _ => String.eqb c0 "Transaction History" && String.eqb c1 "Data"
  | _ => false
  end.

(** The field names in force at the end of some rows: those of the last
    header row. *)
Definition headers_after (reader : list (list string)) : option (list string) :=
  drop 2 <$> last (filter (fun row => is_header row = true) reader).

(** The field names in force after some rows, [headers] being in force
    before them. *)
Definition in_force (headers : option (list string)) (pre : list (list string))
  : option (list string) :=
  match headers_after pre with
  | Some hs => Some hs
  | None => headers
  end.

(** A string of characters of the class. *)
Fixpoint all_ticker (s : string) : bool :=
  match s with
  | EmptyString => true
  | String c s' => IbkrToTransactions.ticker_char c && all_ticker s'
  end.

(** A file with a line of another section, the header row and two data
    rows of the transaction history. *)
Definition ibkr_rows : list (list string) :=
  [ ["Statement"; "Data"; "Title"; "Transaction History"];
    ["Transaction History"; "Header"; "Date"; "Symbol"; "Net Amount"];
    ["Transaction History"; "Data"; "2024-01-02"; "SGOV"; "-1000"];
    [];
    ["Transaction History"; "Data"; "2024-01-03"; "-"; "5.2"] ]%string.

(** * Properties *)

(** ** Rate resolution *)

Section Rates.
Import FxService.
Variable self : FxService.t.

Lemma or_nonempty (s d : string) : s <> ""%string -> Py.or_ (Some s) d = s.
Proof.
  intros Hs. unfold Py.or_.
  destruct (String.eqb_spec s "") as [->|_]; [contradiction|reflexivity].
Qed.

(** C1: for two currencies [f] and [t] (a currency is not the empty
    string), [get_rate self f t] is [1.0], with nothing printed, when
    [f = t], whatever the loaded rates are; otherwise it is the loaded
    rate of [f] when [t] is the target and the rate is loaded; otherwise
    the entry of the fallback table under [(f, t)] when there is one;
    otherwise [1.0] after the missing-rate line is printed.  [get_rate]
    is a total function: it returns a rate on every input.  Left out,
    [to_currency] is the target. *)
Theorem get_rate_chain (f t : string) :
  t <> ""%string ->
  (f = t -> get_rate self f (Some t) = (1, []))
  /\ (f <> t -> t = _target self ->
      forall r, _db_rates self !! f = Some r ->
                get_rate self f (Some t) = (r, []))
  /\ (f <> t -> (t = _target self -> _db_rates self !! f = None) ->
      forall r, FALLBACK_RATES !! (f, t) = Some r ->
                get_rate self f (Some t) = (r, []))
  /\ (f <> t -> (t = _target self -> _db_rates self !! f = None) ->
      FALLBACK_RATES !! (f, t) = None ->
      get_rate self f (Some t) = (1, [MissingRate f t]))
  /\ get_rate self f None = get_rate self f (Some (_target self)).
Proof.
  intros Ht. unfold get_rate. rewrite (or_nonempty t _ Ht).
  repeat split.
  - intros ->. now rewrite String.eqb_refl.
  - intros Hne -> r Hr.
    destruct (String.eqb_spec f (_target self)); [contradiction|].
    now rewrite String.eqb_refl, Hr.
  - intros Hne Hdb r Hr.
    destruct (String.eqb_spec f t); [contradiction|].
    destruct (String.eqb_spec t (_target self)) as [e|_].
    + now rewrite (Hdb e), Hr.
    + now rewrite Hr.
  - intros Hne Hdb Hfb.
    destruct (String.eqb_spec f t); [contradiction|].
    destruct (String.eqb_spec t (_target self)) as [e|_].
    + now rewrite (Hdb e), Hfb.
    + now rewrite Hfb.
  - simpl. destruct (String.eqb_spec (_target self) ""); reflexivity.
Qed.

(** C9: [convert] maps a missing amount to [0.0], and any other amount to
    the amount times the rate [get_rate] resolves (printing what
    [get_rate] prints). *)
Theorem convert_amount (f : string) (t : option string) :
  convert self None f t = (0, [])
  /\ forall amount : Q,
       convert self (Some amount) f t
       = (amount * fst (get_rate self f t), snd (get_rate self f t)).
Proof.
  split; [reflexivity|].
  intros amount. unfold convert. now destruct (get_rate self f t).
Qed.

End Rates.

Lemma get_rate_chain_witness :
  FxService.get_rate fx_cny "USD" (Some "CNY"%string) = (7.25, []).
Proof.
  refine (proj1 (proj2 (proj2 (get_rate_chain fx_cny "USD" "CNY" _))) _ _ _ _).
  - discriminate.
  - discriminate.
  - reflexivity.
  - vm_compute. reflexivity.
Defined.

(** The unresolved pair of the spec's scenario: [1.0], and the line. *)
Example get_rate_unresolved :
  FxService.get_rate fx_cny "XYZ" None = (1, [MissingRate "XYZ" "CNY"]).
Proof. vm_compute. reflexivity. Qed.

(** An empty [to_currency] is falsy and replaced by the target: the
    restriction of C1 to currency codes is needed. *)
Example get_rate_empty_code :
  FxService.get_rate
    {| FxService._target := "CNY"; FxService._db_rates := {[ ""%string := 7 ]} |}
    "" (Some ""%string) = (7, []).
Proof. vm_compute. reflexivity. Qed.

(** ** Sums *)

Lemma Qltb_lt (x y : Q) : Num.Qltb x y = true <-> x < y.
Proof.
  unfold Num.Qltb. rewrite negb_true_iff, <- not_true_iff_false, Qle_bool_iff.
  split; [apply Qnot_le_lt | apply Qlt_not_le].
Qed.

(** In [Q], adding zero on the right changes nothing, not even the
    representation. *)
Lemma Qplus_0_r_eq (x : Q) : x + 0 = x.
Proof.
  destruct x as [n d]. unfold Qplus; simpl.
  f_equal; [lia | apply Pos.mul_1_r].
Qed.

Lemma Qsum_cons (x : Q) (l : list Q) : Num.Qsum (x :: l) = x + Num.Qsum l.
Proof. reflexivity. Qed.

Lemma Qsum_fmap_cons {A} (f : A -> Q) (x : A) (l : list A) :
  Num.Qsum (f <$> x :: l) = f x + Num.Qsum (f <$> l).
Proof. reflexivity. Qed.

Lemma Qsum_app (l1 l2 : list Q) : Num.Qsum (l1 ++ l2) == Num.Qsum l1 + Num.Qsum l2.
Proof.
  induction l1 as [|x l1 IH].
  - symmetry. apply Qplus_0_l.
  - rewrite <- app_comm_cons, !Qsum_cons, IH. ring.
Qed.

Lemma Qsum_Permutation (l1 l2 : list Q) : l1 ≡ₚ l2 -> Num.Qsum l1 == Num.Qsum l2.
Proof.
  induction 1 as [|x l1 l2 _ IH|x y l|l1 l2 l3 _ IH1 _ IH2].
  - reflexivity.
  - now rewrite !Qsum_cons, IH.
  - rewrite !Qsum_cons. ring.
  - now rewrite IH1.
Qed.

Lemma Qsum_fmap_ext {A} (f g : A -> Q) (l : list A) :
  (forall x, x ∈ l -> f x == g x) -> Num.Qsum (f <$> l) == Num.Qsum (g <$> l).
Proof.
  induction l as [|x l IH]; intros H.
  - reflexivity.
  - rewrite !Qsum_fmap_cons, (H x), IH.
    + reflexivity.
    + intros y Hy. apply H. now right.
    + now left.
Qed.

Lemma Qsum_fmap_zero {A} (l : list A) : Num.Qsum ((fun _ => 0) <$> l) == 0.
Proof.
  induction l as [|x l IH].
  - reflexivity.
  - rewrite Qsum_fmap_cons, IH. reflexivity.
Qed.

Lemma Qsum_fmap_plus {A} (f g : A -> Q) (l : list A) :
  Num.Qsum ((fun x => f x + g x) <$> l) == Num.Qsum (f <$> l) + Num.Qsum (g <$> l).
Proof.
  induction l as [|x l IH].
  - reflexivity.
  - rewrite !Qsum_fmap_cons, IH. ring.
Qed.

Lemma Qsum_fmap_scale {A} (f : A -> Q) (c : Q) (l : list A) :
  Num.Qsum ((fun x => f x * c) <$> l) == Num.Qsum (f <$> l) * c.
Proof.
  induction l as [|x l IH].
  - symmetry. apply Qmult_0_l.
  - rewrite !Qsum_fmap_cons, IH. ring.
Qed.

(** [SUM] over values none of which is [NULL]. *)
Lemma SUM_Some (l : list Q) :
  Sql.SUM (Some <$> l) = match l with [] => None | _ => Some (Num.Qsum l) end.
Proof.
  induction l as [|x l IH]; [reflexivity|].
  change (Sql.SUM (Some <$> x :: l))
    with (match Sql.SUM (Some <$> l) with
          | Some s => Some (x + s)
          | None => Some x
          end).
  rewrite IH. destruct l; simpl.
  - now rewrite Qplus_0_r_eq.
  - reflexivity.
Qed.

(** ** Keys and groups *)

Section Groups.
Context `{EqDecision K} {A : Type}.
Implicit Types (l : list A) (ks : list K).

Lemma elem_of_distinct ks k : k ∈ Sql.distinct ks <-> k ∈ ks.
Proof.
  induction ks as [|x ks IH]; simpl.
  - reflexivity.
  - rewrite !elem_of_cons, list_elem_of_filter, IH.
    destruct (decide (k = x)); tauto.
Qed.

Lemma NoDup_distinct ks : NoDup (Sql.distinct ks).
Proof.
  induction ks as [|x ks IH]; simpl; constructor.
  - rewrite list_elem_of_filter. tauto.
  - now apply NoDup_filter.
Qed.

Lemma elem_of_group_by (key : A -> K) l k g :
  (k, g) ∈ Sql.group_by key l
  <-> k ∈ key <$> l /\ g = filter (fun x => key x = k) l.
Proof.
  unfold Sql.group_by. rewrite list_elem_of_fmap. split.
  - intros (k' & [= -> ->] & Hk). now rewrite elem_of_distinct in Hk.
  - intros [Hk ->]. exists k. now rewrite elem_of_distinct.
Qed.

Lemma group_by_keys (key : A -> K) l :
  fst <$> Sql.group_by key l = Sql.distinct (key <$> l).
Proof.
  unfold Sql.group_by.
  induction (Sql.distinct (key <$> l)) as [|k ks IH]; [reflexivity|].
  rewrite !fmap_cons, IH. reflexivity.
Qed.

(** One key of a duplicate-free list selects one term of a sum. *)
Lemma Qsum_select ks k0 (c : Q) :
  NoDup ks -> k0 ∈ ks ->
  Num.Qsum ((fun k => if decide (k0 = k) then c else 0) <$> ks) == c.
Proof.
  induction 1 as [|k ks Hk Hnd IH]; intros Hin.
  - now apply elem_of_nil in Hin.
  - rewrite Qsum_fmap_cons. destruct (decide (k0 = k)) as [->|Hne].
    + rewrite (Qsum_fmap_ext _ (fun _ => 0)).
      * rewrite Qsum_fmap_zero. ring.
      * intros x Hx. destruct (decide (k = x)) as [->|]; [contradiction|reflexivity].
    + apply elem_of_cons in Hin as [?|Hin]; [contradiction|].
      rewrite (IH Hin). ring.
Qed.

(** The groups partition the rows: the sums of the groups add up to the
    sum of all rows. *)
Lemma Qsum_partition (key : A -> K) (v : A -> Q) l ks :
  NoDup ks -> (forall x, x ∈ l -> key x ∈ ks) ->
  Num.Qsum ((fun k => Num.Qsum (v <$> filter (fun x => key x = k) l)) <$> ks)
  == Num.Qsum (v <$> l).
Proof.
  intros Hnd. induction l as [|x l IH]; intros Hks.
  - apply Qsum_fmap_zero.
  - rewrite Qsum_fmap_cons.
    rewrite (Qsum_fmap_ext _
      (fun k => (if decide (key x = k) then v x else 0)
                + Num.Qsum (v <$> filter (fun y => key y = k) l))).
    + rewrite Qsum_fmap_plus, Qsum_select, IH.
      * reflexivity.
      * intros y Hy. apply Hks. now right.
      * assumption.
      * apply Hks. now left.
    + intros k _. rewrite filter_cons.
      destruct (decide (key x = k)); [rewrite Qsum_fmap_cons; reflexivity | ring].
Qed.

Lemma Qsum_group_by (key : A -> K) (v : A -> Q) l :
  Num.Qsum ((fun g => Num.Qsum (v <$> snd g)) <$> Sql.group_by key l)
  == Num.Qsum (v <$> l).
Proof.
  unfold Sql.group_by. rewrite <- list_fmap_compose.
  apply (Qsum_partition key v l (Sql.distinct (key <$> l))).
  - apply NoDup_distinct.
  - intros x Hx. apply elem_of_distinct, list_elem_of_fmap. eauto.
Qed.

End Groups.

(** ** Sorting *)

Lemma order_by_Permutation {A} (leb : A -> A -> bool) (l : list A) :
  Sql.order_by leb l ≡ₚ l.
Proof. apply merge_sort_Permutation. Qed.

Lemma elem_of_order_by {A} (leb : A -> A -> bool) (l : list A) (x : A) :
  x ∈ Sql.order_by leb l <-> x ∈ l.
Proof. now rewrite order_by_Permutation. Qed.

(** ** Queries that cannot fail *)

Lemma traverse_Ok {A B} (f : A -> result B) (g : A -> B) (l : list A) :
  (forall x, x ∈ l -> f x = Ok (g x)) -> traverse f l = Ok (g <$> l).
Proof.
  induction l as [|x l IH]; intros H; simpl.
  - reflexivity.
  - rewrite (H x), IH.
    + reflexivity.
    + intros y Hy. apply H. now right.
    + now left.
Qed.

(** ** Joins *)

Lemma filter_fmap_list {A B} (f : A -> B) (P : B -> Prop)
    `{forall y, Decision (P y)} (l : list A) :
  filter P (f <$> l) = f <$> filter (fun x => P (f x)) l.
Proof.
  induction l as [|x l IH]; [reflexivity|].
  rewrite fmap_cons, !filter_cons, IH.
  destruct (decide (P (f x))); reflexivity.
Qed.

Lemma filter_none {A} (P : A -> Prop) `{forall x, Decision (P x)} (l : list A) :
  (forall x, x ∈ l -> ~ P x) -> filter P l = [].
Proof.
  induction l as [|x l IH]; intros Hl; [reflexivity|].
  rewrite filter_cons_False.
  - apply IH. intros y Hy. apply Hl. now right.
  - apply Hl. now left.
Qed.

(** A row picked by its key: the key is unique in the table. *)
Lemma filter_unique {A K} (key : A -> K) (P : A -> Prop)
    `{forall x, Decision (P x)} (l : list A) (a : A) :
  NoDup (key <$> l) -> a ∈ l -> (forall x, P x -> key x = key a) ->
  filter P l = if decide (P a) then [a] else [].
Proof.
  intros Hnd Ha HP. induction l as [|x l IH]; [now apply elem_of_nil in Ha|].
  rewrite fmap_cons in Hnd. apply NoDup_cons in Hnd as [Hx Hnd].
  apply elem_of_cons in Ha as [->|Ha].
  - rewrite filter_cons, (filter_none P l).
    + destruct (decide (P x)); reflexivity.
    + intros y Hy HPy. apply Hx. rewrite <- (HP y HPy).
      apply list_elem_of_fmap. eauto.
  - rewrite filter_cons_False; [now apply IH|].
    intros HPx. apply Hx. rewrite (HP x HPx).
    apply list_elem_of_fmap. eauto.
Qed.

Lemma filter_filter_and {A} (P Q : A -> Prop)
    `{forall x, Decision (P x)} `{forall x, Decision (Q x)} (l : list A) :
  filter P (filter Q l) = filter (fun x => Q x /\ P x) l.
Proof.
  induction l as [|x l IH]; [reflexivity|].
  rewrite (filter_cons Q), (filter_cons (fun x => Q x /\ P x)).
  destruct (decide (Q x)) as [HQ|HQ].
  - rewrite filter_cons, IH.
    destruct (decide (P x)), (decide (Q x /\ P x)); tauto.
  - rewrite IH. destruct (decide (Q x /\ P x)); tauto.
Qed.

Lemma elem_of_join {T B} (on : T -> B -> bool) txs table t b :
  (t, b) ∈ Sql.join on txs table <-> t ∈ txs /\ b ∈ table /\ on t b = true.
Proof.
  unfold Sql.join. rewrite list_elem_of_In, in_flat_map. split.
  - intros (t' & Ht' & Hin). apply list_elem_of_In, list_elem_of_fmap in Hin.
    destruct Hin as (b' & [= -> ->] & Hb). apply list_elem_of_filter in Hb.
    rewrite list_elem_of_In. tauto.
  - intros (Ht & Hb & HJ). exists t. split; [now apply list_elem_of_In|].
    apply list_elem_of_In, list_elem_of_fmap. exists b.
    rewrite list_elem_of_filter. tauto.
Qed.

(** The joined rows a [WHERE] clause [W] keeps and a group [G] of one key
    of the table holds are the matching rows of the ledger, in ledger
    order, each once. *)
Lemma join_group {T B K} (on : T -> B -> bool) (key : B -> K)
    (W G : T * B -> Prop) (P : T -> Prop)
    `{forall r, Decision (W r)} `{forall r, Decision (G r)}
    `{forall t, Decision (P t)} txs table b :
  NoDup (key <$> table) -> b ∈ table ->
  (forall t b', G (t, b') -> key b' = key b) ->
  (forall t, P t <-> on t b = true /\ W (t, b) /\ G (t, b)) ->
  filter G (filter W (Sql.join on txs table)) = (fun t => (t, b)) <$> filter P txs.
Proof.
  intros Hnd Hb HG HP.
  rewrite (list_filter_iff P _ _ HP).
  unfold Sql.join.
  induction txs as [|t txs IH]; [reflexivity|].
  cbn [flat_map]. rewrite !filter_app, IH, filter_cons. clear IH.
  rewrite !filter_fmap_list, !filter_filter_and.
  rewrite (filter_unique key _ table b Hnd Hb).
  - destruct (decide (on t b = true /\ W (t, b) /\ G (t, b))); reflexivity.
  - intros b' (_ & _ & HGb'). now apply HG in HGb'.
Qed.


(** ** Positions *)

Section Positions.
Import PortfolioRepository.
Variable conn : Database.
Variable as_of_date : option date.
Hypothesis asset_ids_unique : NoDup (a_id <$> tb_assets conn).

Lemma positions_where_considered (t : Transaction) :
  positions_where as_of_date t = true <-> considered as_of_date t.
Proof.
  unfold positions_where, considered, date_filter, on_or_before.
  rewrite !andb_true_iff, orb_true_iff, !String.eqb_eq.
  assert ((match t_qty t with Some _ => true | None => false end) = true
          <-> is_Some (t_qty t)) as ->.
  { destruct (t_qty t); split; intros; try discriminate; eauto.
    now apply is_Some_None in H. }
  destruct as_of_date; [rewrite Z.leb_le|]; tauto.
Qed.

Lemma asset_keys_unique : NoDup (asset_key <$> tb_assets conn).
Proof.
  apply (NoDup_fmap_1 (fun k : Z * string * string * string * option string * string =>
                         fst (fst (fst (fst (fst k)))))).
  rewrite <- list_fmap_compose. exact asset_ids_unique.
Qed.

(** The rows the query keeps, before grouping. *)
Definition position_rows : list (Transaction * Asset) :=
  filter (fun r => positions_where as_of_date (fst r) = true)
    (join_assets (tb_transactions conn) (tb_assets conn)).

Lemma position_rows_of_asset (a : Asset) :
  a ∈ tb_assets conn ->
  filter (fun r => asset_key (snd r) = asset_key a) position_rows
  = (fun t => (t, a)) <$> trades_of conn as_of_date (a_id a).
Proof.
  intros Ha. unfold position_rows, join_assets, trades_of.
  apply (join_group _ asset_key); [exact asset_keys_unique | exact Ha | |].
  - intros t b'. simpl. tauto.
  - intros t. simpl.
    rewrite bool_decide_eq_true, positions_where_considered. tauto.
Qed.

Lemma elem_of_position_rows (t : Transaction) (a : Asset) :
  (t, a) ∈ position_rows
  <-> a ∈ tb_assets conn /\ t ∈ trades_of conn as_of_date (a_id a).
Proof.
  unfold position_rows, join_assets, trades_of.
  rewrite !list_elem_of_filter, elem_of_join, bool_decide_eq_true,
    positions_where_considered. simpl. tauto.
Qed.

End Positions.

(** ** Weighted average cost *)

Section AvgCost.
Import PortfolioRepository.

Lemma div_NULLIF (a b : option Q) :
  Sql.div a (Sql.NULLIF b 0)
  = Ok (match a, Sql.NULLIF b 0 with
        | Some x, Some y => Some (x / y)
        | _, _ => None
        end).
Proof.
  destruct a as [x|], b as [y|]; simpl; try reflexivity.
  all: destruct (Qeq_bool y 0) eqn:E; simpl; rewrite ?E; reflexivity.
Qed.

Lemma gt_qty (t : Transaction) : Sql.gt (t_qty t) 0 = true <-> 0 < qty_of t.
Proof.
  unfold Sql.gt, qty_of. destruct (t_qty t) as [q|]; simpl.
  - apply Qltb_lt.
  - split; [discriminate|]. intros H. now apply Qlt_irrefl in H.
Qed.

Lemma qty_positive (t : Transaction) : 0 < qty_of t -> t_qty t = Some (qty_of t).
Proof.
  unfold qty_of. destruct (t_qty t); simpl; [reflexivity|].
  intros H. now apply Qlt_irrefl in H.
Qed.

(** A term of the two sums of the query: [f] on a row with a positive
    quantity, [0] on the others. *)
Definition on_buys (f : Transaction -> Q) (t : Transaction) : Q :=
  if decide (0 < qty_of t) then f t else 0.

Lemma Qsum_on_buys (f : Transaction -> Q) (g : list Transaction) :
  Num.Qsum (on_buys f <$> g) == Num.Qsum (f <$> buys g).
Proof.
  unfold buys. induction g as [|t g IH]; [reflexivity|].
  rewrite Qsum_fmap_cons, filter_cons, IH. unfold on_buys.
  destruct (decide (0 < qty_of t)).
  - now rewrite Qsum_fmap_cons.
  - apply Qplus_0_l.
Qed.

Lemma Qsum_buys_positive (g : list Transaction) :
  buys g <> [] -> 0 < Num.Qsum (qty_of <$> buys g).
Proof.
  assert (forall l, Forall (fun t => 0 < qty_of t) l -> l <> [] ->
                    0 < Num.Qsum (qty_of <$> l)) as H.
  { induction 1 as [|t l Ht Hl IH]; [congruence|]. intros _.
    rewrite Qsum_fmap_cons. destruct l as [|t' l].
    - simpl. now rewrite Qplus_0_r.
    - apply Qlt_trans with (qty_of t); [assumption|].
      rewrite <- (Qplus_0_r (qty_of t)) at 1.
      apply Qplus_lt_r, IH. congruence. }
  apply H. apply Forall_forall. intros t Ht.
  now apply list_elem_of_filter in Ht as [? _].
Qed.

Lemma denominator_sum (g : list Transaction) :
  Sql.SUM ((fun t => if Sql.gt (t_qty t) 0 then t_qty t else Some 0) <$> g)
  = match g with [] => None | _ => Some (Num.Qsum (on_buys qty_of <$> g)) end.
Proof.
  transitivity (Sql.SUM (Some <$> (on_buys qty_of <$> g))).
  - rewrite <- list_fmap_compose.
    f_equal. apply list_fmap_ext. intros _ t _. unfold on_buys. simpl.
    destruct (decide (0 < qty_of t)) as [H|H].
    + rewrite (proj2 (gt_qty t) H). now apply qty_positive.
    + destruct (Sql.gt (t_qty t) 0) eqn:E; [|reflexivity].
      now apply gt_qty in E.
  - rewrite SUM_Some. now destruct g.
Qed.

Lemma numerator_sum (g : list Transaction) :
  Forall (fun t => is_Some (t_price t)) (buys g) ->
  Sql.SUM ((fun t => if Sql.gt (t_qty t) 0
                     then Sql.mul (t_qty t) (t_price t) else Some 0) <$> g)
  = match g with
    | [] => None
    | _ => Some (Num.Qsum (on_buys (fun t => qty_of t * price_of t) <$> g))
    end.
Proof.
  intros Hp.
  transitivity
    (Sql.SUM (Some <$> (on_buys (fun t => qty_of t * price_of t) <$> g))).
  - rewrite <- list_fmap_compose.
    f_equal. apply list_fmap_ext. intros _ t Ht%list_elem_of_lookup_2.
    unfold on_buys. simpl.
    destruct (decide (0 < qty_of t)) as [H|H].
    + rewrite (proj2 (gt_qty t) H), (qty_positive t H).
      assert (is_Some (t_price t)) as [p Hprice].
      { rewrite Forall_forall in Hp. apply Hp, list_elem_of_filter. auto. }
      unfold price_of. now rewrite Hprice.
    + destruct (Sql.gt (t_qty t) 0) eqn:E; [|reflexivity].
      now apply gt_qty in E.
  - rewrite SUM_Some. now destruct g.
Qed.

Lemma avg_cost_expr_total (g : list Transaction) :
  exists v, avg_cost_expr g = Ok v.
Proof. unfold avg_cost_expr. rewrite div_NULLIF. eauto. Qed.

Lemma avg_cost_expr_no_buys (g : list Transaction) :
  buys g = [] -> avg_cost_expr g = Ok None.
Proof.
  intros Hb. destruct g as [|t g]; [reflexivity|].
  unfold avg_cost_expr. rewrite div_NULLIF, denominator_sum.
  assert (Qeq_bool (Num.Qsum (on_buys qty_of <$> t :: g)) 0 = true) as E.
  { apply Qeq_bool_iff. now rewrite Qsum_on_buys, Hb. }
  unfold Sql.NULLIF. rewrite E. now destruct (Sql.SUM _).
Qed.

Lemma avg_cost_expr_buys (g : list Transaction) :
  buys g <> [] -> Forall (fun t => is_Some (t_price t)) (buys g) ->
  exists c, avg_cost_expr g = Ok (Some c)
            /\ c == Num.Qsum ((fun t => qty_of t * price_of t) <$> buys g)
                    / Num.Qsum (qty_of <$> buys g).
Proof.
  intros Hb Hp. unfold avg_cost_expr.
  rewrite div_NULLIF, denominator_sum, (numerator_sum g Hp).
  destruct g as [|t g]; [contradiction|]. unfold Sql.NULLIF.
  pose proof (Qsum_buys_positive (t :: g) Hb) as Hpos.
  destruct (Qeq_bool (Num.Qsum (on_buys qty_of <$> t :: g)) 0) eqn:E.
  - apply Qeq_bool_iff in E. rewrite Qsum_on_buys in E.
    rewrite E in Hpos. now apply Qlt_irrefl in Hpos.
  - eexists. split; [reflexivity|]. now rewrite !Qsum_on_buys.
Qed.

End AvgCost.

Lemma traverse_total {A B} (f : A -> result B) (l : list A) :
  (forall x, x ∈ l -> exists y, f x = Ok y) ->
  exists ys, traverse f l = Ok ys
             /\ forall y, y ∈ ys <-> exists x, x ∈ l /\ f x = Ok y.
Proof.
  induction l as [|x l IH]; intros H.
  - exists []. split; [reflexivity|]. intros y. split.
    + intros Hy. now apply elem_of_nil in Hy.
    + intros (x & Hx & _). now apply elem_of_nil in Hx.
  - destruct (H x) as [y Hy]; [now left|].
    destruct IH as (ys & Hys & Hmem); [intros z Hz; apply H; now right|].
    exists (y :: ys). split; [simpl; now rewrite Hy, Hys|].
    intros z. rewrite elem_of_cons, Hmem. split.
    + intros [->|(x' & Hx' & Hz)]; [exists x|exists x']; split; auto; now constructor.
    + intros (x' & [->|Hx']%elem_of_cons & Hz); [left; congruence|right; eauto].
Qed.

Lemma fst_pair_with {A B} (b : B) (l : list A) :
  fst <$> ((fun x => (x, b)) <$> l) = l.
Proof.
  induction l as [|x l IH]; [reflexivity|].
  rewrite !fmap_cons, IH. reflexivity.
Qed.

(** ** The positions query *)

Section PositionsQuery.
Import PortfolioRepository.
Variable conn : Database.
Variable as_of_date : option date.
Hypothesis asset_ids_unique : NoDup (a_id <$> tb_assets conn).

Lemma trades_have_qty (asset : Z) (t : Transaction) :
  t ∈ trades_of conn as_of_date asset -> t_qty t = Some (qty_of t).
Proof.
  intros [[_ (_ & [q Hq] & _)] _]%list_elem_of_filter.
  unfold qty_of. now rewrite Hq.
Qed.

(** The group of an asset: the [HAVING] test on the sum of its considered
    quantities, then its row. *)
Lemma position_of_asset (a : Asset) :
  let ts := trades_of conn as_of_date (a_id a) in
  ts <> [] ->
  position_of_group (asset_key a, (fun t => (t, a)) <$> ts)
  = if Num.Qltb 0.0001 (Num.Qsum (qty_of <$> ts))
    then match avg_cost_expr ts with
         | Ok v => Ok (Some (position_row a (Num.Qsum (qty_of <$> ts)) v))
         | Raise e => Raise e
         end
    else Ok None.
Proof.
  intros ts Hne. unfold position_of_group, asset_key.
  rewrite fst_pair_with.
  assert (t_qty <$> ts = Some <$> (qty_of <$> ts)) as ->.
  { rewrite <- list_fmap_compose. apply list_fmap_ext.
    intros _ t Ht%list_elem_of_lookup_2. simpl. now apply (trades_have_qty (a_id a)). }
  rewrite SUM_Some.
  destruct (qty_of <$> ts) eqn:E; [|reflexivity].
  apply fmap_nil_inv in E. contradiction.
Qed.

Lemma get_positions_elem :
  exists ps,
    get_positions conn as_of_date = Ok ps
    /\ forall p,
         p ∈ ps <->
         exists a,
           a ∈ tb_assets conn
           /\ trades_of conn as_of_date (a_id a) <> []
           /\ position_of_group
                (asset_key a, (fun t => (t, a)) <$> trades_of conn as_of_date (a_id a))
              = Ok (Some p).
Proof.
  unfold get_positions. fold (position_rows conn as_of_date).
  set (rows := position_rows conn as_of_date).
  assert (forall k g, (k, g) ∈ Sql.group_by (fun r => asset_key (snd r)) rows <->
            exists a, a ∈ tb_assets conn
                      /\ trades_of conn as_of_date (a_id a) <> []
                      /\ k = asset_key a
                      /\ g = (fun t => (t, a)) <$> trades_of conn as_of_date (a_id a))
    as Hgroups.
  { intros k g. rewrite elem_of_group_by, list_elem_of_fmap. split.
    - intros [([t a] & -> & Hr) ->]. simpl.
      apply elem_of_position_rows in Hr as [Ha Ht]. exists a.
      repeat split; auto.
      + intros E. rewrite E in Ht. now apply elem_of_nil in Ht.
      + now apply position_rows_of_asset.
    - intros (a & Ha & Hne & -> & ->). split.
      + destruct (trades_of conn as_of_date (a_id a)) as [|t ts] eqn:E; [contradiction|].
        exists (t, a). split; [reflexivity|].
        apply elem_of_position_rows. split; [assumption|]. rewrite E. now left.
      + symmetry. now apply position_rows_of_asset. }
  destruct (traverse_total position_of_group
              (Sql.group_by (fun r => asset_key (snd r)) rows))
    as (sel & -> & Hsel).
  { intros [k g] (a & Ha & Hne & -> & ->)%Hgroups.
    rewrite (position_of_asset a Hne).
    destruct (Num.Qltb _ _); [|eauto].
    destruct (avg_cost_expr_total (trades_of conn as_of_date (a_id a))) as [v ->].
    eauto. }
  eexists. split; [reflexivity|]. intros p.
  rewrite elem_of_order_by, list_elem_of_omap. split.
  - intros (o & Ho & Hp). simpl in Hp. subst o.
    apply Hsel in Ho as ([k g] & (a & Ha & Hne & -> & ->)%Hgroups & Hg). eauto.
  - intros (a & Ha & Hne & Hg). exists (Some p). split; [|reflexivity].
    apply Hsel. eexists. split; [|exact Hg]. apply Hgroups. eauto 6.
Qed.

End PositionsQuery.

Lemma Qsum_no_buys (ts : list Transaction) :
  buys ts = [] -> Num.Qsum (qty_of <$> ts) <= 0.
Proof.
  unfold buys. induction ts as [|t ts IH]; intros Hb.
  - apply Qle_refl.
  - rewrite filter_cons in Hb. destruct (decide (0 < qty_of t)) as [|Hn]; [discriminate|].
    rewrite Qsum_fmap_cons. apply Qnot_lt_le in Hn. specialize (IH Hb).
    rewrite <- (Qplus_0_r 0). now apply Qplus_le_compat.
Qed.

Section PositionsClaims.
Import PortfolioRepository.
Variable conn : Database.
Variable as_of_date : option date.

(** C2: the positions computation considers exactly the transactions of
    type BUY or SELL with a quantity, dated on or before [as_of_date] when
    one is given ([trades_of]): every position of the output is the row of
    an asset, its [total_qty] is the sum of those signed quantities of the
    asset and exceeds 0.0001 (a position with [total_qty <= 0.0001] never
    appears), and every asset whose sum exceeds 0.0001 has its position in
    the output.  [a.id] is the primary key of [tb_assets]. *)
Theorem positions_total_qty :
  NoDup (a_id <$> tb_assets conn) ->
  exists ps,
    get_positions conn as_of_date = Ok ps
    /\ (forall p, p ∈ ps ->
          (exists a v, a ∈ tb_assets conn
                       /\ p = position_row a (pos_total_qty p) v)
          /\ pos_total_qty p
             = Num.Qsum (qty_of <$> trades_of conn as_of_date (pos_asset_id p))
          /\ 0.0001 < pos_total_qty p
          /\ ~ pos_total_qty p <= 0.0001)
    /\ (forall a, a ∈ tb_assets conn ->
          0.0001 < Num.Qsum (qty_of <$> trades_of conn as_of_date (a_id a)) ->
          exists p, p ∈ ps /\ pos_asset_id p = a_id a
                    /\ pos_total_qty p
                       = Num.Qsum (qty_of <$> trades_of conn as_of_date (a_id a))).
Proof.
  intros Hnd.
  destruct (get_positions_elem conn as_of_date Hnd) as (ps & Hps & Hmem).
  exists ps. split; [exact Hps|]. split.
  - intros p (a & Ha & Hne & Hg)%Hmem.
    rewrite (position_of_asset conn as_of_date a Hne) in Hg.
    destruct (Num.Qltb _ _) eqn:Hgt; [|discriminate].
    destruct (avg_cost_expr _) as [v|]; [|discriminate].
    injection Hg as <-. apply Qltb_lt in Hgt. simpl.
    repeat split; eauto. now apply Qlt_not_le.
  - intros a Ha Hgt.
    assert (trades_of conn as_of_date (a_id a) <> []) as Hne.
    { intros E. rewrite E in Hgt. now vm_compute in Hgt. }
    destruct (avg_cost_expr_total (trades_of conn as_of_date (a_id a))) as [v Hv].
    exists (position_row a (Num.Qsum (qty_of <$> trades_of conn as_of_date (a_id a))) v).
    split; [|split; reflexivity].
    apply Hmem. exists a. split; [assumption|]. split; [assumption|].
    rewrite (position_of_asset conn as_of_date a Hne), Hv.
    now rewrite (proj2 (Qltb_lt _ _) Hgt).
Qed.

End PositionsClaims.

Lemma ledger_two_buys_keys : NoDup (a_id <$> tb_assets ledger_two_buys).
Proof. apply NoDup_singleton. Qed.

Lemma positions_total_qty_witness :
  exists ps,
    PortfolioRepository.get_positions ledger_two_buys None = Ok ps
    /\ forall p, p ∈ ps -> 0.0001 < PortfolioRepository.pos_total_qty p.
Proof.
  destruct (positions_total_qty ledger_two_buys None ledger_two_buys_keys)
    as (ps & Hps & Hsound & _).
  exists ps. split; [exact Hps|]. intros p Hp. now apply Hsound.
Defined.

(** The scenario evaluated: one position, of quantity 20. *)
Example positions_two_buys :
  PortfolioRepository.get_positions ledger_two_buys None
  = Ok [position_row asset_abc 20 (Some (3000 # 20))].
Proof. vm_compute. reflexivity. Qed.

Section AvgCostClaims.
Import PortfolioRepository.
Variable conn : Database.
Variable as_of_date : option date.

(** C3: the quotient of the query never fails: on any group of rows it
    yields a value, and [NULL] when the denominator (the sum of the
    positive quantities) is zero.  For every position of the output,
    [avg_cost] is that quotient over the considered transactions of the
    asset: when its rows of positive quantity carry a price, it is the sum
    of qty*price over those rows divided by the sum of qty over them.  For
    the ledger of two BUYs, 10 at 100 and 10 at 200, it is 150. *)
Theorem avg_cost_weighted :
  NoDup (a_id <$> tb_assets conn) ->
  (forall g : list Transaction,
     exists v, avg_cost_expr g = Ok v
               /\ (Num.Qsum (qty_of <$> buys g) == 0 -> v = None))
  /\ (exists ps,
        get_positions conn as_of_date = Ok ps
        /\ forall p, p ∈ ps ->
             let ts := trades_of conn as_of_date (pos_asset_id p) in
             avg_cost_expr ts = Ok (pos_avg_cost p)
             /\ (Forall (fun t => is_Some (t_price t)) (buys ts) ->
                 exists c, pos_avg_cost p = Some c
                           /\ c == Num.Qsum ((fun t => qty_of t * price_of t) <$> buys ts)
                                   / Num.Qsum (qty_of <$> buys ts)))
  /\ (exists p c,
        get_positions ledger_two_buys None = Ok [p]
        /\ pos_avg_cost p = Some c /\ c == 150).
Proof.
  intros Hnd. split; [|split].
  - intros g. destruct (avg_cost_expr_total g) as [v Hv]. exists v.
    split; [exact Hv|]. intros Hzero.
    assert (buys g = []) as Hb.
    { destruct (buys g) eqn:E; [reflexivity|].
      assert (buys g <> []) as Hne by (rewrite E; discriminate).
      apply Qsum_buys_positive in Hne. rewrite E, Hzero in Hne.
      now apply Qlt_irrefl in Hne. }
    rewrite (avg_cost_expr_no_buys g Hb) in Hv. congruence.
  - destruct (get_positions_elem conn as_of_date Hnd) as (ps & Hps & Hmem).
    exists ps. split; [exact Hps|].
    intros p (a & Ha & Hne & Hg)%Hmem.
    rewrite (position_of_asset conn as_of_date a Hne) in Hg.
    destruct (Num.Qltb _ _) eqn:Hgt; [|discriminate].
    destruct (avg_cost_expr _) as [v|] eqn:Hv; [|discriminate].
    injection Hg as <-. simpl. split; [exact Hv|]. intros Hprice.
    apply Qltb_lt in Hgt.
    assert (buys (trades_of conn as_of_date (a_id a)) <> []) as Hb.
    { intros E. apply Qsum_no_buys in E.
      apply (Qlt_irrefl 0). eapply Qlt_trans; [|eapply Qlt_le_trans; [exact Hgt|exact E]].
      reflexivity. }
    destruct (avg_cost_expr_buys _ Hb Hprice) as (c & Hc & Hval).
    exists c. split; [congruence|exact Hval].
  - eexists _, _. split; [vm_compute; reflexivity|].
    split; [reflexivity|]. reflexivity.
Qed.

End AvgCostClaims.

Lemma avg_cost_weighted_witness :
  exists p c,
    PortfolioRepository.get_positions ledger_two_buys None = Ok [p]
    /\ PortfolioRepository.pos_avg_cost p = Some c /\ c == 150.
Proof.
  exact (proj2 (proj2 (avg_cost_weighted ledger_two_buys None ledger_two_buys_keys))).
Defined.

(** A history of SELLs only: no failure, and no average cost. *)
Example avg_cost_sell_only :
  PortfolioRepository.avg_cost_expr
    [tx 1%Z "SELL" 1%Z (Some 1%Z) (Some (-5)) (Some 100) 500 "USD"]
  = Ok None.
Proof. vm_compute. reflexivity. Qed.

(** ** The order of strings *)

Lemma cmp_eq (x y : string) : String_as_OT.compare x y = Eq -> x = y.
Proof.
  intros H. destruct (String_as_OT.compare_spec x y); congruence.
Qed.

Lemma cmp_refl (x : string) : String_as_OT.compare x x = Eq.
Proof.
  destruct (String_as_OT.compare_spec x x) as [_|H|H]; [reflexivity| |];
    now apply (StrictOrder_Irreflexive (R := String_as_OT.lt)) in H.
Qed.

Lemma cmp_lt_trans (x y z : string) :
  String_as_OT.compare x y = Lt -> String_as_OT.compare y z = Lt ->
  String_as_OT.compare x z = Lt.
Proof. apply (StrictOrder_Transitive (R := String_as_OT.lt)). Qed.

Lemma cmp_gt_lt (x y : string) :
  String_as_OT.compare x y = Gt -> String_as_OT.compare y x = Lt.
Proof.
  intros H. destruct (String_as_OT.compare_spec x y) as [?|?|Hlt]; try discriminate.
  exact Hlt.
Qed.

(** Two keys compared one after the other, as [ORDER BY k1, k2] does. *)
Lemma lex2_iff (a1 b1 a2 b2 : string) :
  Py.lex (String_as_OT.compare a1 a2) (Py.lex (String_as_OT.compare b1 b2) true) = true
  <-> String_as_OT.compare a1 a2 = Lt
      \/ (a1 = a2 /\ (String_as_OT.compare b1 b2 = Lt \/ b1 = b2)).
Proof.
  destruct (String_as_OT.compare a1 a2) eqn:Ea; simpl.
  - apply cmp_eq in Ea as ->.
    destruct (String_as_OT.compare b1 b2) eqn:Eb; simpl.
    + apply cmp_eq in Eb as ->. tauto.
    + tauto.
    + split; [discriminate|].
      intros [H|[_ [H|H]]]; try discriminate.
      rewrite H, cmp_refl in Eb. discriminate.
  - tauto.
  - split; [discriminate|].
    intros [H|[H _]]; [discriminate|].
    rewrite H, cmp_refl in Ea. discriminate.
Qed.

Lemma lex2_total (a1 b1 a2 b2 : string) :
  Py.lex (String_as_OT.compare a1 a2) (Py.lex (String_as_OT.compare b1 b2) true) = true
  \/ Py.lex (String_as_OT.compare a2 a1) (Py.lex (String_as_OT.compare b2 b1) true) = true.
Proof.
  rewrite !lex2_iff.
  destruct (String_as_OT.compare a1 a2) eqn:Ea;
    [|left; left; reflexivity|right; left; now apply cmp_gt_lt].
  apply cmp_eq in Ea as ->.
  destruct (String_as_OT.compare b1 b2) eqn:Eb.
  - apply cmp_eq in Eb as ->. left. right. auto.
  - left. right. auto.
  - right. right. split; [reflexivity|]. left. now apply cmp_gt_lt.
Qed.

Lemma lex2_trans (a1 b1 a2 b2 a3 b3 : string) :
  Py.lex (String_as_OT.compare a1 a2) (Py.lex (String_as_OT.compare b1 b2) true) = true ->
  Py.lex (String_as_OT.compare a2 a3) (Py.lex (String_as_OT.compare b2 b3) true) = true ->
  Py.lex (String_as_OT.compare a1 a3) (Py.lex (String_as_OT.compare b1 b3) true) = true.
Proof.
  rewrite !lex2_iff.
  intros [H12|[-> Hb12]] [H23|[-> Hb23]].
  - left. eapply cmp_lt_trans; eassumption.
  - now left.
  - now left.
  - right. split; [reflexivity|].
    destruct Hb12 as [Hb12| ->], Hb23 as [Hb23| ->]; auto.
    left. eapply cmp_lt_trans; eassumption.
Qed.

Lemma order_by_sorted {A} (leb : A -> A -> bool) (l : list A) :
  (forall x y, leb x y = true \/ leb y x = true) ->
  (forall x y z, leb x y = true -> leb y z = true -> leb x z = true) ->
  StronglySorted (fun x y => leb x y = true) (Sql.order_by leb l).
Proof.
  intros Htotal Htrans. unfold Sql.order_by.
  apply StronglySorted_merge_sort.
  - exact Htrans.
  - exact Htotal.
Qed.

(** ** The cash query *)

Section CashQuery.
Import PortfolioRepository.
Variable conn : Database.
Variable as_of_date : option date.
Hypothesis account_ids_unique : NoDup (acc_id <$> tb_accounts conn).

Lemma date_filter_on_or_before (t : Transaction) :
  date_filter as_of_date t = true <-> on_or_before as_of_date t.
Proof.
  unfold date_filter, on_or_before.
  destruct as_of_date; [apply Z.leb_le | tauto].
Qed.

Lemma account_keys_unique :
  NoDup ((fun acc => (acc_id acc, acc_name acc)) <$> tb_accounts conn).
Proof.
  apply (NoDup_fmap_1 fst). rewrite <- list_fmap_compose. exact account_ids_unique.
Qed.

Lemma cash_rows_of_group (acc : Account) (currency : string) :
  acc ∈ tb_accounts conn ->
  filter (fun r => cash_key r = (acc_id acc, acc_name acc, currency))
    (filter (fun r => date_filter as_of_date (fst r) = true)
       (join_accounts (tb_transactions conn) (tb_accounts conn)))
  = (fun t => (t, acc)) <$> flows_of conn as_of_date (acc_id acc) currency.
Proof.
  intros Hacc. unfold join_accounts, flows_of.
  apply (join_group _ (fun acc => (acc_id acc, acc_name acc)));
    [exact account_keys_unique | exact Hacc | |].
  - intros t b'. unfold cash_key. simpl. congruence.
  - intros t. unfold cash_key. simpl.
    rewrite bool_decide_eq_true, date_filter_on_or_before.
    split; [intros (-> & -> & ?); auto|].
    intros (? & ? & [= ->]). auto.
Qed.

Lemma elem_of_cash_rows (t : Transaction) (acc : Account) :
  (t, acc) ∈ filter (fun r => date_filter as_of_date (fst r) = true)
               (join_accounts (tb_transactions conn) (tb_accounts conn))
  <-> acc ∈ tb_accounts conn
      /\ t ∈ flows_of conn as_of_date (acc_id acc) (t_currency t).
Proof.
  unfold join_accounts, flows_of.
  rewrite !list_elem_of_filter, elem_of_join, bool_decide_eq_true,
    date_filter_on_or_before. simpl. tauto.
Qed.

(** The group of an account and a currency: its sum, kept when it exceeds
    0.01 in absolute value. *)
Lemma cash_of_flows (acc : Account) (currency : string) :
  let ts := flows_of conn as_of_date (acc_id acc) currency in
  ts <> [] ->
  cash_of_group ((acc_id acc, acc_name acc, currency), (fun t => (t, acc)) <$> ts)
  = if Num.Qltb 0.01 (Qabs (Num.Qsum (t_cash_flow <$> ts)))
    then Some {| cb_account_id := acc_id acc; cb_account_name := acc_name acc;
                 cb_currency := currency;
                 cb_balance := Num.Qsum (t_cash_flow <$> ts) |}
    else None.
Proof.
  intros ts Hne. unfold cash_of_group.
  assert ((fun r : Transaction * Account => Some (t_cash_flow (fst r)))
            <$> ((fun t => (t, acc)) <$> ts)
          = Some <$> (t_cash_flow <$> ts)) as ->.
  { rewrite <- !list_fmap_compose. reflexivity. }
  rewrite SUM_Some.
  destruct (t_cash_flow <$> ts) eqn:E; [|reflexivity].
  apply fmap_nil_inv in E. contradiction.
Qed.

Lemma get_cash_balances_elem (cb : CashBalance) :
  cb ∈ get_cash_balances conn as_of_date
  <-> exists acc currency,
        acc ∈ tb_accounts conn
        /\ flows_of conn as_of_date (acc_id acc) currency <> []
        /\ cash_of_group
             ((acc_id acc, acc_name acc, currency),
              (fun t => (t, acc)) <$> flows_of conn as_of_date (acc_id acc) currency)
           = Some cb.
Proof.
  unfold get_cash_balances.
  rewrite elem_of_order_by, list_elem_of_omap. split.
  - intros ([k g] & Hg & Hcb).
    apply elem_of_group_by in Hg as [Hk ->].
    apply list_elem_of_fmap in Hk as ([t acc] & -> & Hr).
    pose proof Hr as [Hacc Ht]%elem_of_cash_rows.
    exists acc, (t_currency t). split; [assumption|]. split.
    + intros E. rewrite E in Ht. now apply elem_of_nil in Ht.
    + rewrite <- (cash_rows_of_group acc (t_currency t) Hacc). exact Hcb.
  - intros (acc & currency & Hacc & Hne & Hcb).
    eexists (_, _). split; [|exact Hcb].
    apply elem_of_group_by. split.
    + destruct (flows_of conn as_of_date (acc_id acc) currency) as [|t ts] eqn:E;
        [contradiction|].
      assert (t ∈ flows_of conn as_of_date (acc_id acc) currency) as Ht
        by (rewrite E; now left).
      pose proof Ht as (_ & Hcur & _)%list_elem_of_filter%proj1.
      apply list_elem_of_fmap. exists (t, acc). split.
      * unfold cash_key. simpl. now rewrite Hcur.
      * apply elem_of_cash_rows. rewrite Hcur. rewrite E. split; [assumption|now left].
    + symmetry. now apply cash_rows_of_group.
Qed.

End CashQuery.

Lemma StronglySorted_weaken {A} (R1 R2 : A -> A -> Prop) (l : list A) :
  (forall x y, R1 x y -> R2 x y) -> StronglySorted R1 l -> StronglySorted R2 l.
Proof.
  intros HR. induction 1 as [|x l _ IH Hx]; constructor.
  - exact IH.
  - eapply Forall_impl; [exact Hx|]. intros y. apply HR.
Qed.

Section CashClaims.
Import PortfolioRepository.
Variable conn : Database.
Variable as_of_date : option date.

(** C4: every cash balance of the output is the sum of [cash_flow] over
    the transactions of its account and currency, of every type, dated on
    or before [as_of_date] when one is given ([flows_of]); its absolute
    value exceeds 0.01 (a group with [|balance| <= 0.01] is dropped), and
    every group whose sum exceeds 0.01 in absolute value is in the output;
    the output is ordered by account name, then currency.  One DEPOSIT of
    +5000 CNY and one FEE of -50 CNY in one account give the balance 4950.
    [acc.id] is the primary key of [tb_accounts]. *)
Theorem cash_balances_sum :
  NoDup (acc_id <$> tb_accounts conn) ->
  let out := get_cash_balances conn as_of_date in
  (forall cb, cb ∈ out ->
     (exists acc, acc ∈ tb_accounts conn
                  /\ cb_account_id cb = acc_id acc
                  /\ cb_account_name cb = acc_name acc)
     /\ cb_balance cb
        = Num.Qsum (t_cash_flow <$>
                    flows_of conn as_of_date (cb_account_id cb) (cb_currency cb))
     /\ 0.01 < Qabs (cb_balance cb)
     /\ ~ Qabs (cb_balance cb) <= 0.01)
  /\ (forall acc currency,
        acc ∈ tb_accounts conn ->
        0.01 < Qabs (Num.Qsum (t_cash_flow <$>
                               flows_of conn as_of_date (acc_id acc) currency)) ->
        exists cb, cb ∈ out
                   /\ cb_account_id cb = acc_id acc
                   /\ cb_account_name cb = acc_name acc
                   /\ cb_currency cb = currency
                   /\ cb_balance cb
                      = Num.Qsum (t_cash_flow <$>
                                  flows_of conn as_of_date (acc_id acc) currency))
  /\ StronglySorted by_name_then_currency out
  /\ get_cash_balances ledger_deposit_fee None
     = [ {| cb_account_id := 1; cb_account_name := "Main";
            cb_currency := "CNY"; cb_balance := 4950 |} ].
Proof.
  intros Hnd out. split; [|split; [|split]].
  - intros cb (acc & currency & Hacc & Hne & Hcb)%(get_cash_balances_elem _ _ Hnd).
    rewrite (cash_of_flows conn as_of_date acc currency Hne) in Hcb.
    destruct (Num.Qltb _ _) eqn:Hgt; [|discriminate].
    injection Hcb as <-. apply Qltb_lt in Hgt. simpl.
    repeat split; eauto. now apply Qlt_not_le.
  - intros acc currency Hacc Hgt.
    assert (flows_of conn as_of_date (acc_id acc) currency <> []) as Hne.
    { intros E. rewrite E in Hgt. now vm_compute in Hgt. }
    eexists. split.
    + apply (get_cash_balances_elem _ _ Hnd). exists acc, currency.
      split; [assumption|]. split; [assumption|].
      rewrite (cash_of_flows conn as_of_date acc currency Hne).
      rewrite (proj2 (Qltb_lt _ _) Hgt). reflexivity.
    + simpl. auto.
  - apply (StronglySorted_weaken (fun c1 c2 => cash_order c1 c2 = true)).
    + intros c1 c2. unfold cash_order, by_name_then_currency. apply lex2_iff.
    + apply order_by_sorted.
      * intros c1 c2. apply lex2_total.
      * intros c1 c2 c3. apply lex2_trans.
  - vm_compute. reflexivity.
Qed.

End CashClaims.

Lemma ledger_deposit_fee_keys : NoDup (acc_id <$> tb_accounts ledger_deposit_fee).
Proof. apply NoDup_singleton. Qed.

Lemma cash_balances_sum_witness :
  Forall (fun cb => 0.01 < Qabs (PortfolioRepository.cb_balance cb))
    (PortfolioRepository.get_cash_balances ledger_deposit_fee None).
Proof.
  apply Forall_forall. intros cb Hcb.
  now apply (cash_balances_sum ledger_deposit_fee None ledger_deposit_fee_keys).
Defined.

(** The cash of a BUY counts: the two BUYs leave -3000 USD. *)
Example cash_of_two_buys :
  PortfolioRepository.get_cash_balances ledger_two_buys None
  = [ {| PortfolioRepository.cb_account_id := 1;
         PortfolioRepository.cb_account_name := "Main";
         PortfolioRepository.cb_currency := "USD";
         PortfolioRepository.cb_balance := -3000 |} ].
Proof. vm_compute. reflexivity. Qed.

(** ** The store of frames *)

Lemma load_bind {A} (l : loc) (df : DataFrame) (f : DataFrame -> M A) (h : heap) :
  h !! l = Some df -> (load l ≫= f) h = f df h.
Proof.
  intros Hl. unfold mbind, M_bind, load. now rewrite Hl.
Qed.

(** ** Security line items *)

Lemma omap_fmap_list {A B C} (f : A -> B) (g : B -> option C) (l : list A) :
  omap g (f <$> l) = omap (fun x => g (f x)) l.
Proof.
  induction l as [|x l IH]; [reflexivity|].
  csimpl. now rewrite IH.
Qed.

Ltac destruct_convert :=
  match goal with
  | |- context [FxService.convert ?a ?b ?c ?d] =>
      destruct (FxService.convert a b c d)
  end.

Section SecurityRows.
Import PortfolioRepository PortfolioService.
Variable self : PortfolioService.t.

Lemma security_row_source (mp : gmap string (Q * date)) (pos : Position) :
  price_source (fst (security_row self mp pos)) = "cost"%string
  <-> mp !! pos_ticker pos = None.
Proof.
  unfold security_row.
  destruct (mp !! pos_ticker pos) as [m|]; destruct_convert; simpl;
    split; congruence.
Qed.

Lemma cash_row_source (cb : CashBalance) (item : LineItem) :
  fst (cash_row self cb) = Some item -> price_source item = "N/A"%string.
Proof.
  unfold cash_row. destruct (Qle_bool _ _); [discriminate|].
  destruct_convert. simpl. now intros [= <-].
Qed.

(** The snapshot holds the security rows and the cash rows, reordered. *)
Lemma get_full_portfolio_rows (as_of_date : option date) (df : DataFrame)
    (out : list line) :
  get_full_portfolio self as_of_date = Ok (df, out) ->
  exists positions,
    get_positions (_repo self) as_of_date = Ok positions
    /\ columns df = _schema_columns self
    /\ rows df ≡ₚ
       ((fun pos => fst (security_row self (get_latest_market_prices (_repo self)) pos))
          <$> positions)
       ++ omap (fun cb => fst (cash_row self cb))
            (get_cash_balances (_repo self) as_of_date).
Proof.
  unfold get_full_portfolio, _build_security_df, _build_cash_df.
  destruct (get_positions (_repo self) as_of_date) as [positions|]; [|discriminate].
  intros [= <- _]. exists positions. split; [reflexivity|]. split.
  - cbn [columns concat_frames frame_of_rows fst].
    rewrite (filter_none _ (_schema_columns self)); [reflexivity|].
    intros c Hc Hn. contradiction.
  - simpl. rewrite order_by_Permutation, <- !list_fmap_compose, omap_fmap_list.
    reflexivity.
Qed.

End SecurityRows.

Lemma get_summary_run (svc : AnalysisService.t) (h : heap) (df : DataFrame) :
  h !! AnalysisService._df svc = Some df ->
  exists s,
    AnalysisService.get_summary svc h = Some (Ok s, h)
    /\ Summary.price_warn_count s
       = length (filter (fun r => price_source r = "cost"%string) (rows df))
    /\ Summary.total_value s = Num.round2 (Num.Qsum (value_base <$> rows df)).
Proof.
  intros Hdf. unfold AnalysisService.get_summary.
  rewrite (load_bind _ df _ _ Hdf). eexists. split; [reflexivity|].
  split; reflexivity.
Qed.

Section SecurityClaims.
Import PortfolioRepository PortfolioService.
Variable self : PortfolioService.t.
Variable market_prices : gmap string (Q * date).
Variable pos : Position.
Variable svc : AnalysisService.t.
Variable h : heap.
Variable df : DataFrame.

(** C5: the line item of a position has the position's quantity.  When the
    latest-prices map holds the ticker, its [latest_price] is that market
    price and its [price_source] is [market]; otherwise its [latest_price]
    is its [avg_cost] (the average cost of the position) and its
    [price_source] is [cost], and when the average cost is null too, the
    price and the values are 0.  [value_local] is [qty * latest_price], and
    the reporting value is its conversion.  The [price_warn_count] of the
    summary of a frame is the number of its rows whose [price_source] is
    [cost]; on a snapshot that is the number of positions without a market
    price. *)
Theorem security_line_item :
  h !! AnalysisService._df svc = Some df ->
  let item := fst (security_row self market_prices pos) in
  type item = "SECURITY"%string
  /\ ticker item = pos_ticker pos
  /\ qty item = pos_total_qty pos
  /\ (forall mp, market_prices !! pos_ticker pos = Some mp ->
        latest_price item = fst mp /\ price_source item = "market"%string)
  /\ (market_prices !! pos_ticker pos = None ->
        latest_price item = avg_cost item
        /\ price_source item = "cost"%string
        /\ (forall c, pos_avg_cost pos = Some c -> avg_cost item == c)
        /\ (pos_avg_cost pos = None ->
              latest_price item = 0 /\ value_local item == 0 /\ value_base item == 0))
  /\ value_local item = qty item * latest_price item
  /\ (value_base item, snd (security_row self market_prices pos))
     = FxService.convert (_fx self) (Some (value_local item)) (currency item) None
  /\ (exists s,
        AnalysisService.get_summary svc h = Some (Ok s, h)
        /\ Summary.price_warn_count s
           = length (filter (fun r => price_source r = "cost"%string) (rows df)))
  /\ (forall as_of_date out,
        get_full_portfolio self as_of_date = Ok (df, out) ->
        exists positions,
          get_positions (_repo self) as_of_date = Ok positions
          /\ length (filter (fun r => price_source r = "cost"%string) (rows df))
             = length (filter (fun p => get_latest_market_prices (_repo self)
                                          !! pos_ticker p = None) positions)).
Proof.
  intros Hdf item. subst item. unfold security_row.
  repeat match goal with |- _ /\ _ => split end.
  - now destruct (market_prices !! pos_ticker pos); destruct_convert.
  - now destruct (market_prices !! pos_ticker pos); destruct_convert.
  - now destruct (market_prices !! pos_ticker pos); destruct_convert.
  - intros mp ->. destruct_convert. simpl. auto.
  - intros ->. destruct (FxService.convert _ _ _ _) as [v o] eqn:Hconv. simpl.
    split; [reflexivity|]. split; [reflexivity|]. split.
    + intros c ->. destruct (Qeq_bool c 0) eqn:E; [|reflexivity].
      symmetry. now apply Qeq_bool_iff.
    + intros Hnone. rewrite Hnone in Hconv |- *.
      split; [reflexivity|]. split; [apply Qmult_0_r|].
      unfold FxService.convert in Hconv.
      destruct (FxService.get_rate _ _ _) as [rate o']. injection Hconv as <- _.
      rewrite Qmult_0_r. apply Qmult_0_l.
  - now destruct (market_prices !! pos_ticker pos); destruct_convert.
  - destruct (market_prices !! pos_ticker pos);
      destruct (FxService.convert _ _ _ _) eqn:E; simpl; now rewrite <- E.
  - destruct (get_summary_run svc h df Hdf) as (s & Hs & Hcount & _). eauto.
  - intros as_of_date out Hfull.
    destruct (get_full_portfolio_rows self _ _ _ Hfull) as (positions & Hpos & _ & Hrows).
    exists positions. split; [exact Hpos|].
    rewrite Hrows, filter_app, length_app, filter_fmap_list, length_fmap.
    rewrite (filter_none _ (omap _ _)).
    + simpl. rewrite Nat.add_0_r. f_equal. apply list_filter_iff.
      intros p. apply security_row_source.
    + intros r (cb & _ & Hr)%list_elem_of_omap Hcost.
      apply cash_row_source in Hr. congruence.
Qed.

End SecurityClaims.

Lemma security_line_item_witness :
  exists s,
    AnalysisService.get_summary analysis_cny (snapshot_store (ledger_abc []))
    = Some (Ok s, snapshot_store (ledger_abc []))
    /\ Summary.price_warn_count s = 1%nat.
Proof.
  destruct (security_line_item
              (PortfolioService.__init__ (ledger_abc []) "CNY") ∅
              (position_row asset_abc 100 (Some 10))
              analysis_cny (snapshot_store (ledger_abc []))
              (frame_cny [abc_item (1000 # 100) (1000 # 100) "cost"
                            (100000 # 100) (72500000 # 10000)]))
    as (_ & _ & _ & _ & _ & _ & _ & (s & Hs & Hcount) & _).
  - vm_compute. reflexivity.
  - exists s. split; [exact Hs|]. rewrite Hcount. vm_compute. reflexivity.
Defined.

(** The scenario with a market price of 12: valued at the market, 1200 USD,
    8700 CNY at the fallback rate. *)
Example snapshot_at_market :
  exists item,
    PortfolioService.get_full_portfolio
      (PortfolioService.__init__ (ledger_abc [abc_at_12]) "CNY") None
    = Ok (frame_cny [item], [])
    /\ qty item = 100 /\ latest_price item = 12
    /\ price_source item = "market"%string
    /\ value_local item == 1200 /\ value_base item == 8700.
Proof.
  eexists. split; [vm_compute; reflexivity|].
  repeat split; reflexivity.
Qed.

(** The same ledger without a market price: valued at cost, 1000 USD. *)
Example snapshot_at_cost :
  exists item,
    PortfolioService.get_full_portfolio
      (PortfolioService.__init__ (ledger_abc []) "CNY") None
    = Ok (frame_cny [item], [])
    /\ latest_price item == 10
    /\ price_source item = "cost"%string
    /\ value_local item == 1000.
Proof.
  eexists. split; [vm_compute; reflexivity|].
  repeat split; reflexivity.
Qed.

(** ** Cash line items *)

Section CashRows.
Import PortfolioRepository PortfolioService.
Variable self : PortfolioService.t.
Variable cb : CashBalance.

(** C6: a cash balance gives a CASH line item if and only if it is
    strictly positive.  The line item has [qty] equal to the balance,
    [avg_cost = latest_price = 1.0], [price_source = N/A], [value_local]
    equal to the balance and the reporting value equal to the converted
    balance; a balance [<= 0] gives no line item.  The cash rows of the
    frame are those line items, in the order of the balances. *)
Theorem cash_line_item :
  (is_Some (fst (cash_row self cb)) <-> 0 < cb_balance cb)
  /\ (forall item,
        fst (cash_row self cb) = Some item ->
        type item = "CASH"%string
        /\ asset_class item = "CASH"%string
        /\ currency item = cb_currency cb
        /\ qty item = cb_balance cb
        /\ avg_cost item = 1 /\ latest_price item = 1
        /\ price_source item = "N/A"%string
        /\ value_local item = cb_balance cb
        /\ (value_base item, snd (cash_row self cb))
           = FxService.convert (_fx self) (Some (cb_balance cb)) (cb_currency cb) None
        /\ value_base item
           = cb_balance cb * fst (FxService.get_rate (_fx self) (cb_currency cb) None))
  /\ (cb_balance cb <= 0 -> cash_row self cb = (None, []))
  /\ (forall as_of_date,
        rows (fst (_build_cash_df self as_of_date))
        = omap (fun cb => fst (cash_row self cb))
            (get_cash_balances (_repo self) as_of_date)).
Proof.
  unfold cash_row. repeat match goal with |- _ /\ _ => split end.
  - destruct (Qle_bool (cb_balance cb) 0) eqn:E.
    + apply Qle_bool_iff in E. simpl. split.
      * intros H. now apply is_Some_None in H.
      * intros H. exfalso. apply (Qlt_irrefl 0). eapply Qlt_le_trans; eassumption.
    + destruct_convert. simpl. split; [|eauto]. intros _.
      apply Qnot_le_lt. intros H%Qle_bool_iff. congruence.
  - intros item. destruct (Qle_bool (cb_balance cb) 0); [discriminate|].
    unfold FxService.convert.
    destruct (FxService.get_rate _ _ _) as [rate o]. simpl.
    intros [= <-]. simpl. repeat split; reflexivity.
  - intros H%Qle_bool_iff. now rewrite H.
  - intros as_of_date. unfold _build_cash_df. simpl.
    now rewrite omap_fmap_list.
Qed.

End CashRows.

(** The negative balance of the two BUYs gives no line item. *)
Example cash_rows_two_buys :
  rows (fst (PortfolioService._build_cash_df
               (PortfolioService.__init__ ledger_two_buys "CNY") None)) = [].
Proof. vm_compute. reflexivity. Qed.

(** The balance of 4950 CNY gives one line item of 4950. *)
Example cash_rows_deposit_fee :
  (fun r => (type r, ticker r, qty r, price_source r, value_base r))
  <$> rows (fst (PortfolioService._build_cash_df
                   (PortfolioService.__init__ ledger_deposit_fee "CNY") None))
  = [("CASH", "Main_CNY", 4950, "N/A", 4950)]%string.
Proof. vm_compute. reflexivity. Qed.

(** ** Construction of the analysis *)

Section Analysis.
Import AnalysisService.

Lemma init_run (portfolio_df : loc) (base_currency : string) (h : heap)
    (df : DataFrame) :
  h !! portfolio_df = Some df ->
  let l := fresh (dom h) in
  __init__ portfolio_df base_currency h
  = Some (if bool_decide (("value_" +:+ Py.lower base_currency) ∈ columns df)
          then Ok {| _df := l; _base := base_currency;
                     _val_col := "value_" +:+ Py.lower base_currency |}
          else Raise (ValueError ("portfolio_df 中缺少列 '"
                                  +:+ ("value_" +:+ Py.lower base_currency)
                                  +:+ "'，请检查 PortfolioService 配置")),
          <[l := df]> h).
Proof.
  intros Hdf l. unfold __init__, mbind, M_bind, copy. rewrite Hdf.
  fold l. cbn [_df]. unfold load. rewrite lookup_insert_eq. cbn [_val_col].
  destruct (bool_decide _); reflexivity.
Qed.

Lemma fresh_loc (h : heap) (l : loc) (df : DataFrame) :
  h !! l = Some df -> fresh (dom h) <> l.
Proof.
  intros Hl E. apply (is_fresh (dom h)). rewrite E.
  apply elem_of_dom. eauto.
Qed.

(** A method reads the frame of the service and leaves the store as it
    is. *)
Lemma call_run (self : t) (m : method) (h : heap) (df : DataFrame) :
  h !! _df self = Some df -> exists a, call self m h = Some (Ok a, h).
Proof.
  intros Hdf.
  destruct m; unfold call, get_asset_class_distribution, get_currency_distribution,
    get_account_distribution, get_summary.
  all: unfold mbind at 1; unfold M_bind.
  all: rewrite (load_bind _ df _ _ Hdf).
  all: try destruct (Qeq_bool _ _); eexists; reflexivity.
Qed.

Lemma calls_run (self : t) (ms : list method) (h : heap) (df : DataFrame) :
  h !! _df self = Some df -> exists answers, calls self ms h = Some (Ok answers, h).
Proof.
  intros Hdf. induction ms as [|m ms [answers IH]].
  - exists []. reflexivity.
  - destruct (call_run self m h df Hdf) as [a Ha].
    exists (a :: answers). cbn [calls]. unfold mbind, M_bind.
    rewrite Ha. fold (@mbind M _). unfold mbind, M_bind. now rewrite IH.
Qed.

End Analysis.

Section AnalysisClaims.
Import AnalysisService.
Variable portfolio_df : loc.
Variable base_currency : string.
Variable h : heap.
Variable df : DataFrame.

(** C10: constructing the analysis of a frame copies the frame into a new
    object, and the input stays as it was.  When the column
    [value_{base_currency.lower()}] is not among the columns of the frame,
    the construction raises a [ValueError] and no service exists.  When it
    is, the construction returns a service whose frame is the new object,
    equal in content to the input; and any sequence of calls of the
    analysis methods returns and leaves the whole store, the input frame
    and the copy included, as it was. *)
Theorem analysis_construction :
  h !! portfolio_df = Some df ->
  let val_col := "value_" +:+ Py.lower base_currency in
  (val_col ∉ columns df ->
     exists msg h',
       __init__ portfolio_df base_currency h = Some (Raise (ValueError msg), h')
       /\ h' !! portfolio_df = Some df)
  /\ (val_col ∈ columns df ->
        exists self h',
          __init__ portfolio_df base_currency h = Some (Ok self, h')
          /\ _df self <> portfolio_df
          /\ h !! _df self = None
          /\ h' !! _df self = Some df
          /\ h' !! portfolio_df = Some df
          /\ (forall l, l <> _df self -> h' !! l = h !! l)
          /\ forall ms : list method,
               exists answers, calls self ms h' = Some (Ok answers, h')).
Proof.
  intros Hdf val_col. subst val_col.
  pose proof (fresh_loc h portfolio_df df Hdf) as Hfresh.
  rewrite (init_run portfolio_df base_currency h df Hdf).
  split; intros Hcol.
  - rewrite bool_decide_eq_false_2 by exact Hcol.
    eexists _, _. split; [reflexivity|].
    now rewrite lookup_insert_ne.
  - rewrite bool_decide_eq_true_2 by exact Hcol.
    eexists _, _. split; [reflexivity|]. cbn [_df].
    split; [exact Hfresh|]. split.
    { apply not_elem_of_dom, is_fresh. }
    split; [apply lookup_insert_eq|].
    split; [now rewrite lookup_insert_ne|].
    split; [intros l Hl; now rewrite lookup_insert_ne|].
    intros ms. eapply calls_run. cbn [_df]. apply lookup_insert_eq.
Qed.

End AnalysisClaims.

Lemma snapshot_store_abc :
  snapshot_store (ledger_abc []) !! 1%positive
  = Some (frame_cny [abc_item (1000 # 100) (1000 # 100) "cost"
                       (100000 # 100) (72500000 # 10000)]).
Proof. vm_compute. reflexivity. Qed.

Lemma analysis_construction_witness :
  exists self h',
    AnalysisService.__init__ 1%positive "CNY" (snapshot_store (ledger_abc []))
    = Some (Ok self, h')
    /\ h' !! 1%positive = snapshot_store (ledger_abc []) !! 1%positive
    /\ forall ms : list AnalysisService.method,
         exists answers, AnalysisService.calls self ms h' = Some (Ok answers, h').
Proof.
  destruct (analysis_construction 1%positive "CNY" (snapshot_store (ledger_abc [])) _
              snapshot_store_abc) as [_ H].
  destruct H as (self & h' & Hinit & _ & _ & _ & Hin & _ & Hcalls).
  - eapply (bool_decide_unpack _). vm_compute. exact I.
  - exists self, h'. split; [exact Hinit|]. split; [|exact Hcalls].
    etrans; [exact Hin | symmetry; exact snapshot_store_abc].
Defined.

(** The frame of a CNY snapshot analysed in USD: the column is missing. *)
Example analysis_wrong_currency :
  exists msg h',
    AnalysisService.__init__ 1%positive "USD" (snapshot_store (ledger_abc []))
    = Some (Raise (ValueError msg), h').
Proof. eexists _, _. vm_compute. reflexivity. Qed.

(** ** The empty portfolio *)

Section EmptyPortfolio.
Import PortfolioRepository PortfolioService.
Variable self : PortfolioService.t.
Variable as_of_date : option date.
Variable h : heap.
Variable l : loc.

(** C8: with no position and no cash balance, the snapshot is the frame of
    the schema columns with no row, every distribution of its analysis is
    empty, and the total value of its summary is 0; every one of these
    calls returns. *)
Theorem empty_portfolio :
  get_positions (_repo self) as_of_date = Ok [] ->
  get_cash_balances (_repo self) as_of_date = [] ->
  let df := {| columns := _schema_columns self; rows := [] |} in
  get_full_portfolio self as_of_date = Ok (df, [])
  /\ (h !! l = Some df ->
      exists svc h',
        AnalysisService.__init__ l (_base self) h = Some (Ok svc, h')
        /\ AnalysisService.get_asset_class_distribution svc h' = Some (Ok [], h')
        /\ AnalysisService.get_currency_distribution svc h' = Some (Ok [], h')
        /\ AnalysisService.get_account_distribution svc h' = Some (Ok [], h')
        /\ exists s,
             AnalysisService.get_summary svc h' = Some (Ok s, h')
             /\ Summary.total_value s == 0
             /\ Summary.position_count s = 0%nat
             /\ Summary.price_warn_count s = 0%nat).
Proof.
  intros Hpos Hcash df. split.
  - unfold get_full_portfolio, _build_security_df, _build_cash_df.
    rewrite Hpos, Hcash. cbn [fmap list_fmap omap list_omap concat fst snd].
    unfold concat_frames, frame_of_rows. cbn [columns rows app].
    rewrite (filter_none _ (_schema_columns self)) by (intros c Hc Hn; contradiction).
    reflexivity.
  - intros Hdf.
    rewrite (init_run l (_base self) h df Hdf).
    rewrite bool_decide_eq_true_2.
    + eexists _, _. split; [reflexivity|].
      unfold AnalysisService.get_asset_class_distribution,
        AnalysisService.get_currency_distribution,
        AnalysisService.get_account_distribution,
        AnalysisService.get_summary.
      rewrite !(load_bind _ df) by (cbn [AnalysisService._df]; apply lookup_insert_eq).
      repeat split. eexists. repeat split.
    + subst df. unfold _schema_columns. cbn [columns].
      do 11 apply list_elem_of_further. apply list_elem_of_here.
Qed.

End EmptyPortfolio.

Lemma empty_portfolio_witness :
  PortfolioService.get_full_portfolio
    (PortfolioService.__init__ ledger_empty "CNY") None
  = Ok (frame_cny [], [])
  /\ exists svc h',
       AnalysisService.__init__ 1%positive "CNY" {[ 1%positive := frame_cny [] ]}
       = Some (Ok svc, h')
       /\ AnalysisService.get_asset_class_distribution svc h' = Some (Ok [], h')
       /\ exists s,
            AnalysisService.get_summary svc h' = Some (Ok s, h')
            /\ Summary.total_value s == 0.
Proof.
  destruct (empty_portfolio (PortfolioService.__init__ ledger_empty "CNY") None
              {[ 1%positive := frame_cny [] ]} 1%positive)
    as [Hfull Hrest]; [reflexivity | reflexivity |].
  split; [exact Hfull|].
  destruct Hrest as (svc & h' & Hinit & Hclass & _ & _ & s & Hs & Htotal & _);
    [reflexivity|].
  exists svc, h'. split; [exact Hinit|]. split; [exact Hclass|].
  exists s. split; [exact Hs | exact Htotal].
Defined.

(** ** Rounding *)

Lemma round_half_even_error (x : Q) :
  Qabs (inject_Z (Num.round_half_even x) - x) <= 1 # 2.
Proof.
  unfold Num.round_half_even.
  pose proof (Qfloor_le x) as Hlo. pose proof (Qlt_floor x) as Hhi.
  rewrite inject_Z_plus in Hhi. change (inject_Z 1) with 1 in Hhi.
  set (n := Qfloor x) in *.
  apply Qabs_Qle_condition.
  destruct (Qcompare_spec (x - inject_Z n) (1 # 2)) as [H|H|H].
  - destruct (Z.even n).
    + split; lra.
    + rewrite inject_Z_plus. change (inject_Z 1) with 1. split; lra.
  - split; lra.
  - rewrite inject_Z_plus. change (inject_Z 1) with 1. split; lra.
Qed.

Lemma round2_error (x : Q) : Qabs (Num.round2 x - x) <= 1 # 200.
Proof.
  unfold Num.round2.
  pose proof (round_half_even_error (x * 100)) as H.
  apply Qabs_Qle_condition in H. apply Qabs_Qle_condition.
  set (k := inject_Z (Num.round_half_even (x * 100))) in *.
  unfold Qdiv. change (/ 100) with (1 # 100). split; lra.
Qed.

(** Rounding each term moves a sum by at most 0.005 per term. *)
Lemma round2_sum_error (ws : list Q) :
  Qabs (Num.Qsum (Num.round2 <$> ws) - Num.Qsum ws)
  <= (1 # 200) * inject_Z (Z.of_nat (length ws)).
Proof.
  induction ws as [|w ws IH].
  - vm_compute. discriminate.
  - rewrite Qsum_fmap_cons, Qsum_cons.
    cbn [length]. rewrite Nat2Z.inj_succ, <- Z.add_1_r, inject_Z_plus.
    change (inject_Z 1) with 1.
    pose proof (round2_error w) as Hw.
    apply Qabs_Qle_condition in Hw, IH. apply Qabs_Qle_condition.
    split; lra.
Qed.

(** ** Weights *)

(** The exact weights of the groups of a frame add up to 100. *)
Lemma group_weights_exact (key : LineItem -> string) (items : list LineItem) :
  ~ Num.Qsum (value_base <$> items) == 0 ->
  Num.Qsum ((fun g : string * list LineItem =>
               Num.Qsum (value_base <$> snd g)
               / Num.Qsum (value_base <$> items) * 100)
            <$> AnalysisService.groupby key items) == 100.
Proof.
  intros Hne. set (total := Num.Qsum (value_base <$> items)) in *.
  rewrite (Qsum_fmap_ext _
             (fun g => Num.Qsum (value_base <$> snd g) * (/ total * 100))).
  - rewrite Qsum_fmap_scale. unfold AnalysisService.groupby.
    rewrite Qsum_group_by. fold total. field. exact Hne.
  - intros g _. unfold Qdiv. ring.
Qed.

Lemma group_weights (key : LineItem -> string) (items : list LineItem) :
  ~ Num.Qsum (value_base <$> items) == 0 ->
  let ws := (fun g : string * list LineItem =>
               Num.round2 (Num.Qsum (value_base <$> snd g)
                           / Num.Qsum (value_base <$> items) * 100))
            <$> AnalysisService.groupby key items in
  Qabs (Num.Qsum ws - 100) <= allowance (length ws).
Proof.
  intros Hne ws. subst ws.
  change (fun g : string * list LineItem =>
            Num.round2 (Num.Qsum (value_base <$> snd g)
                        / Num.Qsum (value_base <$> items) * 100))
    with (Num.round2 ∘ (fun g : string * list LineItem =>
                          Num.Qsum (value_base <$> snd g)
                          / Num.Qsum (value_base <$> items) * 100)).
  rewrite list_fmap_compose.
  pose proof (group_weights_exact key items Hne) as Hex.
  set (W := _ <$> AnalysisService.groupby key items) in *.
  rewrite <- Hex, length_fmap. apply round2_sum_error.
Qed.

(** The exact weights of the CASH rows add up to the share of cash. *)
Lemma cash_weights (df : DataFrame) :
  ~ total_of df == 0 ->
  let ws := (fun r => Num.round2 (value_base r / total_of df * 100))
            <$> filter (fun r => type r = "CASH"%string) (rows df) in
  Qabs (Num.Qsum ws - cash_of df / total_of df * 100) <= allowance (length ws).
Proof.
  intros Hne ws. subst ws.
  change (fun r => Num.round2 (value_base r / total_of df * 100))
    with (Num.round2 ∘ (fun r => value_base r / total_of df * 100)).
  rewrite list_fmap_compose.
  assert (Num.Qsum ((fun r => value_base r / total_of df * 100)
                    <$> filter (fun r => type r = "CASH"%string) (rows df))
          == cash_of df / total_of df * 100) as Hex.
  { rewrite (Qsum_fmap_ext _ (fun r => value_base r * (/ total_of df * 100))).
    - rewrite Qsum_fmap_scale. unfold cash_of, Qdiv. ring.
    - intros r _. unfold Qdiv. ring. }
  set (W := _ <$> filter _ (rows df)) in *.
  rewrite <- Hex, length_fmap. apply round2_sum_error.
Qed.

Lemma allowance_ten (n : nat) : (n <= 10)%nat -> allowance n <= 0.05.
Proof.
  intros Hn. unfold allowance.
  assert (inject_Z (Z.of_nat n) <= inject_Z 10) as H.
  { rewrite <- Zle_Qle. lia. }
  change (inject_Z 10) with 10 in H. lra.
Qed.

Lemma sorted_group_weights {R} (key : LineItem -> string) (items : list LineItem)
    (mk : string * list LineItem -> R) (weight : R -> Q) (leb : R -> R -> bool) :
  ~ Num.Qsum (value_base <$> items) == 0 ->
  (forall g, weight (mk g)
             = Num.round2 (Num.Qsum (value_base <$> snd g)
                           / Num.Qsum (value_base <$> items) * 100)) ->
  let rs := Sql.order_by leb (mk <$> AnalysisService.groupby key items) in
  Qabs (Num.Qsum (weight <$> rs) - 100) <= allowance (length rs).
Proof.
  intros Hne Hw rs. subst rs.
  pose proof (group_weights key items Hne) as H. cbv zeta in H.
  rewrite length_fmap in H.
  rewrite (Qsum_Permutation _ (weight <$> (mk <$> AnalysisService.groupby key items))).
  - rewrite (Permutation_length (order_by_Permutation _ _)), length_fmap.
    rewrite <- list_fmap_compose.
    rewrite (list_fmap_ext (weight ∘ mk) _ _ (fun _ g _ => Hw g)). exact H.
  - apply fmap_Permutation, order_by_Permutation.
Qed.

Section WeightClaims.
Import AnalysisService.
Variable svc : AnalysisService.t.
Variable h : heap.
Variable df : DataFrame.

(** C7, as the code has it: in every distribution, each [weight_pct] is
    the value of the group (of the cash row, in the account distribution)
    divided by the sum of all the values of the snapshot times 100,
    rounded to 2 decimals.  The asset classes and the currencies partition
    the snapshot: their weights sum to 100 within 0.005 per group, hence
    within 0.05 when there are at most 10 groups.  The account
    distribution lists the CASH rows only, against the same total: its
    weights sum to the share of cash in percent within 0.005 per row, and
    to 100 within 0.05 only when the whole value is cash and there are at
    most 10 rows. *)
Theorem weights_sum :
  h !! _df svc = Some df ->
  0 < total_of df ->
  (exists rs,
     get_asset_class_distribution svc h = Some (Ok rs, h)
     /\ (forall r, r ∈ rs ->
           ClassRow.weight_pct r
           = Num.round2
               (Num.Qsum (value_base <$>
                          filter (fun x => asset_class x = ClassRow.asset_class r) (rows df))
                / total_of df * 100))
     /\ Qabs (Num.Qsum (ClassRow.weight_pct <$> rs) - 100) <= allowance (length rs)
     /\ ((length rs <= 10)%nat -> within_tolerance (ClassRow.weight_pct <$> rs)))
  /\ (exists rs,
        get_currency_distribution svc h = Some (Ok rs, h)
        /\ (forall r, r ∈ rs ->
              CurrencyRow.weight_pct r
              = Num.round2
                  (Num.Qsum (value_base <$>
                             filter (fun x => currency x = CurrencyRow.currency r) (rows df))
                   / total_of df * 100))
        /\ Qabs (Num.Qsum (CurrencyRow.weight_pct <$> rs) - 100) <= allowance (length rs)
        /\ ((length rs <= 10)%nat -> within_tolerance (CurrencyRow.weight_pct <$> rs)))
  /\ (exists rs,
        get_account_distribution svc h = Some (Ok rs, h)
        /\ AccountRow.weight_pct <$> rs
           = (fun r => Num.round2 (value_base r / total_of df * 100))
             <$> filter (fun r => type r = "CASH"%string) (rows df)
        /\ Qabs (Num.Qsum (AccountRow.weight_pct <$> rs)
                 - cash_of df / total_of df * 100) <= allowance (length rs)
        /\ (cash_of df == total_of df -> (length rs <= 10)%nat ->
            within_tolerance (AccountRow.weight_pct <$> rs))).
Proof.
  intros Hdf Hpos.
  assert (~ total_of df == 0) as Hne.
  { intros E. rewrite E in Hpos. now apply Qlt_irrefl in Hpos. }
  assert (Qeq_bool (Num.Qsum (value_base <$> rows df)) 0 = false) as Hz.
  { apply not_true_iff_false. intros E%Qeq_bool_iff. now apply Hne. }
  split; [|split].
  - unfold get_asset_class_distribution.
    rewrite (load_bind _ df _ _ Hdf), Hz. rewrite <- list_fmap_compose.
    eexists. split; [reflexivity|]. split; [|split].
    + intros r Hr. apply elem_of_order_by, list_elem_of_fmap in Hr
        as ([k g] & -> & [_ ->]%elem_of_group_by). reflexivity.
    + apply (sorted_group_weights asset_class (rows df)); [exact Hne|].
      intros [k g]. reflexivity.
    + intros Hlen. unfold within_tolerance.
      eapply Qle_trans; [|apply (allowance_ten _ Hlen)].
      apply (sorted_group_weights asset_class (rows df)); [exact Hne|].
      intros [k g]. reflexivity.
  - unfold get_currency_distribution.
    rewrite (load_bind _ df _ _ Hdf), Hz. rewrite <- list_fmap_compose.
    eexists. split; [reflexivity|]. split; [|split].
    + intros r Hr. apply elem_of_order_by, list_elem_of_fmap in Hr
        as ([k g] & -> & [_ ->]%elem_of_group_by). reflexivity.
    + apply (sorted_group_weights currency (rows df)); [exact Hne|].
      intros [k g]. reflexivity.
    + intros Hlen. unfold within_tolerance.
      eapply Qle_trans; [|apply (allowance_ten _ Hlen)].
      apply (sorted_group_weights currency (rows df)); [exact Hne|].
      intros [k g]. reflexivity.
  - unfold get_account_distribution.
    rewrite (load_bind _ df _ _ Hdf), Hz.
    eexists. split; [reflexivity|].
    assert (forall l : list LineItem,
              AccountRow.weight_pct <$>
                ((fun r => {| AccountRow.name := name r;
                              AccountRow.currency := currency r;
                              AccountRow.qty := qty r;
                              AccountRow.weight_pct :=
                                Num.round2 (value_base r
                                            / Num.Qsum (value_base <$> rows df) * 100);
                              AccountRow.value := Num.round2 (value_base r) |}) <$> l)
              = (fun r => Num.round2 (value_base r / total_of df * 100)) <$> l) as Hws.
    { intros l. rewrite <- list_fmap_compose. reflexivity. }
    split; [apply Hws|].
    pose proof (cash_weights df Hne) as Hcash. cbv zeta in Hcash.
    rewrite length_fmap in Hcash.
    split.
    + rewrite Hws, length_fmap. exact Hcash.
    + intros Hall Hlen. unfold within_tolerance.
      rewrite Hws. rewrite length_fmap in Hlen.
      eapply Qle_trans; [|apply (allowance_ten _ Hlen)].
      assert (cash_of df / total_of df * 100 == 100) as E.
      { rewrite Hall. field. exact Hne. }
      rewrite <- E. exact Hcash.
Qed.

End WeightClaims.

Lemma snapshot_store_half_cash :
  exists df,
    snapshot_store ledger_half_cash !! 1%positive = Some df
    /\ total_of df == 100 /\ cash_of df == 50.
Proof.
  eexists. split; [vm_compute; reflexivity|]. split; reflexivity.
Qed.

Lemma weights_sum_witness :
  exists rs,
    AnalysisService.get_account_distribution analysis_cny
      (snapshot_store ledger_half_cash)
    = Some (Ok rs, snapshot_store ledger_half_cash)
    /\ Qabs (Num.Qsum (AccountRow.weight_pct <$> rs)
             - cash_of frame_half_cash / total_of frame_half_cash * 100)
       <= allowance (length rs).
Proof.
  destruct (weights_sum analysis_cny (snapshot_store ledger_half_cash)
              frame_half_cash)
    as (_ & _ & rs & Hrs & _ & Hsum & _).
  - vm_compute. reflexivity.
  - reflexivity.
  - exists rs. split; [exact Hrs|]. exact Hsum.
Defined.

(** C7 as stated fails: half of this snapshot is a security, and the
    weights of the account distribution sum to 50, not to 100 within
    0.05. *)
Lemma account_weights_not_100 :
  exists df rs,
    snapshot_store ledger_half_cash !! 1%positive = Some df
    /\ 0 < total_of df
    /\ AnalysisService.get_account_distribution analysis_cny
         (snapshot_store ledger_half_cash)
       = Some (Ok rs, snapshot_store ledger_half_cash)
    /\ Num.Qsum (AccountRow.weight_pct <$> rs) == 50
    /\ ~ within_tolerance (AccountRow.weight_pct <$> rs).
Proof.
  eexists _, _. split; [vm_compute; reflexivity|].
  split; [reflexivity|]. split; [vm_compute; reflexivity|].
  split; [reflexivity|].
  unfold within_tolerance. intros H. vm_compute in H. now apply H.
Qed.

(** Nineteen currencies of equal value: each weight is 5.26, and the
    weights of the currency distribution sum to 99.94. *)
Example currency_weights_nineteen :
  exists rs,
    AnalysisService.get_currency_distribution analysis_cny
      (snapshot_store ledger_nineteen)
    = Some (Ok rs, snapshot_store ledger_nineteen)
    /\ length rs = 19%nat
    /\ Num.Qsum (CurrencyRow.weight_pct <$> rs) == 99.94
    /\ ~ within_tolerance (CurrencyRow.weight_pct <$> rs).
Proof.
  eexists. split; [vm_compute; reflexivity|].
  split; [reflexivity|]. split; [reflexivity|].
  unfold within_tolerance. intros H. vm_compute in H. now apply H.
Qed.

(** * Further properties of the engine *)

(** ** The keys of the mixed ledger *)

Lemma ledger_mixed_asset_ids : NoDup (a_id <$> tb_assets ledger_mixed).
Proof. eapply (bool_decide_unpack _). vm_compute. exact I. Qed.

Lemma ledger_mixed_tickers : NoDup (a_ticker <$> tb_assets ledger_mixed).
Proof. eapply (bool_decide_unpack _). vm_compute. exact I. Qed.

Lemma ledger_mixed_account_ids : NoDup (acc_id <$> tb_accounts ledger_mixed).
Proof. apply NoDup_singleton. Qed.

(** ** Orders made of comparisons *)

(** A three-way comparison of a total order. *)
Record compare_ok {A} (cmp : A -> A -> comparison) : Prop := {
  compare_eq : forall x y, cmp x y = Eq -> x = y;
  compare_refl : forall x, cmp x x = Eq;
  compare_trans : forall x y z, cmp x y = Lt -> cmp y z = Lt -> cmp x z = Lt;
  compare_flip : forall x y, cmp x y = Gt -> cmp y x = Lt
}.

Lemma string_compare_ok : compare_ok String_as_OT.compare.
Proof.
  split; [exact cmp_eq | exact cmp_refl | exact cmp_lt_trans | exact cmp_gt_lt].
Qed.

Lemma Z_compare_ok : compare_ok Z.compare.
Proof.
  split.
  - intros x y. apply Z.compare_eq.
  - apply Z.compare_refl.
  - intros x y z. rewrite !Z.compare_lt_iff. lia.
  - intros x y. rewrite Z.compare_gt_iff, Z.compare_lt_iff. lia.
Qed.

(** The later first: [ORDER BY date DESC]. *)
Lemma Z_compare_desc_ok : compare_ok (fun x y => Z.compare y x).
Proof.
  split.
  - intros x y H. symmetry. now apply Z.compare_eq.
  - apply Z.compare_refl.
  - intros x y z. rewrite !Z.compare_lt_iff. lia.
  - intros x y. rewrite Z.compare_gt_iff, Z.compare_lt_iff. lia.
Qed.

Lemma nat_compare_ok : compare_ok Nat.compare.
Proof.
  split.
  - intros x y. apply Nat.compare_eq.
  - apply Nat.compare_refl.
  - intros x y z. rewrite !Nat.compare_lt_iff. lia.
  - intros x y. rewrite Nat.compare_gt_iff, Nat.compare_lt_iff. lia.
Qed.

Section Lex.
Context {X A : Type} (key : X -> A) (cmp : A -> A -> comparison).
Context (rest : X -> X -> bool).
Hypothesis cmp_ok : compare_ok cmp.

Lemma lex_iff (x y : X) :
  Py.lex (cmp (key x) (key y)) (rest x y) = true
  <-> cmp (key x) (key y) = Lt \/ (key x = key y /\ rest x y = true).
Proof.
  destruct (cmp (key x) (key y)) eqn:E; simpl.
  - apply (compare_eq _ cmp_ok) in E. intuition discriminate.
  - tauto.
  - split; [discriminate|]. intros [H|[H _]]; [discriminate|].
    rewrite H, (compare_refl _ cmp_ok) in E. discriminate.
Qed.

Lemma lex_total :
  (forall x y, rest x y = true \/ rest y x = true) ->
  forall x y, Py.lex (cmp (key x) (key y)) (rest x y) = true
              \/ Py.lex (cmp (key y) (key x)) (rest y x) = true.
Proof.
  intros Hrest x y. rewrite !lex_iff.
  destruct (cmp (key x) (key y)) eqn:E.
  - apply (compare_eq _ cmp_ok) in E. destruct (Hrest x y); [left|right]; auto.
  - auto.
  - right. left. now apply (compare_flip _ cmp_ok).
Qed.

Lemma lex_transitive :
  (forall x y z, rest x y = true -> rest y z = true -> rest x z = true) ->
  forall x y z,
    Py.lex (cmp (key x) (key y)) (rest x y) = true ->
    Py.lex (cmp (key y) (key z)) (rest y z) = true ->
    Py.lex (cmp (key x) (key z)) (rest x z) = true.
Proof.
  intros Hrest x y z. rewrite !lex_iff.
  intros [H1|[E1 R1]] [H2|[E2 R2]].
  - left. eapply (compare_trans _ cmp_ok); eassumption.
  - left. now rewrite <- E2.
  - left. now rewrite E1.
  - right. split; [congruence | eauto].
Qed.

End Lex.

(** ** The first row of each key *)

Section DistinctOn.
Import PortfolioRepository.
Context `{EqDecision K} {A : Type} (key : A -> K).

Lemma elem_of_distinct_on (l : list A) (x : A) :
  x ∈ distinct_on key l -> x ∈ l.
Proof.
  induction l as [|a l IH]; simpl; [tauto|].
  rewrite !elem_of_cons, list_elem_of_filter. tauto.
Qed.

Lemma distinct_on_keys (l : list A) (k : K) :
  k ∈ key <$> distinct_on key l <-> k ∈ key <$> l.
Proof.
  induction l as [|a l IH]; [reflexivity|]. cbn [distinct_on].
  rewrite !fmap_cons, !elem_of_cons, <- IH, !list_elem_of_fmap.
  destruct (decide (k = key a)) as [->|Hne]; [tauto|].
  split.
  - intros [?|(x & -> & [_ Hx]%list_elem_of_filter)]; eauto.
  - intros [?|(x & -> & Hx)]; [tauto|]. right. exists x. split; [reflexivity|].
    apply list_elem_of_filter. auto.
Qed.

Lemma NoDup_distinct_on (l : list A) : NoDup (key <$> distinct_on key l).
Proof.
  induction l as [|a l IH]; [constructor|]. cbn [distinct_on].
  rewrite fmap_cons. constructor.
  - intros (x & E & [Hx _]%list_elem_of_filter)%list_elem_of_fmap. congruence.
  - eapply sublist_NoDup; [exact IH | apply fmap_sublist, sublist_filter].
Qed.

(** In a sorted list the row kept for a key comes before every row of
    that key. *)
Lemma distinct_on_first (R : A -> A -> Prop) (l : list A) :
  StronglySorted R l -> (forall x, R x x) ->
  forall x y, x ∈ distinct_on key l -> y ∈ l -> key y = key x -> R x y.
Proof.
  intros Hs Hrefl. induction Hs as [|a l Hs IH Ha]; intros x y Hx Hy E.
  - now apply elem_of_nil in Hy.
  - simpl in Hx. apply elem_of_cons in Hx as [->|[Hne Hx]%list_elem_of_filter].
    + apply elem_of_cons in Hy as [->|Hy]; [apply Hrefl|].
      rewrite Forall_forall in Ha. now apply Ha.
    + apply elem_of_cons in Hy as [->|Hy]; [congruence|]. now apply IH.
Qed.

End DistinctOn.

(** ** A dict filled row by row *)

Section DictOfRows.
Context `{Countable K} {A V : Type} (key : A -> K) (val : A -> V).

Lemma foldl_insert_other (l : list A) (m : gmap K V) (k : K) :
  k ∉ key <$> l ->
  foldl (fun m r => <[key r := val r]> m) m l !! k = m !! k.
Proof.
  revert m. induction l as [|a l IH]; intros m Hk; [reflexivity|].
  rewrite fmap_cons, not_elem_of_cons in Hk. destruct Hk as [Hne Hk].
  simpl. rewrite IH by exact Hk. now apply lookup_insert_ne.
Qed.

Lemma foldl_insert_row (l : list A) (m : gmap K V) (r : A) :
  NoDup (key <$> l) -> r ∈ l ->
  foldl (fun m r => <[key r := val r]> m) m l !! key r = Some (val r).
Proof.
  revert m. induction l as [|a l IH]; intros m Hnd Hr.
  - now apply elem_of_nil in Hr.
  - rewrite fmap_cons in Hnd. apply NoDup_cons in Hnd as [Ha Hnd]. simpl.
    apply elem_of_cons in Hr as [->|Hr].
    + rewrite foldl_insert_other by exact Ha. apply lookup_insert_eq.
    + now apply IH.
Qed.

Lemma foldl_insert_lookup (l : list A) (k : K) (v : V) :
  NoDup (key <$> l) ->
  foldl (fun m r => <[key r := val r]> m) (∅ : gmap K V) l !! k = Some v
  <-> exists r, r ∈ l /\ key r = k /\ val r = v.
Proof.
  intros Hnd. split.
  - intros Hk. destruct (decide (k ∈ key <$> l)) as [Hin|Hout].
    + apply list_elem_of_fmap in Hin as (r & -> & Hr).
      rewrite (foldl_insert_row l ∅ r Hnd Hr) in Hk. injection Hk as <-. eauto.
    + rewrite foldl_insert_other, lookup_empty in Hk by exact Hout. discriminate.
  - intros (r & Hr & <- & <-). now apply foldl_insert_row.
Qed.

End DictOfRows.

(** ** The latest rates *)

Section LatestRates.
Import PortfolioRepository.
Variable conn : Database.
Variable to_currency : string.

Lemma rates_order_total (r1 r2 : ExchangeRate) :
  rates_order r1 r2 = true \/ rates_order r2 r1 = true.
Proof.
  unfold rates_order.
  apply (lex_total er_from_currency String_as_OT.compare
           (fun r1 r2 => Py.lex (Z.compare (er_date r2) (er_date r1)) true)
           string_compare_ok).
  apply (lex_total er_date (fun x y => Z.compare y x) (fun _ _ => true)
           Z_compare_desc_ok). auto.
Qed.

Lemma rates_order_transitive (r1 r2 r3 : ExchangeRate) :
  rates_order r1 r2 = true -> rates_order r2 r3 = true -> rates_order r1 r3 = true.
Proof.
  unfold rates_order.
  apply (lex_transitive er_from_currency String_as_OT.compare
           (fun r1 r2 => Py.lex (Z.compare (er_date r2) (er_date r1)) true)
           string_compare_ok).
  apply (lex_transitive er_date (fun x y => Z.compare y x) (fun _ _ => true)
           Z_compare_desc_ok). auto.
Qed.

Lemma rates_order_same (r1 r2 : ExchangeRate) :
  er_from_currency r1 = er_from_currency r2 ->
  rates_order r1 r2 = true -> (er_date r2 <= er_date r1)%Z.
Proof.
  intros E. unfold rates_order. rewrite E, cmp_refl. simpl.
  destruct (Z.compare_spec (er_date r2) (er_date r1)); simpl; intros; [lia|lia|discriminate].
Qed.

Lemma exchange_rates_entry (f : string) :
  (forall r,
     get_latest_exchange_rates conn to_currency !! f = Some r ->
     exists row,
       row ∈ tb_exchange_rates conn
       /\ er_from_currency row = f
       /\ er_to_currency row = to_currency
       /\ er_rate row = r
       /\ forall row',
            row' ∈ tb_exchange_rates conn ->
            er_from_currency row' = f -> er_to_currency row' = to_currency ->
            (er_date row' <= er_date row)%Z)
  /\ (get_latest_exchange_rates conn to_currency !! f = None
      <-> forall row,
            row ∈ tb_exchange_rates conn ->
            er_to_currency row = to_currency -> er_from_currency row <> f).
Proof.
  unfold get_latest_exchange_rates.
  set (kept := filter (fun r => er_to_currency r = to_currency) (tb_exchange_rates conn)).
  set (sorted := Sql.order_by rates_order kept).
  assert (StronglySorted (fun r1 r2 => rates_order r1 r2 = true) sorted) as Hsorted.
  { apply order_by_sorted; [exact rates_order_total | exact rates_order_transitive]. }
  assert (forall row, row ∈ sorted <->
            row ∈ tb_exchange_rates conn /\ er_to_currency row = to_currency) as Hin.
  { intros row. unfold sorted, kept.
    rewrite elem_of_order_by, list_elem_of_filter. tauto. }
  pose proof (NoDup_distinct_on er_from_currency sorted) as Hnd.
  split.
  - intros r (row & Hrow & Hf & Hr)%(foldl_insert_lookup _ _ _ _ _ Hnd).
    exists row. pose proof (elem_of_distinct_on _ _ _ Hrow) as [Ht Hto]%Hin.
    repeat split; auto.
    intros row' Ht' Hf' Hto'.
    apply rates_order_same; [congruence|].
    apply (distinct_on_first er_from_currency _ sorted Hsorted).
    + intros x. destruct (rates_order_total x x); assumption.
    + exact Hrow.
    + apply Hin. auto.
    + congruence.
  - rewrite eq_None_not_Some. split.
    + intros Hnone row Ht Hto Hf. apply Hnone.
      assert (f ∈ er_from_currency <$> distinct_on er_from_currency sorted) as Hk.
      { apply distinct_on_keys, list_elem_of_fmap. exists row.
        split; [now symmetry|]. apply Hin. auto. }
      apply list_elem_of_fmap in Hk as (row0 & -> & Hrow0).
      exists (er_rate row0). now apply foldl_insert_row.
    + intros Hno [r (row & Hrow & Hf & _)%(foldl_insert_lookup _ _ _ _ _ Hnd)].
      pose proof (elem_of_distinct_on _ _ _ Hrow) as [Ht Hto]%Hin.
      now apply (Hno row).
Qed.

(** X1: the rate [get_latest_exchange_rates] gives for a currency is the
    rate of a row of [tb_exchange_rates] from that currency to the target
    currency, and no such row has a later date; a currency has no entry
    exactly when the table has no row from it to the target. *)
Theorem latest_exchange_rates (f : string) :
  match get_latest_exchange_rates conn to_currency !! f with
  | Some r =>
      exists row,
        row ∈ tb_exchange_rates conn
        /\ er_from_currency row = f
        /\ er_to_currency row = to_currency
        /\ er_rate row = r
        /\ forall row',
             row' ∈ tb_exchange_rates conn ->
             er_from_currency row' = f -> er_to_currency row' = to_currency ->
             (er_date row' <= er_date row)%Z
  | None =>
      forall row,
        row ∈ tb_exchange_rates conn ->
        er_to_currency row = to_currency -> er_from_currency row <> f
  end.
Proof.
  destruct (exchange_rates_entry f) as [Hsome Hnone].
  destruct (get_latest_exchange_rates conn to_currency !! f) as [r|].
  - now apply Hsome.
  - now apply Hnone.
Qed.

End LatestRates.

(** X2: a service constructed on a store resolves a currency other than
    its target to the latest persisted rate to the target whenever the
    store holds one, whatever the fallback table says, and prints
    nothing. *)
Theorem persisted_rate_first (conn : Database) (target f : string)
    (row : ExchangeRate) :
  f <> target ->
  row ∈ tb_exchange_rates conn ->
  er_from_currency row = f ->
  er_to_currency row = target ->
  exists latest,
    latest ∈ tb_exchange_rates conn
    /\ er_from_currency latest = f
    /\ er_to_currency latest = target
    /\ (er_date row <= er_date latest)%Z
    /\ FxService.get_rate (FxService.__init__ conn target) f None
       = (er_rate latest, []).
Proof.
  intros Hne Hrow Hf Hto.
  destruct (exchange_rates_entry conn target f) as [Hsome Hnone].
  destruct (PortfolioRepository.get_latest_exchange_rates conn target !! f)
    as [r|] eqn:E.
  - destruct (Hsome r eq_refl) as (latest & Hl & Hlf & Hlt & Hr & Hmax).
    exists latest. repeat split; auto.
    unfold FxService.get_rate, FxService.__init__. cbn [FxService._target FxService._db_rates].
    unfold Py.or_.
    destruct (String.eqb_spec f target); [contradiction|].
    rewrite String.eqb_refl, E. now rewrite Hr.
  - exfalso. apply (proj1 Hnone eq_refl row Hrow Hto Hf).
Qed.

Lemma persisted_rate_first_witness :
  exists latest,
    latest ∈ tb_exchange_rates ledger_mixed
    /\ er_from_currency latest = "USD"%string
    /\ er_to_currency latest = "CNY"%string
    /\ (er_date (usd_cny 1%Z 7.10) <= er_date latest)%Z
    /\ FxService.get_rate (FxService.__init__ ledger_mixed "CNY") "USD" None
       = (er_rate latest, []).
Proof.
  apply (persisted_rate_first ledger_mixed "CNY" "USD" (usd_cny 1%Z 7.10)).
  - discriminate.
  - apply list_elem_of_here.
  - reflexivity.
  - reflexivity.
Defined.

(** The later of the two persisted rates is used, not the 7.25 of the
    fallback table. *)
Example persisted_rate_mixed :
  FxService.get_rate (FxService.__init__ ledger_mixed "CNY") "USD" None
  = (7.20, []).
Proof. vm_compute. reflexivity. Qed.

(** ** The latest market prices *)

Lemma NoDup_fmap_inj {A B} (f : A -> B) (l : list A) (x y : A) :
  NoDup (f <$> l) -> x ∈ l -> y ∈ l -> f x = f y -> x = y.
Proof.
  induction l as [|a l IH]; intros Hnd Hx Hy E; [now apply elem_of_nil in Hx|].
  rewrite fmap_cons in Hnd. apply NoDup_cons in Hnd as [Ha Hnd].
  apply elem_of_cons in Hx as [->|Hx], Hy as [->|Hy]; auto.
  - exfalso. apply Ha. rewrite E. apply list_elem_of_fmap. eauto.
  - exfalso. apply Ha. rewrite <- E. apply list_elem_of_fmap. eauto.
Qed.

Section LatestPrices.
Import PortfolioRepository.
Variable conn : Database.
Hypothesis asset_ids_unique : NoDup (a_id <$> tb_assets conn).
Hypothesis tickers_unique : NoDup (a_ticker <$> tb_assets conn).

Lemma market_order_total (r1 r2 : MarketData * Asset) :
  market_order r1 r2 = true \/ market_order r2 r1 = true.
Proof.
  unfold market_order.
  apply (lex_total (fun r : MarketData * Asset => md_asset_id (fst r)) Z.compare
           (fun r1 r2 => Py.lex (Z.compare (md_date (fst r2)) (md_date (fst r1))) true)
           Z_compare_ok).
  apply (lex_total (fun r : MarketData * Asset => md_date (fst r))
           (fun x y => Z.compare y x) (fun _ _ => true) Z_compare_desc_ok). auto.
Qed.

Lemma market_order_transitive (r1 r2 r3 : MarketData * Asset) :
  market_order r1 r2 = true -> market_order r2 r3 = true -> market_order r1 r3 = true.
Proof.
  unfold market_order.
  apply (lex_transitive (fun r : MarketData * Asset => md_asset_id (fst r)) Z.compare
           (fun r1 r2 => Py.lex (Z.compare (md_date (fst r2)) (md_date (fst r1))) true)
           Z_compare_ok).
  apply (lex_transitive (fun r : MarketData * Asset => md_date (fst r))
           (fun x y => Z.compare y x) (fun _ _ => true) Z_compare_desc_ok). auto.
Qed.

Lemma market_order_same (r1 r2 : MarketData * Asset) :
  md_asset_id (fst r1) = md_asset_id (fst r2) ->
  market_order r1 r2 = true -> (md_date (fst r2) <= md_date (fst r1))%Z.
Proof.
  intros E. unfold market_order. rewrite E, Z.compare_refl. simpl.
  destruct (Z.compare_spec (md_date (fst r2)) (md_date (fst r1))); simpl; intros;
    [lia|lia|discriminate].
Qed.

(** X3: with [id] and [ticker] unique in [tb_assets], the entry
    [get_latest_market_prices] gives for the ticker of an asset is the
    close price and the date of a row of [tb_market_data] of that asset,
    and no row of the asset has a later date; the ticker has no entry
    exactly when the asset has no market row. *)
Theorem latest_market_prices (a : Asset) :
  a ∈ tb_assets conn ->
  (forall price d,
     get_latest_market_prices conn !! a_ticker a = Some (price, d) ->
     exists md,
       md ∈ tb_market_data conn
       /\ md_asset_id md = a_id a
       /\ md_close_price md = price
       /\ md_date md = d
       /\ forall md', md' ∈ tb_market_data conn -> md_asset_id md' = a_id a ->
                      (md_date md' <= d)%Z)
  /\ (get_latest_market_prices conn !! a_ticker a = None
      <-> forall md, md ∈ tb_market_data conn -> md_asset_id md <> a_id a).
Proof.
  intros Ha. unfold get_latest_market_prices.
  set (joined := Sql.join _ (tb_market_data conn) (tb_assets conn)).
  set (sorted := Sql.order_by market_order joined).
  set (kept := distinct_on (fun r : MarketData * Asset => md_asset_id (fst r)) sorted).
  assert (StronglySorted (fun r1 r2 => market_order r1 r2 = true) sorted) as Hsorted.
  { apply order_by_sorted; [exact market_order_total | exact market_order_transitive]. }
  assert (forall md a', (md, a') ∈ sorted <->
            md ∈ tb_market_data conn /\ a' ∈ tb_assets conn
            /\ md_asset_id md = a_id a') as Hin.
  { intros md a'. unfold sorted, joined.
    rewrite elem_of_order_by, elem_of_join, bool_decide_eq_true. tauto. }
  pose proof (NoDup_distinct_on (fun r : MarketData * Asset => md_asset_id (fst r)) sorted)
    as Hnd. fold kept in Hnd.
  assert (forall r, r ∈ kept -> r ∈ sorted) as Hkept.
  { intros r. apply elem_of_distinct_on. }
  assert (NoDup ((fun r : MarketData * Asset => a_ticker (snd r)) <$> kept)) as Hnd'.
  { apply NoDup_fmap_2_strong; [|exact (NoDup_fmap_1 _ _ Hnd)].
    intros [md1 a1] [md2 a2] H1 H2 E. simpl in E.
    pose proof (Hkept _ H1) as (_ & Ha1 & E1)%Hin.
    pose proof (Hkept _ H2) as (_ & Ha2 & E2)%Hin.
    assert (a1 = a2) as ->
      by (apply (NoDup_fmap_inj a_ticker (tb_assets conn)); auto).
    eapply (NoDup_fmap_inj _ kept); [exact Hnd| | |]; auto. simpl. congruence. }
  split.
  - intros price d ([md a'] & Hrow & Ht & Hv)%(foldl_insert_lookup _ _ _ _ _ Hnd').
    simpl in Ht, Hv. injection Hv as <- <-.
    pose proof (Hkept _ Hrow) as (Hmd & Ha' & Hid)%Hin.
    assert (a' = a) as ->
      by (apply (NoDup_fmap_inj a_ticker (tb_assets conn)); auto).
    exists md. repeat split; auto.
    intros md' Hmd' Hid'.
    apply (market_order_same (md, a) (md', a)); [simpl; congruence|].
    apply (distinct_on_first (fun r : MarketData * Asset => md_asset_id (fst r))
             _ sorted Hsorted).
    + intros x. destruct (market_order_total x x); assumption.
    + exact Hrow.
    + apply Hin. auto.
    + simpl. congruence.
  - rewrite eq_None_not_Some. split.
    + intros Hnone md Hmd Hid. apply Hnone.
      assert (md_asset_id md ∈ (fun r : MarketData * Asset => md_asset_id (fst r)) <$> kept)
        as Hk.
      { apply distinct_on_keys, list_elem_of_fmap. exists (md, a).
        split; [reflexivity|]. apply Hin. auto. }
      apply list_elem_of_fmap in Hk as ([md0 a0] & E0 & Hrow0). simpl in E0.
      pose proof (Hkept _ Hrow0) as (_ & Ha0 & Hid0)%Hin.
      assert (a0 = a) as ->
        by (apply (NoDup_fmap_inj a_id (tb_assets conn)); auto; congruence).
      eexists. apply (foldl_insert_row _ _ kept ∅ (md0, a) Hnd' Hrow0).
    + intros Hno [v ([md a'] & Hrow & Ht & _)%(foldl_insert_lookup _ _ _ _ _ Hnd')].
      simpl in Ht.
      pose proof (Hkept _ Hrow) as (Hmd & Ha' & Hid)%Hin.
      assert (a' = a) as ->
        by (apply (NoDup_fmap_inj a_ticker (tb_assets conn)); auto).
      now apply (Hno md).
Qed.

End LatestPrices.

Lemma latest_market_prices_witness :
  (forall price d,
     PortfolioRepository.get_latest_market_prices ledger_mixed !! a_ticker asset_abc
     = Some (price, d) ->
     exists md,
       md ∈ tb_market_data ledger_mixed
       /\ md_asset_id md = a_id asset_abc
       /\ md_close_price md = price
       /\ md_date md = d
       /\ forall md', md' ∈ tb_market_data ledger_mixed ->
                      md_asset_id md' = a_id asset_abc -> (md_date md' <= d)%Z)
  /\ (PortfolioRepository.get_latest_market_prices ledger_mixed !! a_ticker asset_abc
      = None
      <-> forall md, md ∈ tb_market_data ledger_mixed ->
                     md_asset_id md <> a_id asset_abc).
Proof.
  apply (latest_market_prices ledger_mixed ledger_mixed_asset_ids
           ledger_mixed_tickers asset_abc).
  apply list_elem_of_here.
Defined.

Example latest_price_mixed :
  PortfolioRepository.get_latest_market_prices ledger_mixed
  = {[ "ABC"%string := (15, 3%Z) ]}.
Proof. vm_compute. reflexivity. Qed.


(** ** Supported currencies *)

Lemma sorted_NoDup_strict (l : list string) :
  StronglySorted
    (fun a b => Py.lex (String_as_OT.compare a b) true = true) l ->
  NoDup l ->
  StronglySorted (fun a b => String_as_OT.compare a b = Lt) l.
Proof.
  induction 1 as [|x l Hs IH Hall]; intros Hnd; constructor.
  - apply IH. now inversion Hnd.
  - inversion Hnd as [|? ? Hx _]; subst.
    rewrite Forall_forall in *. intros y Hy.
    specialize (Hall y Hy).
    apply (lex_iff (fun x : string => x) String_as_OT.compare
             (fun _ _ => true) string_compare_ok) in Hall.
    destruct Hall as [H|[H _]]; [exact H | congruence].
Qed.

Lemma sorted_strict (s : gset string) :
  StronglySorted (fun a b => String_as_OT.compare a b = Lt) (Py.sorted s)
  /\ forall c, c ∈ Py.sorted s <-> c ∈ s.
Proof.
  change (Py.sorted s)
    with (Sql.order_by (fun a b => Py.lex (String_as_OT.compare a b) true)
            (elements s)).
  set (leb := fun a b : string => Py.lex (String_as_OT.compare a b) true).
  pose proof (order_by_Permutation leb (elements s)) as Hperm.
  split.
  - apply sorted_NoDup_strict.
    + apply (order_by_sorted leb).
      * apply (lex_total (fun x : string => x) String_as_OT.compare
                 (fun _ _ => true) string_compare_ok). auto.
      * apply (lex_transitive (fun x : string => x) String_as_OT.compare
                 (fun _ _ => true) string_compare_ok). auto.
    + rewrite Hperm. apply NoDup_elements.
  - intros c. rewrite Hperm. apply elem_of_elements.
Qed.

Lemma fallback_sources :
  (fst <$> map_to_list FxService.FALLBACK_RATES)
  = [("GBP", "CNY"); ("CNY", "CNY"); ("USD", "CNY");
     ("EUR", "CNY"); ("JPY", "CNY"); ("HKD", "CNY")].
Proof. vm_compute. reflexivity. Qed.

Lemma fallback_lookup (f t : string) :
  is_Some (FxService.FALLBACK_RATES !! (f, t))
  <-> t = "CNY" /\ f ∈ ["USD"; "HKD"; "CNY"; "EUR"; "GBP"; "JPY"].
Proof.
  split.
  - intros [r Hr]. apply elem_of_map_to_list in Hr.
    assert (Hk : (f, t) ∈ fst <$> map_to_list FxService.FALLBACK_RATES).
    { apply list_elem_of_fmap. exists ((f, t), r). auto. }
    rewrite fallback_sources in Hk.
    repeat (apply elem_of_cons in Hk as [Hk|Hk];
            [injection Hk as -> ->; split; [reflexivity|];
             eapply (bool_decide_unpack _); vm_compute; exact I|]).
    inversion Hk.
  - intros [-> Hf].
    repeat (apply elem_of_cons in Hf as [->|Hf]; [vm_compute; eauto|]).
    inversion Hf.
Qed.

(** X4: the supported codes are the codes with a persisted rate together
    with the source codes of the fallback table, each once, in ascending
    order; for a service that converts into CNY they are exactly the codes
    whose rate is found without a warning. *)
Theorem supported_currencies (self : FxService.t) :
  let l := FxService.get_supported_currencies self in
  StronglySorted (fun a b => String_as_OT.compare a b = Lt) l
  /\ (forall c, c ∈ l <->
        is_Some (FxService._db_rates self !! c)
        \/ c ∈ ["USD"; "HKD"; "CNY"; "EUR"; "GBP"; "JPY"])
  /\ (FxService._target self = "CNY" ->
      forall c, c ∈ l <-> snd (FxService.get_rate self c None) = []).
Proof.
  cbv zeta. unfold FxService.get_supported_currencies.
  destruct (sorted_strict
    (foldl (fun s (k : string * string) => s ∪ {[ fst k ]})
       (dom (FxService._db_rates self))
       (fst <$> map_to_list FxService.FALLBACK_RATES))) as [Hs Hin].
  assert (Hmem : forall c,
    c ∈ Py.sorted (foldl (fun s (k : string * string) => s ∪ {[ fst k ]})
       (dom (FxService._db_rates self))
       (fst <$> map_to_list FxService.FALLBACK_RATES))
    <-> is_Some (FxService._db_rates self !! c)
        \/ c ∈ ["USD"; "HKD"; "CNY"; "EUR"; "GBP"; "JPY"]).
  { intros c. rewrite Hin, fallback_sources. cbn [foldl fst].
    rewrite !elem_of_union, !elem_of_singleton, elem_of_dom.
    rewrite !elem_of_cons, elem_of_nil. tauto. }
  split; [exact Hs|]. split; [exact Hmem|].
  intros Ht c. rewrite Hmem. unfold FxService.get_rate.
  rewrite Ht. cbn [Py.or_].
  destruct (String.eqb_spec c "CNY") as [->|Hne].
  - cbn. split; auto. intros _. right.
    eapply (bool_decide_unpack _); vm_compute; exact I.
  - rewrite String.eqb_refl.
    destruct (FxService._db_rates self !! c) as [r|] eqn:Hdb.
    + cbn. split; eauto.
    + pose proof (fallback_lookup c "CNY") as Hfb.
      destruct (FxService.FALLBACK_RATES !! (c, "CNY")) as [r|] eqn:Hf; cbn.
      * split; auto. intros _. right. apply Hfb; eauto.
      * split; [|discriminate].
        intros [[? H]|H]; [discriminate|].
        assert (is_Some (@None Q)) as [? ?]; [|discriminate].
        apply Hfb. auto.
Qed.

(** ** The snapshot as a whole *)

Lemma position_of_group_total g :
  exists y, PortfolioRepository.position_of_group g = Ok y.
Proof.
  destruct g as [[[[[[i tk] nm] cl] sb] cu] rs]. simpl.
  destruct (Sql.SUM _) as [q|]; [|eauto].
  destruct (Num.Qltb _ _); [|eauto].
  destruct (avg_cost_expr_total (fst <$> rs)) as [v ->]. eauto.
Qed.

Lemma get_positions_total (conn : Database) (d : option date) :
  exists ps, PortfolioRepository.get_positions conn d = Ok ps.
Proof.
  unfold PortfolioRepository.get_positions.
  edestruct (traverse_total PortfolioRepository.position_of_group) as (ys & -> & _);
    [|eauto].
  intros g _. apply position_of_group_total.
Qed.

Lemma lex3_iff (a1 b1 c1 a2 b2 c2 : string) :
  Py.lex (String_as_OT.compare a1 a2)
    (Py.lex (String_as_OT.compare b1 b2)
       (Py.lex (String_as_OT.compare c1 c2) true)) = true
  <-> String_as_OT.compare a1 a2 = Lt
      \/ (a1 = a2
          /\ (String_as_OT.compare b1 b2 = Lt
              \/ (b1 = b2 /\ (String_as_OT.compare c1 c2 = Lt \/ c1 = c2)))).
Proof.
  rewrite (lex_iff (fun x : string * string * string => fst (fst x))
             String_as_OT.compare
             (fun x y => Py.lex (String_as_OT.compare (snd (fst x)) (snd (fst y)))
                           (Py.lex (String_as_OT.compare (snd x) (snd y)) true))
             string_compare_ok (a1, b1, c1) (a2, b2, c2)).
  cbn [fst snd]. rewrite lex2_iff. reflexivity.
Qed.

Lemma snapshot_order_total (r1 r2 : LineItem) :
  PortfolioService.snapshot_order r1 r2 = true
  \/ PortfolioService.snapshot_order r2 r1 = true.
Proof.
  unfold PortfolioService.snapshot_order.
  apply (lex_total asset_class String_as_OT.compare
           (fun x y => Py.lex (String_as_OT.compare (currency x) (currency y))
                         (Py.lex (String_as_OT.compare (ticker x) (ticker y)) true))
           string_compare_ok).
  intros x y. apply lex2_total.
Qed.

Lemma snapshot_order_transitive (r1 r2 r3 : LineItem) :
  PortfolioService.snapshot_order r1 r2 = true ->
  PortfolioService.snapshot_order r2 r3 = true ->
  PortfolioService.snapshot_order r1 r3 = true.
Proof.
  unfold PortfolioService.snapshot_order.
  apply (lex_transitive asset_class String_as_OT.compare
           (fun x y => Py.lex (String_as_OT.compare (currency x) (currency y))
                         (Py.lex (String_as_OT.compare (ticker x) (ticker y)) true))
           string_compare_ok).
  intros x y z. apply lex2_trans.
Qed.

(** X5: the valuation never fails, whatever the ledger holds: the query
    of the positions never divides by zero.  The frame it returns has the
    columns of the schema and its rows are in ascending order of asset
    class, then currency, then ticker. *)
Theorem snapshot_total_sorted (self : PortfolioService.t) (d : option date) :
  exists df out,
    PortfolioService.get_full_portfolio self d = Ok (df, out)
    /\ columns df = PortfolioService._schema_columns self
    /\ StronglySorted by_class_currency_ticker (rows df).
Proof.
  destruct (get_positions_total (PortfolioService._repo self) d) as [ps Hps].
  unfold PortfolioService.get_full_portfolio, PortfolioService._build_security_df,
    PortfolioService._build_cash_df.
  rewrite Hps. eexists _, _. split; [reflexivity|]. split.
  - cbn [columns PortfolioService.concat_frames PortfolioService.frame_of_rows fst].
    rewrite (filter_none _ (PortfolioService._schema_columns self)); [reflexivity|].
    intros c Hc Hn. contradiction.
  - cbn [rows].
    apply (StronglySorted_weaken
             (fun r1 r2 => PortfolioService.snapshot_order r1 r2 = true)).
    + intros r1 r2. unfold PortfolioService.snapshot_order, by_class_currency_ticker.
      apply lex3_iff.
    + apply order_by_sorted.
      * apply snapshot_order_total.
      * apply snapshot_order_transitive.
Qed.

(** ** A date of valuation cuts the ledger *)

Lemma filter_ext_elem {A} (P Q : A -> Prop) `{forall x, Decision (P x)}
    `{forall x, Decision (Q x)} (l : list A) :
  (forall x, x ∈ l -> P x <-> Q x) -> filter P l = filter Q l.
Proof.
  induction l as [|x l IH]; intros Hl; [reflexivity|].
  rewrite !filter_cons, IH by (intros y Hy; apply Hl; now right).
  pose proof (Hl x (list_elem_of_here x l)).
  destruct (decide (P x)), (decide (Q x)); tauto.
Qed.

Lemma filter_join_left {T B} (on : T -> B -> bool) (P : T -> Prop)
    (R Q : T * B -> Prop) `{forall t, Decision (P t)}
    `{forall r, Decision (R r)} `{forall r, Decision (Q r)}
    (txs : list T) (table : list B) :
  (forall t b, R (t, b) <-> P t /\ Q (t, b)) ->
  filter R (Sql.join on txs table) = filter Q (Sql.join on (filter P txs) table).
Proof.
  intros HR. unfold Sql.join.
  induction txs as [|t txs IH]; [reflexivity|].
  cbn [flat_map]. rewrite filter_app, IH, filter_cons.
  destruct (decide (P t)) as [HP|HP].
  - cbn [flat_map]. rewrite filter_app. f_equal.
    apply filter_ext_elem.
    intros [t' b] (b' & [= -> ->] & _)%list_elem_of_fmap. rewrite HR. tauto.
  - rewrite (filter_none R); [reflexivity|].
    intros [t' b] (b' & [= -> ->] & _)%list_elem_of_fmap. rewrite HR. tauto.
Qed.

(** X6: a valuation at a date is the valuation of the ledger cut at that
    date: the positions, the cash balances and the whole snapshot at [d]
    are those of the transactions dated on or before [d], valued at the
    latest prices and rates, which the date does not restrict. *)
Theorem as_of_date_cuts_ledger (conn : Database) (d : date) :
  PortfolioRepository.get_positions conn (Some d)
  = PortfolioRepository.get_positions (ledger_until conn d) None
  /\ PortfolioRepository.get_cash_balances conn (Some d)
     = PortfolioRepository.get_cash_balances (ledger_until conn d) None
  /\ forall base,
       PortfolioService.get_full_portfolio
         (PortfolioService.__init__ conn base) (Some d)
       = PortfolioService.get_full_portfolio
           (PortfolioService.__init__ (ledger_until conn d) base) None.
Proof.
  assert (Hpos : PortfolioRepository.get_positions conn (Some d)
                 = PortfolioRepository.get_positions (ledger_until conn d) None).
  { unfold PortfolioRepository.get_positions, PortfolioRepository.join_assets.
    cbn [tb_transactions tb_assets ledger_until].
    rewrite (filter_join_left _ (fun t => (t_date t <= d)%Z)
               (fun r => PortfolioRepository.positions_where (Some d) (fst r) = true)
               (fun r => PortfolioRepository.positions_where None (fst r) = true));
      [reflexivity|].
    intros t b. unfold PortfolioRepository.positions_where,
      PortfolioRepository.date_filter. cbn [fst].
    rewrite !andb_true_iff, Z.leb_le. tauto. }
  assert (Hcash : PortfolioRepository.get_cash_balances conn (Some d)
                  = PortfolioRepository.get_cash_balances (ledger_until conn d) None).
  { unfold PortfolioRepository.get_cash_balances, PortfolioRepository.join_accounts.
    cbn [tb_transactions tb_accounts ledger_until].
    rewrite (filter_join_left _ (fun t => (t_date t <= d)%Z)
               (fun r => PortfolioRepository.date_filter (Some d) (fst r) = true)
               (fun r => PortfolioRepository.date_filter None (fst r) = true));
      [reflexivity|].
    intros t b. unfold PortfolioRepository.date_filter. cbn [fst].
    rewrite Z.leb_le. tauto. }
  split; [exact Hpos|]. split; [exact Hcash|].
  intros base.
  unfold PortfolioService.get_full_portfolio, PortfolioService._build_security_df,
    PortfolioService._build_cash_df.
  cbn [PortfolioService._repo PortfolioService.__init__].
  rewrite Hpos, Hcash. reflexivity.
Qed.

(** ** One row for each holding *)

Lemma traverse_Forall2 {A B} (f : A -> result B) (l : list A) (ys : list B) :
  traverse f l = Ok ys -> Forall2 (fun x y => f x = Ok y) l ys.
Proof.
  revert ys. induction l as [|x l IH]; intros ys; simpl.
  - intros [= <-]. constructor.
  - destruct (f x) as [y|] eqn:Hx; [|discriminate].
    destruct (traverse f l) as [ys'|]; [|discriminate].
    intros [= <-]. constructor; auto.
Qed.

(** Rows selected from groups with distinct keys have distinct keys. *)
Lemma NoDup_selected {G R K} (k : G -> K) (h : R -> K) (gs : list G)
    (ys : list (option R)) :
  Forall2 (fun g y => forall r, y = Some r -> h r = k g) gs ys ->
  NoDup (k <$> gs) -> NoDup (h <$> omap id ys).
Proof.
  induction 1 as [|g y gs ys Hy Hrest IH]; intros Hnd; [constructor|].
  rewrite fmap_cons in Hnd. apply NoDup_cons in Hnd as [Hg Hnd].
  assert (Hsub : forall r, r ∈ omap id ys -> h r ∈ k <$> gs).
  { clear -Hrest. induction Hrest as [|g' y' gs' ys' Hy' _ IH']; intros r Hr.
    - now apply elem_of_nil in Hr.
    - rewrite fmap_cons. destruct y' as [r'|]; cbn in Hr.
      + apply elem_of_cons in Hr as [->|Hr]; rewrite elem_of_cons.
        * left. now apply Hy'.
        * right. now apply IH'.
      + rewrite elem_of_cons. right. now apply IH'. }
  destruct y as [r|]; cbn.
  - constructor; [|now apply IH].
    intros (r' & E & Hr')%list_elem_of_fmap.
    apply Hg. rewrite <- (Hy r eq_refl), E. now apply Hsub.
  - now apply IH.
Qed.

Section OneRowPerKey.
Import PortfolioRepository.
Variable conn : Database.
Variable as_of_date : option date.
Hypothesis asset_ids_unique : NoDup (a_id <$> tb_assets conn).
Hypothesis account_ids_unique : NoDup (acc_id <$> tb_accounts conn).

(** X7: no holding is counted twice: with [id] the primary key of the
    assets and of the accounts, the positions hold one row for an asset at
    most, and the cash balances one row for an account and a currency at
    most. *)
Theorem one_row_per_holding :
  exists ps,
    get_positions conn as_of_date = Ok ps
    /\ NoDup (pos_asset_id <$> ps)
    /\ NoDup ((fun cb => (cb_account_id cb, cb_currency cb))
              <$> get_cash_balances conn as_of_date).
Proof.
  destruct (get_positions_total conn as_of_date) as [ps Hps].
  exists ps. split; [exact Hps|]. split.
  - unfold get_positions in Hps.
    destruct (traverse _ _) as [selected|] eqn:Htr; [|discriminate].
    injection Hps as <-. rewrite order_by_Permutation.
    apply traverse_Forall2 in Htr.
    eapply (NoDup_selected (fun g => fst (fst (fst (fst (fst (fst g))))))).
    + eapply Forall2_impl; [exact Htr|].
      intros [[[[[[i tk] nm] cl] sb] cu] rs] y Hy r ->. simpl in Hy.
      destruct (Sql.SUM _); [|discriminate].
      destruct (Num.Qltb _ _); [|discriminate].
      destruct (avg_cost_expr _); [|discriminate].
      now injection Hy as <-.
    + set (rows := filter _ _).
      assert (forall r, r ∈ rows -> snd r ∈ tb_assets conn) as Hrows.
      { intros [t a] [_ Hr]%list_elem_of_filter.
        now apply elem_of_join in Hr as (_ & Ha & _). }
      change (fun g : _ * list (Transaction * Asset) =>
                fst (fst (fst (fst (fst (fst g))))))
        with ((fun k : Z * string * string * string * option string * string =>
                 fst (fst (fst (fst (fst k)))))
              ∘ (fst : _ * list (Transaction * Asset) -> _)).
      rewrite list_fmap_compose, group_by_keys.
      apply NoDup_fmap_2_strong; [|apply NoDup_distinct].
      intros k1 k2 (r1 & -> & Hr1%Hrows)%elem_of_distinct%list_elem_of_fmap
        (r2 & -> & Hr2%Hrows)%elem_of_distinct%list_elem_of_fmap E.
      cbn in E. f_equal.
      eapply (NoDup_fmap_inj a_id (tb_assets conn)); eauto.
  - unfold get_cash_balances. rewrite order_by_Permutation.
    set (rows := filter _ _).
    assert (forall r, r ∈ rows -> snd r ∈ tb_accounts conn) as Hrows.
    { intros [t a] [_ Hr]%list_elem_of_filter.
      now apply elem_of_join in Hr as (_ & Ha & _). }
    change (omap cash_of_group (Sql.group_by cash_key rows))
      with (omap (fun g => id (cash_of_group g)) (Sql.group_by cash_key rows)).
    rewrite <- (omap_fmap_list cash_of_group id).
    apply (NoDup_selected (fun g : (Z * string * string) * list (Transaction * Account) =>
                             (fst (fst (fst g)), snd (fst g)))
             _ (Sql.group_by cash_key rows) (cash_of_group <$> Sql.group_by cash_key rows)).
    + apply Forall2_fmap_r, Forall_Forall2_diag, Forall_forall.
      intros [[[i nm] cu] rs] _ r. unfold cash_of_group.
      destruct (Sql.gt _ _); [|discriminate].
      destruct (Sql.SUM _); [|discriminate].
      intros [= <-]. reflexivity.
    + change (fun g : (Z * string * string) * list (Transaction * Account) =>
                (fst (fst (fst g)), snd (fst g)))
        with ((fun k : Z * string * string => (fst (fst k), snd k))
              ∘ (fst : _ * list (Transaction * Account) -> _)).
      rewrite list_fmap_compose, group_by_keys.
      apply NoDup_fmap_2_strong; [|apply NoDup_distinct].
      intros k1 k2 (r1 & -> & Hr1%Hrows)%elem_of_distinct%list_elem_of_fmap
        (r2 & -> & Hr2%Hrows)%elem_of_distinct%list_elem_of_fmap [= E1 E2].
      unfold cash_key. f_equal; [|exact E2]. f_equal; [exact E1|].
      f_equal. eapply (NoDup_fmap_inj acc_id (tb_accounts conn)); eauto.
Qed.

End OneRowPerKey.

Lemma one_row_per_holding_witness :
  exists ps,
    PortfolioRepository.get_positions ledger_mixed None = Ok ps
    /\ NoDup (PortfolioRepository.pos_asset_id <$> ps)
    /\ NoDup ((fun cb => (PortfolioRepository.cb_account_id cb,
                          PortfolioRepository.cb_currency cb))
              <$> PortfolioRepository.get_cash_balances ledger_mixed None).
Proof.
  apply (one_row_per_holding ledger_mixed None ledger_mixed_asset_ids
           ledger_mixed_account_ids).
Defined.

(** ** The summary of a snapshot *)

Section SummaryOfSnapshot.
Import PortfolioRepository PortfolioService.
Variable self : PortfolioService.t.
Variable as_of_date : option date.

Lemma security_row_type (mp : gmap string (Q * date)) (pos : Position) :
  type (fst (security_row self mp pos)) = "SECURITY"%string.
Proof.
  unfold security_row.
  destruct (mp !! pos_ticker pos); destruct_convert; reflexivity.
Qed.

Lemma cash_row_type (cb : CashBalance) (item : LineItem) :
  fst (cash_row self cb) = Some item ->
  type item = "CASH"%string /\ price_source item = "N/A"%string.
Proof.
  unfold cash_row. destruct (Qle_bool _ _); [discriminate|].
  destruct_convert. simpl. intros [= <-]. auto.
Qed.

Lemma filter_all {A} (P : A -> Prop) `{forall x, Decision (P x)} (l : list A) :
  (forall x, x ∈ l -> P x) -> filter P l = l.
Proof.
  induction l as [|x l IH]; intros Hl; [reflexivity|].
  rewrite filter_cons_True by (apply Hl; now left).
  rewrite IH; [reflexivity|]. intros y Hy. apply Hl. now right.
Qed.

(** The rows of a snapshot, split by type. *)
Lemma snapshot_rows_by_type (df : DataFrame) (out : list line) :
  get_full_portfolio self as_of_date = Ok (df, out) ->
  exists ps,
    get_positions (_repo self) as_of_date = Ok ps
    /\ filter (fun r => type r = "SECURITY"%string) (rows df)
       ≡ₚ (fun pos => fst (security_row self (get_latest_market_prices (_repo self)) pos))
          <$> ps
    /\ filter (fun r => type r = "CASH"%string) (rows df)
       ≡ₚ omap (fun cb => fst (cash_row self cb))
            (get_cash_balances (_repo self) as_of_date)
    /\ rows df
       ≡ₚ filter (fun r => type r = "SECURITY"%string) (rows df)
          ++ filter (fun r => type r = "CASH"%string) (rows df).
Proof.
  intros (ps & Hps & _ & Hrows)%get_full_portfolio_rows.
  exists ps. split; [exact Hps|].
  set (sec := _ <$> ps) in *. set (cash := omap _ _) in *.
  assert (Hsec : forall r, r ∈ sec -> type r = "SECURITY"%string).
  { intros r (pos & -> & _)%list_elem_of_fmap. apply security_row_type. }
  assert (Hcash : forall r, r ∈ cash -> type r = "CASH"%string).
  { intros r (cb & _ & Hcb)%list_elem_of_omap. now apply cash_row_type in Hcb. }
  assert (H1 : filter (fun r => type r = "SECURITY"%string) (rows df) ≡ₚ sec).
  { rewrite Hrows, filter_app, (filter_all _ sec Hsec), (filter_none _ cash).
    - now rewrite app_nil_r.
    - intros r Hr E. rewrite (Hcash r Hr) in E. discriminate. }
  assert (H2 : filter (fun r => type r = "CASH"%string) (rows df) ≡ₚ cash).
  { rewrite Hrows, filter_app, (filter_all _ cash Hcash), (filter_none _ sec).
    - reflexivity.
    - intros r Hr E. rewrite (Hsec r Hr) in E. discriminate. }
  split; [exact H1|]. split; [exact H2|]. now rewrite H1, H2.
Qed.

(** X8: the summary of a snapshot, by a service that reads its value
    column, counts the positions of the ledger, warns about positions
    only, and its parts add up: the security value and the cash value,
    each rounded to 2 decimals, sum to the total value within 0.015. *)
Theorem summary_of_snapshot (svc : AnalysisService.t) (h : heap)
    (df : DataFrame) (out : list line) :
  get_full_portfolio self as_of_date = Ok (df, out) ->
  h !! AnalysisService._df svc = Some df ->
  reads_value_column svc df ->
  exists s ps,
    AnalysisService.get_summary svc h = Some (Ok s, h)
    /\ get_positions (_repo self) as_of_date = Ok ps
    /\ Summary.position_count s = length ps
    /\ (Summary.price_warn_count s <= Summary.position_count s)%nat
    /\ Qabs (Summary.total_value s
             - (Summary.security_value s + Summary.cash_value s)) <= 0.015.
Proof.
  intros Hdf Hh _.
  destruct (snapshot_rows_by_type df out Hdf) as (ps & Hps & Hsec & Hcash & Hrows).
  unfold AnalysisService.get_summary. rewrite (load_bind _ df _ _ Hh).
  eexists _, ps. split; [reflexivity|]. split; [exact Hps|].
  cbn [Summary.position_count Summary.price_warn_count Summary.total_value
       Summary.security_value Summary.cash_value].
  split; [|split].
  - now rewrite Hsec, length_fmap.
  - assert (Hsub : filter (fun r => price_source r = "cost"%string) (rows df)
                   `sublist_of` filter (fun r => type r = "SECURITY"%string) (rows df)).
    { pose proof (get_full_portfolio_rows self as_of_date df out Hdf)
        as (ps' & _ & _ & Hall).
      assert (forall r, r ∈ rows df -> price_source r = "cost"%string ->
                        type r = "SECURITY"%string) as Himp.
      { intros r Hr Hc. rewrite Hall in Hr.
        apply elem_of_app in Hr as [(pos & -> & _)%list_elem_of_fmap|Hr].
        - apply security_row_type.
        - apply list_elem_of_omap in Hr as (cb & _ & Hcb).
          apply cash_row_type in Hcb as [_ Hna]. congruence. }
      clear -Himp. induction (rows df) as [|r l IH]; [constructor|].
      rewrite !filter_cons.
      destruct (decide (price_source r = "cost"%string)) as [Hc|Hc].
      - rewrite decide_True by (apply Himp; [now left|exact Hc]).
        constructor. apply IH. intros x Hx. apply Himp. now right.
      - destruct (decide (type r = "SECURITY"%string)).
        + constructor. apply IH. intros x Hx. apply Himp. now right.
        + apply IH. intros x Hx. apply Himp. now right. }
    now apply sublist_length.
  - set (T := Num.Qsum (value_base <$> rows df)).
    set (S := Num.Qsum (value_base <$> filter (fun r => type r = "SECURITY"%string) (rows df))).
    set (C := Num.Qsum (value_base <$> filter (fun r => type r = "CASH"%string) (rows df))).
    assert (HT : T == S + C).
    { unfold T, S, C. rewrite <- Qsum_app, <- fmap_app.
      apply Qsum_Permutation, fmap_Permutation, Hrows. }
    pose proof (round2_error T) as HeT. pose proof (round2_error S) as HeS.
    pose proof (round2_error C) as HeC.
    apply Qabs_Qle_condition in HeT, HeS, HeC. apply Qabs_Qle_condition.
    split; lra.
Qed.

End SummaryOfSnapshot.

Lemma snapshot_mixed :
  PortfolioService.get_full_portfolio (PortfolioService.__init__ ledger_mixed "CNY") None
  = Ok (snapshot_of ledger_mixed, warnings_of ledger_mixed).
Proof. vm_compute. reflexivity. Qed.

Lemma snapshot_store_mixed :
  snapshot_store ledger_mixed !! AnalysisService._df analysis_cny
  = Some (snapshot_of ledger_mixed).
Proof. vm_compute. reflexivity. Qed.

Lemma value_column_mixed :
  reads_value_column analysis_cny (snapshot_of ledger_mixed).
Proof. vm_compute. reflexivity. Qed.

Lemma summary_of_snapshot_witness :
  exists s ps,
    AnalysisService.get_summary analysis_cny (snapshot_store ledger_mixed)
    = Some (Ok s, snapshot_store ledger_mixed)
    /\ PortfolioRepository.get_positions ledger_mixed None = Ok ps
    /\ Summary.position_count s = length ps
    /\ (Summary.price_warn_count s <= Summary.position_count s)%nat
    /\ Qabs (Summary.total_value s
             - (Summary.security_value s + Summary.cash_value s)) <= 0.015.
Proof.
  apply (summary_of_snapshot (PortfolioService.__init__ ledger_mixed "CNY") None
           analysis_cny (snapshot_store ledger_mixed) (snapshot_of ledger_mixed)
           (warnings_of ledger_mixed)).
  - exact snapshot_mixed.
  - exact snapshot_store_mixed.
  - exact value_column_mixed.
Defined.

(** Two positions, one of them valued at cost, and 7650 of cash. *)
Example summary_mixed :
  exists s,
    AnalysisService.get_summary analysis_cny (snapshot_store ledger_mixed)
    = Some (Ok s, snapshot_store ledger_mixed)
    /\ Summary.position_count s = 2%nat
    /\ Summary.price_warn_count s = 1%nat
    /\ Summary.total_value s == 18500
    /\ Summary.security_value s == 10850
    /\ Summary.cash_value s == 7650.
Proof.
  eexists. split; [vm_compute; reflexivity|]. repeat split.
Qed.

(** ** The groups of a distribution *)

Lemma sum_list_fmap_plus {A} (f g : A -> nat) (l : list A) :
  sum_list ((fun x => f x + g x)%nat <$> l)
  = (sum_list (f <$> l) + sum_list (g <$> l))%nat.
Proof. induction l as [|x l IH]; [reflexivity|]. cbn. rewrite IH. lia. Qed.

Lemma sum_list_select `{EqDecision K} (ks : list K) (k0 : K) :
  NoDup ks -> k0 ∈ ks ->
  sum_list ((fun k => if decide (k0 = k) then 1%nat else 0%nat) <$> ks) = 1%nat.
Proof.
  induction 1 as [|k ks Hk Hnd IH]; intros Hin.
  - now apply elem_of_nil in Hin.
  - cbn. destruct (decide (k0 = k)) as [->|Hne].
    + assert (sum_list ((fun k' => if decide (k = k') then 1%nat else 0%nat) <$> ks) = 0%nat)
        as ->; [|reflexivity].
      clear IH Hnd Hin. induction ks as [|k' ks IH]; [reflexivity|]. cbn.
      rewrite decide_False.
      * apply IH. intros H. apply Hk. now right.
      * intros ->. apply Hk. now left.
    + apply elem_of_cons in Hin as [?|Hin]; [contradiction|]. now rewrite IH.
Qed.

(** The groups partition the rows: their sizes sum to the number of rows. *)
Lemma group_by_sizes `{EqDecision K} {A} (key : A -> K) (l : list A) :
  sum_list ((fun g => length (snd g)) <$> Sql.group_by key l) = length l.
Proof.
  unfold Sql.group_by. rewrite <- list_fmap_compose.
  change (sum_list ((fun k => length (filter (fun x => key x = k) l))
                    <$> Sql.distinct (key <$> l)) = length l).
  assert (Hks : forall x, x ∈ l -> key x ∈ Sql.distinct (key <$> l)).
  { intros x Hx. apply elem_of_distinct, list_elem_of_fmap. eauto. }
  pose proof (NoDup_distinct (key <$> l)) as Hnd.
  revert Hks Hnd. generalize (Sql.distinct (key <$> l)) as ks.
  induction l as [|x l IH]; intros ks Hks Hnd.
  - induction ks as [|k ks IHks]; [reflexivity|]. cbn.
    apply IHks; [intros y Hy; now apply elem_of_nil in Hy | now inversion Hnd].
  - transitivity
      (sum_list ((fun k => (if decide (key x = k) then 1 else 0)
                           + length (filter (fun y => key y = k) l))%nat <$> ks)).
    + f_equal. apply list_fmap_ext. intros _ k _. rewrite filter_cons.
      destruct (decide (key x = k)); reflexivity.
    + rewrite sum_list_fmap_plus, sum_list_select, IH; auto.
      * intros y Hy. apply Hks. now right.
      * apply Hks. now left.
Qed.

Lemma value_order_total {R} (val : R -> Q) (r1 r2 : R) :
  Qle_bool (val r2) (val r1) = true \/ Qle_bool (val r1) (val r2) = true.
Proof.
  rewrite !Qle_bool_iff.
  destruct (Qlt_le_dec (val r1) (val r2)); [right; now apply Qlt_le_weak | now left].
Qed.

Section GroupedRows.
Context {R : Type} (key : LineItem -> string) (items : list LineItem).
Context (mk : string * list LineItem -> R).
Context (kf : R -> string) (cnt : R -> nat) (val : R -> Q).
Hypothesis kf_mk : forall g, kf (mk g) = fst g.
Hypothesis cnt_mk : forall g, cnt (mk g) = length (snd g).

Lemma grouped_rows :
  let rs := Sql.order_by (fun r1 r2 => Qle_bool (val r2) (val r1))
              (mk <$> AnalysisService.groupby key items) in
  NoDup (kf <$> rs)
  /\ (forall c, c ∈ kf <$> rs <-> c ∈ key <$> items)
  /\ sum_list (cnt <$> rs) = length items
  /\ StronglySorted (fun r1 r2 => val r2 <= val r1) rs
  /\ (forall r, r ∈ rs ->
        r = mk (kf r, filter (fun x => key x = kf r) items)
        /\ filter (fun x => key x = kf r) items <> [])
  /\ (items <> [] -> rs <> []).
Proof.
  intros rs. unfold AnalysisService.groupby in rs.
  set (leb := fun r1 r2 => Qle_bool (val r2) (val r1)) in rs.
  assert (Hperm : rs ≡ₚ mk <$> Sql.group_by key items)
    by apply order_by_Permutation.
  assert (Hkeys : kf <$> (mk <$> Sql.group_by key items)
                  = Sql.distinct (key <$> items)).
  { rewrite <- list_fmap_compose, <- group_by_keys.
    apply list_fmap_ext. intros _ g _. apply kf_mk. }
  split; [|split; [|split; [|split; [|split]]]].
  - rewrite Hperm, Hkeys. apply NoDup_distinct.
  - intros c. rewrite Hperm, Hkeys. apply elem_of_distinct.
  - rewrite Hperm, <- list_fmap_compose, <- (group_by_sizes key items).
    f_equal. apply list_fmap_ext. intros _ g _. apply cnt_mk.
  - apply (StronglySorted_weaken (fun r1 r2 => leb r1 r2 = true)).
    + intros r1 r2. unfold leb. apply Qle_bool_iff.
    + apply order_by_sorted.
      * intros r1 r2. apply value_order_total.
      * intros r1 r2 r3. unfold leb. rewrite !Qle_bool_iff. intros H1 H2.
        eapply Qle_trans; eassumption.
  - intros r Hr. rewrite Hperm in Hr.
    apply list_elem_of_fmap in Hr as ([k g] & -> & [Hk ->]%elem_of_group_by).
    rewrite kf_mk. cbn [fst]. split; [reflexivity|].
    apply list_elem_of_fmap in Hk as (x & -> & Hx).
    intros E. assert (x ∈ filter (fun y => key y = key x) items) as Hin
      by (apply list_elem_of_filter; auto).
    rewrite E in Hin. now apply elem_of_nil in Hin.
  - intros Hne E. apply Hne.
    rewrite E in Hperm. symmetry in Hperm.
    apply Permutation_nil_r in Hperm. apply fmap_nil_inv in Hperm.
    unfold Sql.group_by in Hperm. apply fmap_nil_inv in Hperm.
    destruct items as [|x l]; [reflexivity|]. discriminate.
Qed.

End GroupedRows.

Section DistributionGroups.
Import AnalysisService.
Variable svc : AnalysisService.t.
Variable h : heap.
Variable df : DataFrame.
Hypothesis frame_loaded : h !! _df svc = Some df.
Hypothesis total_not_zero : ~ total_of df == 0.

Lemma total_test : Qeq_bool (Num.Qsum (value_base <$> rows df)) 0 = false.
Proof. apply not_true_iff_false. intros E%Qeq_bool_iff. now apply total_not_zero. Qed.

Lemma rows_not_empty : rows df <> [].
Proof. intros E. apply total_not_zero. unfold total_of. rewrite E. reflexivity. Qed.

(** X9: for a frame whose values do not sum to zero and a service that
    reads its value column, the distribution by asset class has one row
    for each asset class of the frame, the rows in descending order of
    their rounded value; the row of a class gives the rounded sum of the
    values of its rows, their number (the counts add up to the number of
    rows of the frame), whether one of them is valued at cost, and the
    label of the class, the class itself when it has none. *)
Theorem class_distribution_groups :
  reads_value_column svc df ->
  exists rs,
    get_asset_class_distribution svc h = Some (Ok rs, h)
    /\ rs <> []
    /\ NoDup (ClassRow.asset_class <$> rs)
    /\ (forall c, c ∈ ClassRow.asset_class <$> rs <-> c ∈ asset_class <$> rows df)
    /\ sum_list (ClassRow.count <$> rs) = length (rows df)
    /\ StronglySorted (fun r1 r2 => ClassRow.value r2 <= ClassRow.value r1) rs
    /\ forall r, r ∈ rs ->
         let g := filter (fun x => asset_class x = ClassRow.asset_class r) (rows df) in
         ClassRow.value r = Num.round2 (Num.Qsum (value_base <$> g))
         /\ ClassRow.count r = length g
         /\ (0 < ClassRow.count r)%nat
         /\ (ClassRow.has_cost_only r = true
             <-> exists x, x ∈ g /\ price_source x = "cost"%string)
         /\ ClassRow.label r
            = default (ClassRow.asset_class r)
                (ASSET_CLASS_LABELS !! ClassRow.asset_class r).
Proof.
  intros _. unfold get_asset_class_distribution.
  rewrite (load_bind _ df _ _ frame_loaded), total_test.
  rewrite <- list_fmap_compose.
  eexists. split; [reflexivity|].
  match goal with
  | |- Sql.order_by _ (?f <$> _) <> [] /\ _ => set (mk := f)
  end.
  destruct (grouped_rows asset_class (rows df) mk ClassRow.asset_class
              ClassRow.count ClassRow.value)
    as (Hnd & Hin & Hsum & Hsorted & Hrow & Hne).
  { intros [k g]. reflexivity. }
  { intros [k g]. reflexivity. }
  split; [exact (Hne rows_not_empty)|].
  split; [exact Hnd|]. split; [exact Hin|]. split; [exact Hsum|].
  split; [exact Hsorted|].
  intros r [Hr Hg]%Hrow. cbv zeta.
  set (g := filter _ _) in *. clearbody g.
  rewrite Hr. cbn. split; [reflexivity|]. split; [reflexivity|].
  split; [destruct g; [contradiction|cbn; lia]|].
  split; [|reflexivity].
  rewrite existsb_exists. split.
  - intros (x & Hx%list_elem_of_In & E%String.eqb_eq). eauto.
  - intros (x & Hx & E). exists x. rewrite <- list_elem_of_In.
    split; [exact Hx|]. now apply String.eqb_eq.
Qed.

(** X10: for a frame whose values do not sum to zero and a service that
    reads its value column, the distribution by currency has one row for
    each currency of the frame, the rows in descending order of their
    rounded value; the row of a currency gives the rounded sum of the
    values of its rows, their number (the counts add up to the number of
    rows of the frame) and the label of the currency, the code itself when
    it has none. *)
Theorem currency_distribution_groups :
  reads_value_column svc df ->
  exists rs,
    get_currency_distribution svc h = Some (Ok rs, h)
    /\ rs <> []
    /\ NoDup (CurrencyRow.currency <$> rs)
    /\ (forall c, c ∈ CurrencyRow.currency <$> rs <-> c ∈ currency <$> rows df)
    /\ sum_list (CurrencyRow.count <$> rs) = length (rows df)
    /\ StronglySorted (fun r1 r2 => CurrencyRow.value r2 <= CurrencyRow.value r1) rs
    /\ forall r, r ∈ rs ->
         let g := filter (fun x => currency x = CurrencyRow.currency r) (rows df) in
         CurrencyRow.value r = Num.round2 (Num.Qsum (value_base <$> g))
         /\ CurrencyRow.count r = length g
         /\ (0 < CurrencyRow.count r)%nat
         /\ CurrencyRow.label r
            = default (CurrencyRow.currency r)
                (CURRENCY_LABELS !! CurrencyRow.currency r).
Proof.
  intros _. unfold get_currency_distribution.
  rewrite (load_bind _ df _ _ frame_loaded), total_test.
  rewrite <- list_fmap_compose.
  eexists. split; [reflexivity|].
  match goal with
  | |- Sql.order_by _ (?f <$> _) <> [] /\ _ => set (mk := f)
  end.
  destruct (grouped_rows currency (rows df) mk CurrencyRow.currency
              CurrencyRow.count CurrencyRow.value)
    as (Hnd & Hin & Hsum & Hsorted & Hrow & Hne).
  { intros [k g]. reflexivity. }
  { intros [k g]. reflexivity. }
  split; [exact (Hne rows_not_empty)|].
  split; [exact Hnd|]. split; [exact Hin|]. split; [exact Hsum|].
  split; [exact Hsorted|].
  intros r [Hr Hg]%Hrow. cbv zeta.
  set (g := filter _ _) in *. clearbody g.
  rewrite Hr. cbn. split; [reflexivity|]. split; [reflexivity|].
  split; [destruct g; [contradiction|cbn; lia]|reflexivity].
Qed.

End DistributionGroups.

Lemma total_mixed : ~ total_of (snapshot_of ledger_mixed) == 0.
Proof. intros H. vm_compute in H. discriminate. Qed.

Lemma class_distribution_groups_witness :
  exists rs,
    AnalysisService.get_asset_class_distribution analysis_cny
      (snapshot_store ledger_mixed)
    = Some (Ok rs, snapshot_store ledger_mixed)
    /\ NoDup (ClassRow.asset_class <$> rs)
    /\ sum_list (ClassRow.count <$> rs) = length (rows (snapshot_of ledger_mixed))
    /\ StronglySorted (fun r1 r2 => ClassRow.value r2 <= ClassRow.value r1) rs.
Proof.
  destruct (class_distribution_groups analysis_cny (snapshot_store ledger_mixed)
              (snapshot_of ledger_mixed) snapshot_store_mixed total_mixed
              value_column_mixed)
    as (rs & Hrs & _ & Hnd & _ & Hsum & Hsorted & _).
  exists rs. auto.
Defined.

Lemma currency_distribution_groups_witness :
  exists rs,
    AnalysisService.get_currency_distribution analysis_cny
      (snapshot_store ledger_mixed)
    = Some (Ok rs, snapshot_store ledger_mixed)
    /\ NoDup (CurrencyRow.currency <$> rs)
    /\ sum_list (CurrencyRow.count <$> rs) = length (rows (snapshot_of ledger_mixed))
    /\ StronglySorted (fun r1 r2 => CurrencyRow.value r2 <= CurrencyRow.value r1) rs.
Proof.
  destruct (currency_distribution_groups analysis_cny (snapshot_store ledger_mixed)
              (snapshot_of ledger_mixed) snapshot_store_mixed total_mixed
              value_column_mixed)
    as (rs & Hrs & _ & Hnd & _ & Hsum & Hsorted & _).
  exists rs. auto.
Defined.

(** The currencies of the mixed ledger: 18000 in USD before 500 in CNY. *)
Example currency_distribution_mixed :
  exists rs,
    AnalysisService.get_currency_distribution analysis_cny
      (snapshot_store ledger_mixed)
    = Some (Ok rs, snapshot_store ledger_mixed)
    /\ CurrencyRow.currency <$> rs = ["USD"; "CNY"]%string
    /\ CurrencyRow.count <$> rs = [2; 2]%nat
    /\ Forall2 Qeq (CurrencyRow.value <$> rs) [18000; 500].
Proof.
  eexists. split; [vm_compute; reflexivity|].
  split; [reflexivity|]. split; [reflexivity|].
  repeat constructor.
Qed.

(** ** The rates of a snapshot *)

Lemma elem_of_concat {A} (x : A) (ls : list (list A)) :
  x ∈ concat ls <-> exists l, l ∈ ls /\ x ∈ l.
Proof.
  rewrite list_elem_of_In, in_concat. split.
  - intros (l & Hl & Hx). exists l. now rewrite !list_elem_of_In.
  - intros (l & Hl & Hx). exists l. now rewrite <- !list_elem_of_In.
Qed.

(** What [get_rate] prints for the target of the service. *)
Lemma get_rate_warning (fx : FxService.t) (f f' t' : string) :
  MissingRate f' t' ∈ snd (FxService.get_rate fx f None)
  <-> f' = f /\ t' = FxService._target fx /\ f <> FxService._target fx
      /\ FxService._db_rates fx !! f = None
      /\ FxService.FALLBACK_RATES !! (f, FxService._target fx) = None.
Proof.
  unfold FxService.get_rate. cbn [Py.or_].
  destruct (String.eqb_spec f (FxService._target fx)) as [E|Hne].
  - cbn. rewrite elem_of_nil. tauto.
  - rewrite String.eqb_refl.
    destruct (FxService._db_rates fx !! f) as [r|].
    + cbn. rewrite elem_of_nil. split; [tauto|]. intros (_ & _ & _ & ? & _). discriminate.
    + destruct (FxService.FALLBACK_RATES !! (f, FxService._target fx)) as [r|]; cbn.
      * rewrite elem_of_nil. split; [tauto|]. intros (_ & _ & _ & _ & ?). discriminate.
      * rewrite list_elem_of_singleton. split.
        -- intros [= -> ->]. auto.
        -- intros (-> & -> & _). reflexivity.
Qed.

Lemma get_rate_same (fx : FxService.t) :
  fst (FxService.get_rate fx (FxService._target fx) None) = 1.
Proof.
  unfold FxService.get_rate. cbn [Py.or_]. now rewrite String.eqb_refl.
Qed.

Section SnapshotRates.
Import PortfolioRepository PortfolioService.
Variable self : PortfolioService.t.

Lemma security_row_rate (mp : gmap string (Q * date)) (pos : Position) :
  let r := security_row self mp pos in
  currency (fst r) = pos_currency pos
  /\ value_base (fst r)
     = value_local (fst r) * fst (FxService.get_rate (_fx self) (pos_currency pos) None)
  /\ snd r = snd (FxService.get_rate (_fx self) (pos_currency pos) None).
Proof.
  unfold security_row, FxService.convert.
  destruct (mp !! pos_ticker pos);
    destruct (FxService.get_rate (_fx self) (pos_currency pos) None); cbn; auto.
Qed.

Lemma cash_row_rate (cb : CashBalance) :
  cash_row self cb = (None, [])
  \/ exists item,
       cash_row self cb
       = (Some item, snd (FxService.get_rate (_fx self) (cb_currency cb) None))
       /\ currency item = cb_currency cb
       /\ value_base item
          = value_local item * fst (FxService.get_rate (_fx self) (cb_currency cb) None).
Proof.
  unfold cash_row, FxService.convert.
  destruct (Qle_bool _ _); [now left|]. right.
  destruct (FxService.get_rate (_fx self) (cb_currency cb) None).
  eexists. split; [reflexivity|]. cbn. auto.
Qed.

Lemma snapshot_rates_rows (as_of_date : option date) (df : DataFrame)
    (out : list line) :
  get_full_portfolio self as_of_date = Ok (df, out) ->
  (forall r, r ∈ rows df ->
     value_base r
     = value_local r * fst (FxService.get_rate (_fx self) (currency r) None))
  /\ (forall l, l ∈ out <->
        exists r, r ∈ rows df
                  /\ l ∈ snd (FxService.get_rate (_fx self) (currency r) None)).
Proof.
  unfold get_full_portfolio, _build_security_df, _build_cash_df.
  destruct (get_positions (_repo self) as_of_date) as [ps|]; [|discriminate].
  intros [= <- <-]. cbn [rows concat_frames frame_of_rows fst snd].
  set (mp := get_latest_market_prices (_repo self)).
  set (cbs := get_cash_balances (_repo self) as_of_date).
  assert (Hrows : forall r,
    r ∈ Sql.order_by snapshot_order
          ((security_row self mp <$> ps).*1 ++ omap fst (cash_row self <$> cbs))
    <-> (exists pos, pos ∈ ps /\ r = fst (security_row self mp pos))
        \/ (exists cb, cb ∈ cbs /\ fst (cash_row self cb) = Some r)).
  { intros r. rewrite elem_of_order_by, elem_of_app, <- list_fmap_compose,
      list_elem_of_fmap, omap_fmap_list, list_elem_of_omap.
    split; (intros [(x & H1 & H2)|(x & H1 & H2)]; [left|right]; eauto). }
  split.
  - intros r [(pos & _ & ->)|(cb & _ & Hcb)]%Hrows.
    + destruct (security_row_rate mp pos) as (-> & Hv & _). exact Hv.
    + destruct (cash_row_rate cb) as [E|(item & E & Hc & Hv)];
        rewrite E in Hcb; [discriminate|].
      injection Hcb as <-. now rewrite Hc.
  - intros l. rewrite elem_of_app, !elem_of_concat. split.
    + intros [(o & Ho & Hl)|(o & Ho & Hl)].
      * apply list_elem_of_fmap in Ho as (x & -> & (pos & -> & Hpos)%list_elem_of_fmap).
        exists (fst (security_row self mp pos)). split; [apply Hrows; eauto|].
        destruct (security_row_rate mp pos) as (-> & _ & <-). exact Hl.
      * apply list_elem_of_fmap in Ho as (x & -> & (cb & -> & Hcb)%list_elem_of_fmap).
        destruct (cash_row_rate cb) as [E|(item & E & Hc & _)]; rewrite E in Hl.
        -- now apply elem_of_nil in Hl.
        -- exists item. split; [apply Hrows; right; exists cb; now rewrite E|].
           now rewrite Hc.
    + intros (r & [(pos & Hpos & ->)|(cb & Hcb & Hr)]%Hrows & Hl).
      * left. exists (snd (security_row self mp pos)). split.
        -- apply list_elem_of_fmap. eexists. split; [reflexivity|].
           apply list_elem_of_fmap. eauto.
        -- destruct (security_row_rate mp pos) as (Hc & _ & ->). now rewrite <- Hc.
      * right. exists (snd (cash_row self cb)). split.
        -- apply list_elem_of_fmap. eexists. split; [reflexivity|].
           apply list_elem_of_fmap. eauto.
        -- destruct (cash_row_rate cb) as [E|(item & E & Hc & _)];
             rewrite E in Hr |- *; [discriminate|].
           injection Hr as <-. cbn. now rewrite <- Hc.
Qed.

End SnapshotRates.

(** X11: every row of a snapshot is valued in the reporting currency at
    its local value times the rate resolved for its currency, a row in the
    reporting currency at its local value; and a missing rate is reported
    exactly for the currencies of the rows, other than the reporting
    currency, that have neither a persisted rate nor a fallback rate. *)
Theorem snapshot_rates (conn : Database) (base : string) (d : option date)
    (df : DataFrame) (out : list line) :
  PortfolioService.get_full_portfolio (PortfolioService.__init__ conn base) d
  = Ok (df, out) ->
  (forall r, r ∈ rows df ->
     value_base r
     = value_local r
       * fst (FxService.get_rate (FxService.__init__ conn base) (currency r) None)
     /\ (currency r = base -> value_base r == value_local r))
  /\ (forall f t,
        MissingRate f t ∈ out
        <-> t = base /\ f <> base
            /\ (exists r, r ∈ rows df /\ currency r = f)
            /\ PortfolioRepository.get_latest_exchange_rates conn base !! f = None
            /\ FxService.FALLBACK_RATES !! (f, base) = None).
Proof.
  intros [Hval Hout]%snapshot_rates_rows.
  cbn [PortfolioService._fx PortfolioService.__init__] in Hval, Hout.
  split.
  - intros r Hr. split; [now apply Hval|].
    intros E. rewrite (Hval r Hr), E.
    pose proof (get_rate_same (FxService.__init__ conn base)) as H1.
    cbn [FxService._target FxService.__init__] in H1. rewrite H1. ring.
  - intros f t. rewrite Hout. split.
    + intros (r & Hr & (-> & -> & Hne & Hdb & Hfb)%get_rate_warning).
      cbn in Hne, Hdb, Hfb. cbn. eauto 10.
    + intros (-> & Hne & (r & Hr & <-) & Hdb & Hfb).
      exists r. split; [exact Hr|]. apply get_rate_warning. cbn. auto.
Qed.

Lemma snapshot_rates_witness :
  (forall r, r ∈ rows (snapshot_of ledger_mixed) ->
     value_base r
     = value_local r
       * fst (FxService.get_rate (FxService.__init__ ledger_mixed "CNY") (currency r) None)
     /\ (currency r = "CNY"%string -> value_base r == value_local r))
  /\ (forall f t,
        MissingRate f t ∈ warnings_of ledger_mixed
        <-> t = "CNY"%string /\ f <> "CNY"%string
            /\ (exists r, r ∈ rows (snapshot_of ledger_mixed) /\ currency r = f)
            /\ PortfolioRepository.get_latest_exchange_rates ledger_mixed "CNY" !! f = None
            /\ FxService.FALLBACK_RATES !! (f, "CNY"%string) = None).
Proof.
  apply (snapshot_rates ledger_mixed "CNY" None (snapshot_of ledger_mixed)
           (warnings_of ledger_mixed)).
  exact snapshot_mixed.
Defined.

(** None of the nineteen currencies has a rate: each is reported. *)
Example warnings_nineteen :
  warnings_of ledger_nineteen = (fun c => MissingRate c "CNY") <$> nineteen_codes.
Proof. vm_compute. reflexivity. Qed.

(** ** Distributions of a snapshot without value *)

Section EmptyDistributions.
Import AnalysisService.
Variable svc : AnalysisService.t.
Variable h : heap.
Variable df : DataFrame.

(** X12: for a service that reads the value column of its frame, the
    distribution by asset class and the one by currency are empty exactly
    when the values of the frame sum to zero, whatever rows it has; the
    distribution by account is empty exactly when they sum to zero or no
    row is a CASH row. *)
Theorem distributions_empty_iff :
  h !! _df svc = Some df ->
  reads_value_column svc df ->
  exists cs us acs,
    get_asset_class_distribution svc h = Some (Ok cs, h)
    /\ get_currency_distribution svc h = Some (Ok us, h)
    /\ get_account_distribution svc h = Some (Ok acs, h)
    /\ (cs = [] <-> total_of df == 0)
    /\ (us = [] <-> total_of df == 0)
    /\ (acs = [] <->
        total_of df == 0 \/ forall r, r ∈ rows df -> type r <> "CASH"%string).
Proof.
  intros Hdf _.
  unfold get_asset_class_distribution, get_currency_distribution,
    get_account_distribution.
  rewrite !(load_bind _ df _ _ Hdf).
  fold (total_of df).
  destruct (Qeq_bool (total_of df) 0) eqn:Hz.
  - apply Qeq_bool_iff in Hz.
    eexists _, _, _. repeat (split; [reflexivity|]). tauto.
  - assert (Hne : ~ total_of df == 0).
    { intros E%Qeq_bool_iff. congruence. }
    assert (Hrows : rows df <> []).
    { intros E. apply Hne. unfold total_of. rewrite E. reflexivity. }
    rewrite <- !list_fmap_compose.
    eexists _, _, _. repeat (split; [reflexivity|]).
    split; [|split].
    + split; [|tauto]. intros E. exfalso. revert E.
      match goal with
      | |- Sql.order_by _ (?f <$> _) = [] -> _ => set (mk := f)
      end.
      apply (grouped_rows asset_class (rows df) mk ClassRow.asset_class
               ClassRow.count ClassRow.value); [intros [k g]..|]; auto.
    + split; [|tauto]. intros E. exfalso. revert E.
      match goal with
      | |- Sql.order_by _ (?f <$> _) = [] -> _ => set (mk := f)
      end.
      apply (grouped_rows currency (rows df) mk CurrencyRow.currency
               CurrencyRow.count CurrencyRow.value); [intros [k g]..|]; auto.
    + split.
      * intros E%fmap_nil_inv. right. intros r Hr Ht.
        assert (r ∈ filter (fun r => type r = "CASH"%string) (rows df)) as Hin
          by (apply list_elem_of_filter; auto).
        rewrite E in Hin. now apply elem_of_nil in Hin.
      * intros [E|Hno]; [contradiction|].
        rewrite (filter_none _ (rows df) Hno). reflexivity.
Qed.

End EmptyDistributions.

Lemma snapshot_store_unpriced :
  snapshot_store ledger_unpriced !! AnalysisService._df analysis_cny
  = Some (snapshot_of ledger_unpriced).
Proof. vm_compute. reflexivity. Qed.

Lemma distributions_empty_iff_witness :
  exists cs us acs,
    AnalysisService.get_asset_class_distribution analysis_cny
      (snapshot_store ledger_unpriced)
    = Some (Ok cs, snapshot_store ledger_unpriced)
    /\ AnalysisService.get_currency_distribution analysis_cny
         (snapshot_store ledger_unpriced)
       = Some (Ok us, snapshot_store ledger_unpriced)
    /\ AnalysisService.get_account_distribution analysis_cny
         (snapshot_store ledger_unpriced)
       = Some (Ok acs, snapshot_store ledger_unpriced)
    /\ (cs = [] <-> total_of (snapshot_of ledger_unpriced) == 0)
    /\ (us = [] <-> total_of (snapshot_of ledger_unpriced) == 0)
    /\ (acs = [] <->
        total_of (snapshot_of ledger_unpriced) == 0
        \/ forall r, r ∈ rows (snapshot_of ledger_unpriced) -> type r <> "CASH"%string).
Proof.
  apply (distributions_empty_iff analysis_cny (snapshot_store ledger_unpriced)
           (snapshot_of ledger_unpriced)).
  - exact snapshot_store_unpriced.
  - vm_compute. reflexivity.
Defined.

(** A position bought without a price is in the snapshot with the value 0
    and is counted by the summary, yet no distribution shows it. *)
Example unpriced_position_hidden :
  length (rows (snapshot_of ledger_unpriced)) = 1%nat
  /\ total_of (snapshot_of ledger_unpriced) == 0
  /\ AnalysisService.get_asset_class_distribution analysis_cny
       (snapshot_store ledger_unpriced)
     = Some (Ok [], snapshot_store ledger_unpriced)
  /\ exists s,
       AnalysisService.get_summary analysis_cny (snapshot_store ledger_unpriced)
       = Some (Ok s, snapshot_store ledger_unpriced)
       /\ Summary.position_count s = 1%nat
       /\ Summary.price_warn_count s = 1%nat.
Proof.
  split; [reflexivity|]. split; [reflexivity|].
  split; [vm_compute; reflexivity|].
  eexists. split; [vm_compute; reflexivity|]. split; reflexivity.
Qed.

(** ** From the ledger to the analysis *)

Lemma value_column_in_schema (self : PortfolioService.t) :
  ("value_" +:+ Py.lower (PortfolioService._base self))
  ∈ PortfolioService._schema_columns self.
Proof.
  unfold PortfolioService._schema_columns.
  do 11 apply list_elem_of_further. apply list_elem_of_here.
Qed.

(** X13: the whole valuation, from the ledger to the analysis, never
    raises: the snapshot of a ledger in a reporting currency has the value
    column the analysis in that currency looks for, whatever the code of
    the currency, so that the analysis is constructed on a copy of the
    snapshot and every sequence of its methods returns. *)
Theorem valuation_never_raises (conn : Database) (base : string)
    (d : option date) (h : heap) (l : loc) :
  exists df out svc h',
    PortfolioService.get_full_portfolio (PortfolioService.__init__ conn base) d
    = Ok (df, out)
    /\ AnalysisService.__init__ l base (<[l := df]> h) = Some (Ok svc, h')
    /\ AnalysisService._base svc = base
    /\ AnalysisService._df svc <> l
    /\ h' !! AnalysisService._df svc = Some df
    /\ h' !! l = Some df
    /\ forall ms : list AnalysisService.method,
         exists answers, AnalysisService.calls svc ms h' = Some (Ok answers, h').
Proof.
  set (self := PortfolioService.__init__ conn base).
  destruct (get_positions_total (PortfolioService._repo self) d) as [ps Hps].
  destruct (PortfolioService.get_full_portfolio self d) as [[df out]|e] eqn:E.
  2:{ exfalso. revert E.
      unfold PortfolioService.get_full_portfolio, PortfolioService._build_security_df.
      rewrite Hps. discriminate. }
  destruct (get_full_portfolio_rows self d df out E) as (_ & _ & Hcols & _).
  set (h0 := <[l := df]> h).
  assert (Hl : h0 !! l = Some df) by apply lookup_insert_eq.
  pose proof (init_run l base h0 df Hl) as Hinit. cbv zeta in Hinit.
  rewrite bool_decide_eq_true_2 in Hinit
    by (rewrite Hcols; apply (value_column_in_schema self)).
  pose proof (fresh_loc h0 l df Hl) as Hfresh.
  eexists df, out, _, _. split; [reflexivity|]. split; [exact Hinit|].
  cbn [AnalysisService._base AnalysisService._df].
  split; [reflexivity|]. split; [exact Hfresh|].
  split; [apply lookup_insert_eq|].
  split; [now rewrite lookup_insert_ne|].
  intros ms. eapply calls_run. cbn [AnalysisService._df]. apply lookup_insert_eq.
Qed.

(** ** The recent transactions *)

Lemma left_join_one {T B K} (on : T -> B -> bool) (key : B -> K)
    (rows : list T) (table : list B) :
  NoDup (key <$> table) ->
  (forall t b b', on t b = true -> on t b' = true -> key b = key b') ->
  TransactionRepository.left_join on rows table
  = (fun t => (t, head (filter (fun b => on t b = true) table))) <$> rows.
Proof.
  intros Hnd Hkey. unfold TransactionRepository.left_join.
  induction rows as [|t rows IH]; [reflexivity|].
  cbn [flat_map]. rewrite IH, fmap_cons. f_equal.
  destruct (filter (fun b => on t b = true) table) as [|b bs] eqn:E; [reflexivity|].
  assert (b ∈ filter (fun b => on t b = true) table) as [Hb Hin]%list_elem_of_filter
    by (rewrite E; now left).
  rewrite (filter_unique key _ table b Hnd Hin) in E.
  - rewrite decide_True in E by exact Hb. now injection E as <-.
  - intros x Hx. now apply (Hkey t).
Qed.

Section RecentTransactions.
Import TransactionRepository.
Variable conn : Database.
Variable limit : nat.
Hypothesis asset_ids_unique : NoDup (a_id <$> tb_assets conn).
Hypothesis account_ids_unique : NoDup (acc_id <$> tb_accounts conn).

Lemma recent_joined :
  left_join (fun r ac => bool_decide (t_account_id (fst r) = acc_id ac))
    (left_join (fun t a => bool_decide (t_asset_id t = Some (a_id a)))
       (tb_transactions conn) (tb_assets conn))
    (tb_accounts conn)
  = (fun t => (t, asset_of conn t, account_of conn t)) <$> tb_transactions conn.
Proof.
  rewrite (left_join_one _ a_id _ _ asset_ids_unique).
  2:{ intros t a a' H1%bool_decide_eq_true H2%bool_decide_eq_true. congruence. }
  rewrite (left_join_one _ acc_id _ _ account_ids_unique).
  2:{ intros t a a' H1%bool_decide_eq_true H2%bool_decide_eq_true. congruence. }
  rewrite <- list_fmap_compose. apply list_fmap_ext. intros _ t _.
  unfold compose, asset_of, account_of. cbn [fst]. f_equal; [f_equal|].
  - f_equal. apply list_filter_iff. intros a. apply bool_decide_eq_true.
  - f_equal. apply list_filter_iff. intros a. apply bool_decide_eq_true.
Qed.

(** X14: with [id] the primary key of the assets and of the accounts, the
    recent transactions are [limit] transactions of the ledger, or all of
    them when it has fewer, each with the ticker of its asset and the name
    of its account when it has one, in descending order of their dates;
    no transaction left out is later than one that is listed. *)
Theorem recent_transactions :
  exists kept dropped,
    tb_transactions conn ≡ₚ kept ++ dropped
    /\ get_recent_transactions conn limit = recent_of conn <$> kept
    /\ length kept = min limit (length (tb_transactions conn))
    /\ StronglySorted (fun t1 t2 => (t_date t2 <= t_date t1)%Z) kept
    /\ forall k d, k ∈ kept -> d ∈ dropped -> (t_date d <= t_date k)%Z.
Proof.
  unfold get_recent_transactions. rewrite recent_joined.
  set (J := fun t => (t, asset_of conn t, account_of conn t)).
  set (sorted := Sql.order_by recent_order (J <$> tb_transactions conn)).
  assert (Hperm : sorted ≡ₚ J <$> tb_transactions conn)
    by apply order_by_Permutation.
  assert (Hsorted : StronglySorted (fun r1 r2 => recent_order r1 r2 = true) sorted).
  { apply order_by_sorted.
    - intros r1 r2. unfold recent_order. rewrite !Z.leb_le. lia.
    - intros r1 r2 r3. unfold recent_order. rewrite !Z.leb_le. lia. }
  assert (HJ : forall r, r ∈ sorted -> r = J (fst (fst r))).
  { intros r Hr. rewrite Hperm in Hr.
    now apply list_elem_of_fmap in Hr as (t & -> & _). }
  set (tx_of := fun r : Transaction * option Asset * option Account => fst (fst r)).
  exists (tx_of <$> take limit sorted), (tx_of <$> drop limit sorted).
  rewrite <- (take_drop limit sorted) in Hsorted.
  split; [|split; [|split; [|split]]].
  - rewrite <- fmap_app, take_drop, Hperm, <- list_fmap_compose.
    rewrite (list_fmap_ext _ id (tb_transactions conn)) by reflexivity.
    now rewrite list_fmap_id.
  - rewrite <- list_fmap_compose. apply list_fmap_ext. intros i r Hr.
    unfold compose, recent_of. fold (J (tx_of r)). f_equal.
    apply HJ. eapply list_elem_of_lookup_2, lookup_take_Some. exact Hr.
  - rewrite length_fmap, length_take, (Permutation_length Hperm), length_fmap.
    reflexivity.
  - apply StronglySorted_app_1_l in Hsorted.
    eapply StronglySorted_fmap; [|exact Hsorted].
    intros r1 r2. unfold recent_order, tx_of. apply Z.leb_le.
  - intros k d (rk & -> & Hk)%list_elem_of_fmap (rd & -> & Hd)%list_elem_of_fmap.
    pose proof (StronglySorted_app_1_elem_of _ _ _ _ _ Hsorted Hk Hd) as H.
    unfold recent_order in H. now apply Z.leb_le in H.
Qed.

End RecentTransactions.

Lemma recent_transactions_witness :
  exists kept dropped,
    tb_transactions ledger_mixed ≡ₚ kept ++ dropped
    /\ TransactionRepository.get_recent_transactions ledger_mixed 3
       = recent_of ledger_mixed <$> kept
    /\ length kept = min 3 (length (tb_transactions ledger_mixed))
    /\ StronglySorted (fun t1 t2 => (t_date t2 <= t_date t1)%Z) kept
    /\ forall k d, k ∈ kept -> d ∈ dropped -> (t_date d <= t_date k)%Z.
Proof.
  apply (recent_transactions ledger_mixed 3 ledger_mixed_asset_ids
           ledger_mixed_account_ids).
Defined.

(** The three latest of the four transactions, the latest first. *)
Example recent_mixed :
  TransactionRepository.rr_date
    <$> TransactionRepository.get_recent_transactions ledger_mixed 3
  = [4; 3; 2]%Z
  /\ TransactionRepository.rr_ticker
       <$> TransactionRepository.get_recent_transactions ledger_mixed 3
     = [Some "CNA"; None; Some "ABC"]%string.
Proof. split; vm_compute; reflexivity. Qed.

(** ** The import script *)

Lemma str_app_nil_r (s : string) : s +:+ "" = s.
Proof.
  induction s as [|a s IH]; [reflexivity|].
  change (String a (s +:+ "") = String a s). now rewrite IH.
Qed.

Lemma str_app_assoc (s t u : string) : (s +:+ t) +:+ u = s +:+ (t +:+ u).
Proof.
  induction s as [|a s IH]; [reflexivity|].
  change (String a ((s +:+ t) +:+ u) = String a (s +:+ (t +:+ u))). now rewrite IH.
Qed.

Lemma str_app_empty (s t : string) : s +:+ t = "" -> s = "" /\ t = "".
Proof. destruct s; [intros H; now split | discriminate]. Qed.

Section ExtractTicker.
Import IbkrToTransactions.

Lemma paren_not_ticker : ticker_char "("%char = false.
Proof. reflexivity. Qed.

(** What the pattern matches: a run of characters of the class, not empty
    with what the group holds already, followed by a parenthesis. *)
Lemma match_ticker_run (t rest acc : string) :
  all_ticker t = true -> acc +:+ t <> "" ->
  match_ticker acc (t +:+ String "(" rest) = Some (acc +:+ t).
Proof.
  revert acc. induction t as [|c t IH]; intros acc Hall Hne.
  - change ("" +:+ String "(" rest) with (String "(" rest).
    cbn [match_ticker]. rewrite paren_not_ticker.
    rewrite str_app_nil_r in Hne |- *.
    apply String.eqb_neq in Hne. rewrite Hne. reflexivity.
  - change (String c t +:+ String "(" rest) with (String c (t +:+ String "(" rest)).
    cbn [match_ticker all_ticker] in *.
    apply andb_true_iff in Hall as [Hc Hall]. rewrite Hc.
    rewrite (IH (acc +:+ String c "") Hall).
    + now rewrite str_app_assoc.
    + rewrite str_app_assoc. exact Hne.
Qed.

Lemma match_ticker_inv (s acc m : string) :
  match_ticker acc s = Some m ->
  exists t rest,
    s = t +:+ String "(" rest /\ all_ticker t = true
    /\ m = acc +:+ t /\ m <> "".
Proof.
  revert acc. induction s as [|c s IH]; intros acc; cbn [match_ticker]; [discriminate|].
  destruct (ticker_char c) eqn:Hc.
  - destruct (match_ticker (acc +:+ String c "") s) as [m'|] eqn:E.
    + intros [= <-]. apply IH in E as (t & rest & -> & Hall & -> & Hne).
      exists (String c t), rest. rewrite str_app_assoc in Hne |- *.
      repeat split; auto. cbn [all_ticker]. now rewrite Hc.
    + destruct (Ascii.eqb_spec c "("%char) as [->|]; [discriminate|].
      rewrite andb_false_r. discriminate.
  - destruct (String.eqb_spec acc ""); [discriminate|].
    destruct (Ascii.eqb_spec c "("%char) as [->|]; [|discriminate].
    intros [= <-]. exists ""%string, s. rewrite str_app_nil_r. auto.
Qed.

(** X15: the ticker taken from a description is the run of capital
    letters, digits and dots the description starts with, when the run is
    not empty and a parenthesis follows it; it is empty for every other
    description. *)
Theorem extract_ticker_from_desc_run (description : string) :
  let ticker := extract_ticker_from_desc description in
  (ticker <> ""%string ->
   all_ticker ticker = true
   /\ exists rest, description = ticker +:+ String "(" rest)
  /\ (forall t rest,
        t <> ""%string -> all_ticker t = true ->
        description = t +:+ String "(" rest -> ticker = t).
Proof.
  cbv zeta. unfold extract_ticker_from_desc. split.
  - destruct (match_ticker "" description) as [m|] eqn:E; [|congruence].
    intros _. apply match_ticker_inv in E as (t & rest & -> & Hall & -> & _).
    split; [exact Hall|]. exists rest. reflexivity.
  - intros t rest Hne Hall ->.
    now rewrite (match_ticker_run t rest "" Hall Hne).
Qed.

End ExtractTicker.

Example extract_ticker_sgov :
  IbkrToTransactions.extract_ticker_from_desc "SGOV(US46436E7186) Cash Dividend"
  = "SGOV"%string
  /\ IbkrToTransactions.extract_ticker_from_desc "BRK.B(US0846707026) Dividend"
     = "BRK.B"%string
  /\ IbkrToTransactions.extract_ticker_from_desc "Credit Interest for Jan"
     = ""%string.
Proof. repeat split. Qed.

Section ParseIbkr.
Import IbkrToTransactions.

Lemma parse_rows_cons row reader headers rows :
  parse_rows (row :: reader) headers rows
  = if is_header row then parse_rows reader (Some (drop 2 row)) rows
    else if is_data row then
      match headers with
      | None => Raise (ValueError "未找到 Transaction History Header 行")
      | Some hs => parse_rows reader headers (rows ++ [dict_zip hs (drop 2 row)])
      end
    else parse_rows reader headers rows.
Proof.
  destruct row as [|c0 [|c1 cells]]; reflexivity.
Qed.

Lemma header_not_data row : is_header row = true -> is_data row = false.
Proof.
  destruct row as [|c0 [|c1 cells]]; try discriminate. cbn.
  intros [_ ->%String.eqb_eq]%andb_true_iff. apply andb_false_r.
Qed.

Lemma in_force_cons headers row pre :
  in_force headers (row :: pre)
  = in_force (if is_header row then Some (drop 2 row) else headers) pre.
Proof.
  unfold in_force, headers_after. rewrite filter_cons.
  destruct (is_header row) eqn:Hrow.
  - rewrite decide_True by reflexivity. rewrite last_cons.
    destruct (last (filter _ pre)); reflexivity.
  - rewrite decide_False by discriminate. reflexivity.
Qed.

Lemma count_data_cons row pre :
  length (filter (fun r => is_data r = true) (row :: pre))
  = ((if is_data row then 1 else 0)
     + length (filter (fun r => is_data r = true) pre))%nat.
Proof.
  rewrite filter_cons. destruct (is_data row) eqn:E.
  - now rewrite decide_True.
  - now rewrite decide_False by discriminate.
Qed.

Lemma parse_rows_records reader : forall headers rows,
  match parse_rows reader headers rows with
  | Ok records =>
      exists news,
        records = rows ++ news
        /\ length news = length (filter (fun r => is_data r = true) reader)
        /\ forall pre row post,
             reader = pre ++ row :: post -> is_data row = true ->
             exists hs,
               in_force headers pre = Some hs
               /\ news !! length (filter (fun r => is_data r = true) pre)
                  = Some (dict_zip hs (drop 2 row))
  | Raise e =>
      e = ValueError "未找到 Transaction History Header 行"
      /\ exists pre row post,
           reader = pre ++ row :: post /\ is_data row = true
           /\ in_force headers pre = None
  end.
Proof.
  induction reader as [|r0 reader IH]; intros headers rows.
  - cbn. exists []. rewrite app_nil_r. split; [reflexivity|]. split; [reflexivity|].
    intros [|? ?] ? ? ?; discriminate.
  - rewrite parse_rows_cons.
    destruct (is_header r0) eqn:Hh; [|destruct (is_data r0) eqn:Hd].
    + specialize (IH (Some (drop 2 r0)) rows).
      destruct (parse_rows reader _ rows) as [records|e].
      * destruct IH as (news & -> & Hlen & Hrec). exists news.
        split; [reflexivity|]. split.
        -- rewrite count_data_cons, (header_not_data _ Hh). exact Hlen.
        -- intros [|p pre] row post E Hrow.
           ++ injection E as <- _. rewrite (header_not_data _ Hh) in Hrow. discriminate.
           ++ injection E as <- E. rewrite in_force_cons, Hh, count_data_cons,
                (header_not_data _ Hh). now apply (Hrec pre row post).
      * destruct IH as (-> & pre & row & post & -> & Hrow & Hnone).
        split; [reflexivity|]. exists (r0 :: pre), row, post.
        split; [reflexivity|]. split; [exact Hrow|].
        now rewrite in_force_cons, Hh.
    + destruct headers as [hs|].
      * specialize (IH (Some hs) (rows ++ [dict_zip hs (drop 2 r0)])).
        destruct (parse_rows reader _ _) as [records|e].
        -- destruct IH as (news & -> & Hlen & Hrec).
           exists (dict_zip hs (drop 2 r0) :: news).
           split; [now rewrite <- app_assoc|]. split.
           ++ rewrite count_data_cons, Hd. cbn. now rewrite Hlen.
           ++ intros [|p pre] row post E Hrow.
              ** injection E as <- _. exists hs. split; reflexivity.
              ** injection E as <- E.
                 rewrite in_force_cons, Hh, count_data_cons, Hd.
                 now apply (Hrec pre row post).
        -- destruct IH as (-> & pre & row & post & -> & Hrow & Hnone).
           split; [reflexivity|]. exists (r0 :: pre), row, post.
           split; [reflexivity|]. split; [exact Hrow|].
           now rewrite in_force_cons, Hh.
      * split; [reflexivity|]. exists [], r0, reader.
        split; [reflexivity|]. split; [exact Hd|]. reflexivity.
    + specialize (IH headers rows).
      destruct (parse_rows reader headers rows) as [records|e].
      * destruct IH as (news & -> & Hlen & Hrec). exists news.
        split; [reflexivity|]. split.
        -- rewrite count_data_cons, Hd. exact Hlen.
        -- intros [|p pre] row post E Hrow.
           ++ injection E as <- _. congruence.
           ++ injection E as <- E. rewrite in_force_cons, Hh, count_data_cons, Hd.
              now apply (Hrec pre row post).
      * destruct IH as (-> & pre & row & post & -> & Hrow & Hnone).
        split; [reflexivity|]. exists (r0 :: pre), row, post.
        split; [reflexivity|]. split; [exact Hrow|].
        now rewrite in_force_cons, Hh.
Qed.

(** X16: the records read from the rows of a file are those of its data
    rows of the section Transaction History, in the order of the file,
    each read with the field names of the last header row above it; the
    reading fails, with a [ValueError], exactly when a data row has no
    header row above it. *)
Theorem parse_ibkr_csv_records (reader : list (list string)) :
  match parse_ibkr_csv reader with
  | Ok records =>
      length records = length (filter (fun r => is_data r = true) reader)
      /\ forall pre row post,
           reader = pre ++ row :: post -> is_data row = true ->
           exists hs,
             headers_after pre = Some hs
             /\ records !! length (filter (fun r => is_data r = true) pre)
                = Some (dict_zip hs (drop 2 row))
  | Raise e =>
      e = ValueError "未找到 Transaction History Header 行"
      /\ exists pre row post,
           reader = pre ++ row :: post /\ is_data row = true
           /\ headers_after pre = None
  end.
Proof.
  unfold parse_ibkr_csv.
  pose proof (parse_rows_records reader None []) as H.
  destruct (parse_rows reader None []) as [records|e].
  - destruct H as (news & -> & Hlen & Hrec). split; [exact Hlen|].
    intros pre row post E Hrow.
    destruct (Hrec pre row post E Hrow) as (hs & Hhs & Hnew).
    exists hs. split; [|exact Hnew].
    unfold in_force in Hhs. destruct (headers_after pre); [exact Hhs|discriminate].
  - destruct H as (-> & pre & row & post & E & Hrow & Hnone).
    split; [reflexivity|]. exists pre, row, post.
    split; [exact E|]. split; [exact Hrow|].
    unfold in_force in Hnone. destruct (headers_after pre); [discriminate|reflexivity].
Qed.

(** [dict(zip(headers, cells))] gives each field name the cell at the
    last position it has among the names that have a cell. *)
Lemma dict_zip_lookup (headers cells : list string) (k : string) :
  dict_zip headers cells !! k
  = snd <$> last (filter (fun kv => fst kv = k) (zip headers cells)).
Proof.
  unfold dict_zip.
  assert (forall (l : list (string * string)) (m : gmap string string),
    foldl (fun m kv => <[fst kv := snd kv]> m) m l !! k
    = match last (filter (fun kv => fst kv = k) l) with
      | Some kv => Some (snd kv)
      | None => m !! k
      end) as Hfold.
  { induction l as [|[k' v] l IH]; intros m; [reflexivity|].
    cbn [foldl]. rewrite IH, filter_cons. cbn [fst snd].
    destruct (decide (k' = k)) as [->|Hne].
    - rewrite last_cons. destruct (last (filter _ l)); [reflexivity|].
      now rewrite lookup_insert_eq.
    - destruct (last (filter _ l)); [reflexivity|].
      now rewrite lookup_insert_ne. }
  rewrite Hfold, lookup_empty.
  destruct (last _); reflexivity.
Qed.

End ParseIbkr.

Example parse_ibkr_csv_rows :
  IbkrToTransactions.parse_ibkr_csv ibkr_rows
  = Ok [ {[ "Date" := "2024-01-02"; "Symbol" := "SGOV"; "Net Amount" := "-1000" ]};
         {[ "Date" := "2024-01-03"; "Symbol" := "-"; "Net Amount" := "5.2" ]} ]%string.
Proof. vm_compute. reflexivity. Qed.

(** A data row above the header row: the reading fails. *)
Example parse_ibkr_csv_no_header :
  IbkrToTransactions.parse_ibkr_csv (rev ibkr_rows)
  = Raise (ValueError "未找到 Transaction History Header 行").
Proof. reflexivity. Qed.
